(** * Schedule generation engine

    A shallow embedding of [backend/services/schedule_generator.py] and of
    the record types of [backend/models/course.py] and
    [backend/models/schedule.py] that the generator reads.

    Conventions of the embedding:
    - Python [float] and [int] quantities that enter the quality score are
      exact rationals ([Q]); the only irrational operation of the source,
      [variance ** 0.5], is a parameter [pow_half] of the development.
    - [Optional[T]] is [option T]; Python truthiness is written out
      ([truthy_int], [truthy_num], [truthy_list], [truthy_str]).
    - an attribute that a class does not declare but admits
      ([Config.extra = "allow"]) is an [attribute]: absent, or set to
      [None] or to a number.
    - a [dict] is an association list in insertion order, because the
      source iterates over [items()] and [values()].
    - a raised exception is the [Raise] branch of [result]. *)

From Stdlib Require Import List String Ascii Bool Arith ZArith QArith.
From Stdlib Require Import Qminmax Qabs Qpower Lia Lqa Permutation Sorted DecimalString.
Import ListNotations.

Local Open Scope string_scope.
Local Open Scope Q_scope.
Local Open Scope list_scope.

(** ** Python primitives *)

(** [datetime.time] (naive): compared as the tuple
    [(hour, minute, second, microsecond)]. *)
Record time := mk_time {
  hour : N;
  minute : N;
  second : N;
  microsecond : N
}.

Definition lex (c1 c2 : comparison) : comparison :=
  match c1 with Eq => c2 | _ => c1 end.

Definition time_compare (a b : time) : comparison :=
  lex (N.compare (hour a) (hour b))
   (lex (N.compare (minute a) (minute b))
     (lex (N.compare (second a) (second b))
          (N.compare (microsecond a) (microsecond b)))).

Definition time_ltb (a b : time) : bool :=
  match time_compare a b with Lt => true | _ => false end.

Definition time_leb (a b : time) : bool :=
  match time_compare a b with Gt => false | _ => true end.

Definition time_lt (a b : time) : Prop := time_compare a b = Lt.

(** [time(h, m)] *)
Definition hm (h m : N) : time := mk_time h m 0 0.

Definition truthy_int (o : option Z) : bool :=
  match o with Some z => negb (z =? 0)%Z | None => false end.

Definition truthy_num (o : option Q) : bool :=
  match o with Some q => negb (Qeq_bool q 0) | None => false end.

Definition truthy_list {A : Type} (o : option (list A)) : bool :=
  match o with Some (_ :: _) => true | _ => false end.

Definition truthy_str (o : option string) : bool :=
  match o with Some s => negb (s =? "") | None => false end.

(** [x or 0] on an optional number *)
Definition or_zero (o : option Q) : Q :=
  match o with Some q => q | None => 0 end.

Definition Qltb (a b : Q) : bool := negb (Qle_bool b a).

(** [max(a, b)] returns [a] unless [b > a]; [min(a, b)] returns [a] unless
    [b < a]. *)
Definition py_max (a b : Q) : Q := if Qltb a b then b else a.
Definition py_min (a b : Q) : Q := if Qltb b a then b else a.

(** [sum(xs)] starts from [0] and adds from the left. *)
Definition py_sum (xs : list Q) : Q := fold_left Qplus xs 0.

(** [str(n)] for an [int], and the rendering of an [Optional[int]] inside an
    f-string. *)
Definition str_int (z : Z) : string := NilZero.string_of_int (Z.to_int z).

Definition str_opt_int (o : option Z) : string :=
  match o with Some z => str_int z | None => "None" end.

(** [repr] of a list of strings, for identifiers free of quotes and
    escapes. *)
Definition repr_str (s : string) : string := ("'" ++ s ++ "'")%string.

Definition repr_list (l : list string) : string :=
  ("[" ++ String.concat ", " (map repr_str l) ++ "]")%string.

(** [set(days)]: the characters of a day string; two day strings have a
    common day when they share a character. *)
Definition chars (s : string) : list ascii := list_ascii_of_string s.

Definition char_in (c : ascii) (l : list ascii) : bool :=
  existsb (Ascii.eqb c) l.

Definition str_in (s : string) (l : list string) : bool :=
  existsb (String.eqb s) l.

Definition opt_eqb {A : Type} (eqb : A -> A -> bool) (a b : option A) : bool :=
  match a, b with
  | Some x, Some y => eqb x y
  | None, None => true
  | _, _ => false
  end.

(** ** Dictionaries in insertion order *)

Section Dict.
Context {K V : Type} (eqb : K -> K -> bool).

Fixpoint dict_get (d : list (K * V)) (k : K) : option V :=
  match d with
  | [] => None
  | (k', v) :: r => if eqb k' k then Some v else dict_get r k
  end.

(** [d[k] = v] *)
Fixpoint dict_set (d : list (K * V)) (k : K) (v : V) : list (K * V) :=
  match d with
  | [] => [(k, v)]
  | (k', v') :: r =>
      if eqb k' k then (k', v) :: r else (k', v') :: dict_set r k v
  end.

(** [d[k] = f(d[k])] on a [defaultdict] whose default is [dflt] *)
Fixpoint dict_update (dflt : V) (f : V -> V) (d : list (K * V)) (k : K)
  : list (K * V) :=
  match d with
  | [] => [(k, f dflt)]
  | (k', v') :: r =>
      if eqb k' k then (k', f v') :: r
      else (k', v') :: dict_update dflt f r k
  end.

Definition dict_keys (d : list (K * V)) : list K := map fst d.
Definition dict_values (d : list (K * V)) : list V := map snd d.
End Dict.

(** [d[k].append(x)] on a [defaultdict(list)] *)
Definition dict_append {K A : Type} (eqb : K -> K -> bool)
  (d : list (K * list A)) (k : K) (x : A) : list (K * list A) :=
  dict_update eqb [] (fun l => l ++ [x]) d k.

(** ** Exceptions *)

Inductive exn : Type :=
| ScheduleGeneratorError (message : string) (error_code : option string)
| ZeroDivisionError (message : string)
| AttributeError (message : string)
| TypeError (message : string)
| IndexError
| MemoryError.

Definition exn_str (e : exn) : string :=
  match e with
  | ScheduleGeneratorError m _ => m
  | ZeroDivisionError m => m
  | AttributeError m => m
  | TypeError m => m
  | IndexError | MemoryError => ""
  end.

Definition exn_code (e : exn) : option string :=
  match e with
  | ScheduleGeneratorError _ c => c
  | _ => None
  end.

Inductive result (A : Type) : Type :=
| Raise (e : exn)
| Return (a : A).
Arguments Raise {A} e.
Arguments Return {A} a.

Definition bind {A B : Type} (m : result A) (k : A -> result B) : result B :=
  match m with
  | Raise e => Raise e
  | Return a => k a
  end.

Notation "x <- m ;; k" := (bind m (fun x => k))
  (at level 61, m at next level, right associativity).

(** a [for] loop whose body may raise *)
Fixpoint for_each {A S : Type} (body : S -> A -> result S) (l : list A) (s : S)
  : result S :=
  match l with
  | [] => Return s
  | x :: r => s' <- body s x ;; for_each body r s'
  end.

(** a comprehension or an appending loop whose element may raise *)
Fixpoint map_result {A B : Type} (f : A -> result B) (l : list A)
  : result (list B) :=
  match l with
  | [] => Return []
  | x :: r => y <- f x ;; ys <- map_result f r ;; Return (y :: ys)
  end.

(** ** Data model (models/course.py, models/schedule.py) *)

(** An attribute that the class does not declare.  The classes are
    configured with [extra = "allow"], so an instance carries such an
    attribute when it was built with it, holding whatever was given; the
    embedding covers [None] and numbers.  Reading it on an instance that
    does not carry it raises [AttributeError]. *)
Inductive attribute (A : Type) : Type :=
| Absent
| Present (value : option A).
Arguments Absent {A}.
Arguments Present {A} value.

Record Timeslot := mk_Timeslot {
  start_time : time;
  end_time : time
}.

Record Meeting := mk_Meeting {
  timeslots : list Timeslot;
  days : string
}.

Record Professor := mk_Professor {
  professor_id : option Z;
  name : string;
  rating : option Q
}.

(** [models.course.Section].  [credits] is not a field of the class: the
    generator reads it as [section.credits], which a section carries only
    as an extra attribute; the sections built by [_parse_section_data] do
    not.  [final_exam] is a dictionary whose values are optional strings. *)
Record CourseSection := mk_CourseSection {
  section_id : string;
  course_id : string;
  capacity : option Z;
  enrolled : option Z;
  meetings : option (list Meeting);
  professors : option (list Professor);
  final_exam : option (list (string * option string));
  credits : attribute Q
}.

Record ScheduleConflict := mk_ScheduleConflict {
  section1_id : string;
  section2_id : string;
  conflict_type : string;
  details : string;
  severity : string
}.

(** [min_quality_score] is not a field of the class: the generator probes
    it with [hasattr] and reads it with [getattr]. *)
Record ScheduleConstraints := mk_ScheduleConstraints {
  min_credits : option Q;
  max_credits : option Q;
  no_early_morning : bool;
  no_late_evening : bool;
  preferred_days : option (list string);
  min_quality_score : attribute Q
}.

Record SchedulePreferences := mk_SchedulePreferences {
  workload_weight : Q;
  rating_weight : Q;
  time_preference_weight : Q;
  professor_weight : Q;
  preferred_professors : option (list string);
  avoided_professors : option (list string)
}.

Definition validate_weights (p : SchedulePreferences) : bool :=
  let total := workload_weight p + rating_weight p
               + time_preference_weight p + professor_weight p in
  Qltb (Qabs (total - 1)) (1 # 100).

(** [max_options] is validated to lie in [1, 20]; the slice
    [[:max_options]] is [firstn]. *)
Record ScheduleRequest := mk_ScheduleRequest {
  course_ids : list string;
  season_code : string;
  constraints : option ScheduleConstraints;
  preferences : option SchedulePreferences;
  max_options : nat;
  include_full_sections : bool
}.

Record OptionMetadata := mk_OptionMetadata {
  generation_time : Z;
  course_count : nat;
  has_conflicts : bool
}.

Record ScheduleOption := mk_ScheduleOption {
  sections : list CourseSection;
  total_credits : Q;
  quality_score : Q;
  conflicts : list string;
  metadata : OptionMetadata
}.

Record ScheduleMetadata := mk_ScheduleMetadata {
  courses_requested : list string;
  valid_schedules_found : nat;
  schedules_with_conflicts : nat;
  average_quality : Q;
  constraints_applied : bool;
  preferences_applied : bool
}.

Record GeneratedSchedule := mk_GeneratedSchedule {
  request_id : string;
  gs_season_code : string;
  options : list ScheduleOption;
  total_options_generated : nat;
  processing_time_ms : Z;
  gs_metadata : ScheduleMetadata
}.

(** What a run reads from outside its arguments: the successive readings of
    [datetime.now()] (microseconds since the epoch), whether building the
    cartesian product exhausts memory, and the draws of [random.choice]. *)
Record Env := mk_Env {
  now : nat -> Z;
  memory_exhausted : bool;
  random_draw : nat -> nat
}.

(** ** The generator (services/schedule_generator.py) *)

Section Generator.

(** [x ** 0.5] *)
Variable pow_half : Q -> Q.

Definition is_missing (available_sections : list (string * list CourseSection))
  (cid : string) : bool :=
  match dict_get String.eqb available_sections cid with
  | None => true
  | Some [] => true
  | Some (_ :: _) => false
  end.

Definition _validate_request (request : ScheduleRequest)
  (available_sections : list (string * list CourseSection)) : result unit :=
  let missing_courses :=
    filter (is_missing available_sections) (course_ids request) in
  match missing_courses with
  | _ :: _ =>
      Raise (ScheduleGeneratorError
               ("No available sections for courses: "
                ++ repr_list missing_courses)%string
               (Some "NO_SECTIONS_AVAILABLE"%string))
  | [] =>
      match constraints request with
      | Some c =>
          if truthy_num (min_credits c) && truthy_num (max_credits c)
             && Qltb (or_zero (max_credits c)) (or_zero (min_credits c))
          then Raise (ScheduleGeneratorError
                 "Minimum credits cannot be greater than maximum credits"
                 (Some "INVALID_CREDIT_CONSTRAINTS"%string))
          else Return tt
      | None => Return tt
      end
  end.

Definition timeslot_violates (c : ScheduleConstraints) (m : Meeting)
  (t : Timeslot) : bool :=
  (no_early_morning c && time_ltb (start_time t) (hm 9 0))
  || (no_late_evening c && time_ltb (hm 20 0) (end_time t))
  || match preferred_days c with
     | Some ((_ :: _) as preferred) =>
         negb (existsb (fun ch => str_in (String ch EmptyString) preferred)
                       (chars (days m)))
     | _ => false
     end.

Definition _violates_constraints (section : CourseSection)
  (c : ScheduleConstraints) : bool :=
  match meetings section with
  | Some ms => existsb (fun m => existsb (timeslot_violates c m) (timeslots m)) ms
  | None => false
  end.

(** the availability test of [_filter_sections]: taken only when both
    [capacity] and [enrolled] are truthy *)
Definition is_full (section : CourseSection) : bool :=
  match capacity section, enrolled section with
  | Some c, Some e =>
      truthy_int (Some c) && truthy_int (Some e) && (c <=? e)%Z
  | _, _ => false
  end.

Definition section_survives (cs : option ScheduleConstraints)
  (include_full : bool) (section : CourseSection) : bool :=
  if negb include_full && is_full section then false
  else match cs with
       | Some c => negb (_violates_constraints section c)
       | None => true
       end.

Definition _filter_sections
  (available_sections : list (string * list CourseSection))
  (cs : option ScheduleConstraints) (include_full : bool)
  : list (string * list CourseSection) :=
  fold_left
    (fun filtered '(cid, secs) =>
       match filter (section_survives cs include_full) secs with
       | [] => filtered
       | fs => dict_set String.eqb filtered cid fs
       end)
    available_sections [].

(** [itertools.product] over the lists [ls]: the outer loop runs over the
    first list *)
Fixpoint product {A : Type} (ls : list (list A)) : list (list A) :=
  match ls with
  | [] => [[]]
  | xs :: rest => flat_map (fun x => map (cons x) (product rest)) xs
  end.

(** [random.choice(population)], the [n]-th draw of the run *)
Definition random_choice {A : Type} (env : Env) (n : nat) (population : list A)
  : result A :=
  match nth_error population
          (random_draw env n mod List.length population) with
  | Some x => Return x
  | None => Raise IndexError
  end.

Definition _sample_combinations (env : Env)
  (sections_list : list (list CourseSection)) (max_combinations : nat)
  : result (list (list CourseSection)) :=
  let total_possible :=
    fold_left (fun acc l => (acc * List.length l)%nat) sections_list 1%nat in
  if (total_possible <=? max_combinations)%nat
  then Return (product sections_list)
  else
    let sample_size := Nat.min max_combinations (total_possible / 10) in
    let width := List.length sections_list in
    map_result
      (fun i =>
         map_result
           (fun '(j, secs) => random_choice env (i * width + j) secs)
           (combine (seq 0 width) sections_list))
      (seq 0 sample_size).

Definition _generate_section_combinations (env : Env)
  (filtered_sections : list (string * list CourseSection))
  : result (list (list CourseSection)) :=
  let sections_list := dict_values filtered_sections in
  match sections_list with
  | [] => Return []
  | _ :: _ =>
      let attempt :=
        if memory_exhausted env then Raise MemoryError
        else Return (product sections_list) in
      match attempt with
      | Raise MemoryError => _sample_combinations env sections_list 1000
      | r => r
      end
  end.

(** *** Conflict detection *)

Definition _timeslots_overlap (timeslot1 timeslot2 : Timeslot) : bool :=
  time_ltb (start_time timeslot1) (end_time timeslot2)
  && time_ltb (start_time timeslot2) (end_time timeslot1).

Definition common_days (days1 days2 : string) : bool :=
  existsb (fun c => char_in c (chars days2)) (chars days1).

Definition meetings_conflict (meeting1 meeting2 : Meeting) : bool :=
  common_days (days meeting1) (days meeting2)
  && existsb (fun t1 => existsb (_timeslots_overlap t1) (timeslots meeting2))
             (timeslots meeting1).

Definition _sections_have_time_conflict (section1 section2 : CourseSection)
  : bool :=
  match meetings section1, meetings section2 with
  | Some ms1, Some ms2 =>
      existsb (fun m1 => existsb (meetings_conflict m1) ms2) ms1
  | _, _ => false
  end.

(** [for i, x in enumerate(l): for y in l[i+1:]] *)
Fixpoint pairs {A : Type} (l : list A) : list (A * A) :=
  match l with
  | [] => []
  | x :: r => map (pair x) r ++ pairs r
  end.

Definition time_conflict (section1 section2 : CourseSection)
  : ScheduleConflict :=
  mk_ScheduleConflict (section_id section1) (section_id section2) "time"
    ("Time conflict between " ++ course_id section1 ++ " and "
     ++ course_id section2)%string
    "error".

Definition _detect_time_conflicts (combination : list CourseSection)
  : list ScheduleConflict :=
  map (fun p => time_conflict (fst p) (snd p))
      (filter (fun p => _sections_have_time_conflict (fst p) (snd p))
              (pairs combination)).

(** the exam date under which a section is filed, if any *)
Definition exam_date_of (section : CourseSection) : option string :=
  match final_exam section with
  | Some ((_ :: _) as fe) =>
      match dict_get String.eqb fe "date" with
      | Some (Some d) => if (d =? "")%string then None else Some d
      | _ => None
      end
  | _ => None
  end.

Definition exam_schedules (combination : list CourseSection)
  : list (string * list CourseSection) :=
  fold_left
    (fun d section =>
       match exam_date_of section with
       | Some date => dict_append String.eqb d date section
       | None => d
       end)
    combination [].

Definition exam_conflict (exam_date : string)
  (section1 section2 : CourseSection) : ScheduleConflict :=
  mk_ScheduleConflict (section_id section1) (section_id section2) "final_exam"
    ("Final exam conflict on " ++ exam_date)%string
    "error".

Definition _detect_exam_conflicts (combination : list CourseSection)
  : list ScheduleConflict :=
  flat_map
    (fun '(exam_date, exam_sections) =>
       if (1 <? List.length exam_sections)%nat
       then map (fun p => exam_conflict exam_date (fst p) (snd p))
                (pairs exam_sections)
       else [])
    (exam_schedules combination).

(** [professor_sections]: sections grouped under [professor.id], the absent
    id [None] being a key like any other *)
Definition professor_sections (combination : list CourseSection)
  : list (option Z * list CourseSection) :=
  fold_left
    (fun d section =>
       match professors section with
       | Some ps =>
           fold_left
             (fun d' professor =>
                dict_append (opt_eqb Z.eqb) d' (professor_id professor) section)
             ps d
       | None => d
       end)
    combination [].

Definition professor_conflict (pid : option Z)
  (section1 section2 : CourseSection) : ScheduleConflict :=
  mk_ScheduleConflict (section_id section1) (section_id section2)
    "same_professor"
    ("Multiple sections with same professor (ID: " ++ str_opt_int pid ++ ")")%string
    "warning".

Definition _detect_professor_conflicts (combination : list CourseSection)
  : list ScheduleConflict :=
  flat_map
    (fun '(pid, prof_sections) =>
       match prof_sections with
       | s0 :: s1 :: _ => [professor_conflict pid s0 s1]
       | _ => []
       end)
    (professor_sections combination).

Definition _detect_conflicts (combination : list CourseSection)
  : list ScheduleConflict :=
  _detect_time_conflicts combination
  ++ _detect_exam_conflicts combination
  ++ _detect_professor_conflicts combination.

(** *** Quality score *)

Definition conflict_penalty (cfs : list ScheduleConflict) : Q :=
  fold_left
    (fun acc c =>
       if (severity c =? "error")%string then acc + 25
       else if (severity c =? "warning")%string then acc + 10
       else acc)
    cfs 0.

Definition listed (o : option (list string)) (x : string) : bool :=
  match o with
  | Some ((_ :: _) as l) => str_in x l
  | _ => false
  end.

Definition rating_percent (r : Q) : Q := (r / 5) * 100.

(** the loop over the professors of one section, [score] being the value of
    [section_score] so far *)
Fixpoint professor_loop (prefs : SchedulePreferences) (ps : list Professor)
  (score : Q) : Q :=
  match ps with
  | [] => score
  | p :: r =>
      if listed (preferred_professors prefs) (name p) then 100
      else if listed (avoided_professors prefs) (name p) then 0
      else professor_loop prefs r
             (if truthy_num (rating p)
              then rating_percent (or_zero (rating p)) else score)
  end.

Definition _calculate_professor_preference_score
  (combination : list CourseSection) (prefs : SchedulePreferences) : Q :=
  match combination with
  | [] => 50
  | _ =>
      let '(total_score, section_count) :=
        fold_left
          (fun '(total, count) section =>
             match professors section with
             | Some ((_ :: _) as ps) =>
                 (total + professor_loop prefs ps 50, S count)
             | _ => (total, count)
             end)
          combination (0, 0%nat) in
      if (0 <? section_count)%nat
      then total_score / inject_Z (Z.of_nat section_count)
      else 50
  end.

Definition all_timeslots (combination : list CourseSection) : list Timeslot :=
  flat_map
    (fun section =>
       match meetings section with
       | Some ms => flat_map timeslots ms
       | None => []
       end)
    combination.

Definition _calculate_time_preference_score
  (combination : list CourseSection) (prefs : SchedulePreferences) : Q :=
  match combination with
  | [] => 50
  | _ =>
      py_max 0
        (fold_left
           (fun score t =>
              if time_ltb (start_time t) (hm 8 0) then score - 10
              else if time_ltb (hm 21 0) (end_time t) then score - 10
              else score)
           (all_timeslots combination) 75)
  end.

(** [section.credits]; the text of the exception is the one of the model
    library *)
Definition no_credits_attribute : exn :=
  AttributeError "'Section' object has no attribute 'credits'".

Definition get_credits (section : CourseSection) : result (option Q) :=
  match credits section with
  | Present v => Return v
  | Absent => Raise no_credits_attribute
  end.

(** [sum(section.credits or 0 for section in sections)] *)
Definition sum_credits (combination : list CourseSection) : result Q :=
  values <- map_result get_credits combination ;;
  Return (py_sum (map or_zero values)).

Definition _calculate_workload_score
  (combination : list CourseSection) (prefs : SchedulePreferences)
  : result Q :=
  total <- sum_credits combination ;;
  Return (if Qle_bool 12 total && Qle_bool total 18 then 100
          else if Qltb total 12 then 50
          else py_max 0 (100 - (total - 18) * 5)).

Definition all_professors (combination : list CourseSection)
  : list Professor :=
  flat_map
    (fun section =>
       match professors section with Some ps => ps | None => [] end)
    combination.

Definition _calculate_rating_score
  (combination : list CourseSection) (prefs : SchedulePreferences) : Q :=
  let '(total_score, rating_count) :=
    fold_left
      (fun '(total, count) p =>
         if truthy_num (rating p)
         then (total + rating_percent (or_zero (rating p)), S count)
         else (total, count))
      (all_professors combination) (0, 0%nat) in
  if (0 <? rating_count)%nat
  then total_score / inject_Z (Z.of_nat rating_count)
  else 50.

Definition _calculate_preference_score
  (combination : list CourseSection) (prefs : SchedulePreferences)
  : result Q :=
  if negb (validate_weights prefs) then Return 50
  else
    let professor_score :=
      _calculate_professor_preference_score combination prefs in
    let time_score := _calculate_time_preference_score combination prefs in
    workload_score <- _calculate_workload_score combination prefs ;;
    let rating_score := _calculate_rating_score combination prefs in
    Return (py_sum
              [ professor_score * professor_weight prefs;
                time_score * time_preference_weight prefs;
                workload_score * workload_weight prefs;
                rating_score * rating_weight prefs ]).

(** the exception of a division by zero; the text is the interpreter's for
    a [float] dividend *)
Definition zero_division : exn := ZeroDivisionError "float division by zero".

(** one meeting of a section with truthy credits: the credits are split
    evenly over [len(meeting.days)], which raises on an empty day string *)
Definition add_meeting_credits (section_credits : Q)
  (daily : list (ascii * Q)) (meeting : Meeting) : result (list (ascii * Q)) :=
  match chars (days meeting) with
  | [] => Raise zero_division
  | ds =>
      let days_credit :=
        section_credits / inject_Z (Z.of_nat (List.length ds)) in
      Return (fold_left
                (fun d day =>
                   dict_update Ascii.eqb 0 (fun v => v + days_credit) d day)
                ds daily)
  end.

(** [if section.meetings and section.credits:], the attribute being read
    only when [section.meetings] is truthy *)
Definition add_section_credits (daily : list (ascii * Q))
  (section : CourseSection) : result (list (ascii * Q)) :=
  match meetings section with
  | Some ((_ :: _) as ms) =>
      section_credits <- get_credits section ;;
      if truthy_num section_credits
      then for_each (add_meeting_credits (or_zero section_credits)) ms daily
      else Return daily
  | _ => Return daily
  end.

Definition daily_credits (combination : list CourseSection)
  : result (list (ascii * Q)) :=
  for_each add_section_credits combination [].

Definition _calculate_workload_balance (combination : list CourseSection)
  : result Q :=
  match combination with
  | [] => Return 0
  | _ =>
      daily <- daily_credits combination ;;
      match dict_values daily with
      | [] => Return 0
      | credits_list =>
          let n := inject_Z (Z.of_nat (List.length credits_list)) in
          let avg_credits := py_sum credits_list / n in
          let variance :=
            py_sum (map (fun x => (x - avg_credits) ^ 2) credits_list) / n in
          let std_dev := pow_half variance in
          Return (py_max 0 (10 - std_dev))
      end
  end.

Definition time_preferences : list (string * (time * time)) :=
  [ ("early_morning"%string, (hm 6 0, hm 8 59));
    ("morning"%string, (hm 9 0, hm 11 59));
    ("midday"%string, (hm 12 0, hm 14 59));
    ("afternoon"%string, (hm 15 0, hm 17 59));
    ("evening"%string, (hm 18 0, hm 21 59));
    ("late_night"%string, (hm 22 0, hm 23 59)) ].

Definition _get_time_block (time_obj : time) : string :=
  match find (fun b => time_leb (fst (snd b)) time_obj
                       && time_leb time_obj (snd (snd b)))
             time_preferences with
  | Some b => fst b
  | None => "other"
  end.

Definition time_block_counts (combination : list CourseSection)
  : list (string * nat) :=
  fold_left
    (fun d t =>
       dict_update String.eqb 0%nat S d (_get_time_block (start_time t)))
    (all_timeslots combination) [].

Definition _calculate_time_distribution_score
  (combination : list CourseSection) : Q :=
  match combination with
  | [] => 0
  | _ =>
      py_min
        (inject_Z (Z.of_nat (List.length (time_block_counts combination))) * 2)
        10
  end.

Definition _calculate_quality_score (combination : list CourseSection)
  (cfs : list ScheduleConflict) (prefs : option SchedulePreferences)
  : result Q :=
  let base_score := 100 - conflict_penalty cfs in
  final_score <-
    match prefs with
    | Some p =>
        preference_score <- _calculate_preference_score combination p ;;
        Return (base_score * (7 # 10) + preference_score * (3 # 10))
    | None => Return base_score
    end ;;
  balance_bonus <- _calculate_workload_balance combination ;;
  let final_score := final_score + balance_bonus in
  let time_bonus := _calculate_time_distribution_score combination in
  let final_score := final_score + time_bonus in
  Return (py_max 0 (py_min 100 final_score)).

(** *** Ranking *)

(** [list.sort(key=..., reverse=True)]: descending by key, elements of equal
    key keeping their order.  An element is inserted in front of the first
    element whose key is not greater than its own. *)
Fixpoint insert_desc {A : Type} (key : A -> Q) (x : A) (l : list A) : list A :=
  match l with
  | [] => [x]
  | y :: r =>
      if Qltb (key x) (key y) then y :: insert_desc key x r
      else x :: y :: r
  end.

Definition sort_desc {A : Type} (key : A -> Q) (l : list A) : list A :=
  fold_right (insert_desc key) [] l.

(** the test [not conflicts or request.constraints is None] *)
Definition keeps (request : ScheduleRequest) (cfs : list ScheduleConflict)
  : bool :=
  match cfs, constraints request with
  | [], _ => true
  | _ :: _, None => true
  | _ :: _, Some _ => false
  end.

Definition valid_schedules (request : ScheduleRequest)
  (all_combinations : list (list CourseSection))
  : list (list CourseSection * list ScheduleConflict) :=
  flat_map
    (fun combination =>
       let cfs := _detect_conflicts combination in
       if keeps request cfs then [(combination, cfs)] else [])
    all_combinations.

(** the body of the scoring loop; [k] numbers the reading of the clock *)
Definition score_schedule (env : Env) (request : ScheduleRequest)
  (entry : nat * (list CourseSection * list ScheduleConflict))
  : result ScheduleOption :=
  let '(k, (combination, cfs)) := entry in
  q <- _calculate_quality_score combination cfs (preferences request) ;;
  total <- sum_credits combination ;;
  Return (mk_ScheduleOption combination total q
            (map details cfs)
            (mk_OptionMetadata (now env k) (List.length combination)
               (0 <? List.length cfs)%nat)).

(** [s.quality_score >= min_quality] with [min_quality] set to [None] *)
Definition unorderable : exn :=
  TypeError "'>=' not supported between instances of 'float' and 'NoneType'".

(** the threshold: a comprehension over the selected options, whose test
    raises on the first option when the attribute is set to [None] *)
Definition apply_min_quality (request : ScheduleRequest)
  (selected : list ScheduleOption) : result (list ScheduleOption) :=
  match constraints request with
  | Some c =>
      match min_quality_score c with
      | Present (Some min_quality) =>
          Return (filter (fun s => Qle_bool min_quality (quality_score s))
                         selected)
      | Present None =>
          match selected with
          | [] => Return []
          | _ :: _ => Raise unorderable
          end
      | Absent => Return selected
      end
  | None => Return selected
  end.

Definition is_some {A : Type} (o : option A) : bool :=
  match o with Some _ => true | None => false end.

(** the [try] block of [generate_schedules] *)
Definition generation (env : Env) (request : ScheduleRequest)
  (available_sections : list (string * list CourseSection))
  : result GeneratedSchedule :=
  let t0 := now env 0 in
  let rid := ("schedule_" ++ str_int (Z.quot t0 1000000))%string in
  _ <- _validate_request request available_sections ;;
  let filtered_sections :=
    _filter_sections available_sections (constraints request)
      (include_full_sections request) in
  all_combinations <- _generate_section_combinations env filtered_sections ;;
  let valid := valid_schedules request all_combinations in
  scored_schedules <-
    map_result (score_schedule env request)
      (combine (seq 1 (List.length valid)) valid) ;;
  let sorted := sort_desc quality_score scored_schedules in
  selected <-
    apply_min_quality request (firstn (max_options request) sorted) ;;
  let t1 := now env (S (List.length valid)) in
  Return (mk_GeneratedSchedule rid (season_code request) selected
            (List.length all_combinations)
            (Z.quot (t1 - t0) 1000)
            (mk_ScheduleMetadata (course_ids request) (List.length valid)
               (List.length
                  (filter (fun s => (0 <? List.length (conflicts s))%nat)
                          selected))
               (match selected with
                | [] => 0
                | _ => py_sum (map quality_score selected)
                       / inject_Z (Z.of_nat (List.length selected))
                end)
               (is_some (constraints request))
               (is_some (preferences request)))).

(** [except Exception as e]: whatever the body raises is raised again as a
    [ScheduleGeneratorError] tagged [GENERATION_FAILED]. *)
Definition generate_schedules (env : Env) (request : ScheduleRequest)
  (available_sections : list (string * list CourseSection))
  : result GeneratedSchedule :=
  match generation env request available_sections with
  | Return g => Return g
  | Raise e =>
      Raise (ScheduleGeneratorError
               ("Schedule generation failed: " ++ exn_str e)%string
               (Some "GENERATION_FAILED"%string))
  end.

End Generator.

(** ** Predicates used in the statements *)

(** a section that carries the attribute [credits] *)
Definition carries_credits (section : CourseSection) : bool :=
  match credits section with Present _ => true | Absent => false end.

(** the sections on which [_calculate_workload_balance] reads
    [section.credits]: those with truthy meetings *)
Definition has_meetings (section : CourseSection) : bool :=
  truthy_list (meetings section).

(** the sections on which [_calculate_workload_balance] evaluates
    [section.credits / len(meeting.days)] with an empty day string: truthy
    meetings, truthy credits, and some meeting whose [days] is empty *)
Definition divides_by_zero (section : CourseSection) : bool :=
  match meetings section, credits section with
  | Some ms, Present cr =>
      truthy_num cr && existsb (fun m => (days m =? "")%string) ms
  | _, _ => false
  end.

(** the sections on which the loop of [_calculate_workload_balance] stops:
    the attribute is read and missing, or the division is by zero *)
Definition balance_stops (section : CourseSection) : bool :=
  (has_meetings section && negb (carries_credits section))
  || divides_by_zero section.

(** what the loop of [_calculate_workload_balance] raises at a section, if
    anything; the attribute is read before the division *)
Definition balance_exception (section : CourseSection) : option exn :=
  if has_meetings section && negb (carries_credits section)
  then Some no_credits_attribute
  else if divides_by_zero section then Some zero_division
  else None.

(** the exception of the first section of a combination that has one *)
Fixpoint first_exception (combination : list CourseSection) : option exn :=
  match combination with
  | [] => None
  | section :: rest =>
      match balance_exception section with
      | Some e => Some e
      | None => first_exception rest
      end
  end.

(** the preference score is computed, and reads the credits of every
    section, when preferences are given and their weights validate *)
Definition reads_all_credits (prefs : option SchedulePreferences) : bool :=
  match prefs with Some p => validate_weights p | None => false end.

(** what the scorer raises on a combination, if anything *)
Definition scorer_exception (combination : list CourseSection)
  (prefs : option SchedulePreferences) : option exn :=
  if reads_all_credits prefs && negb (forallb carries_credits combination)
  then Some no_credits_attribute
  else first_exception combination.

(** the combinations on which the scorer does not return *)
Definition scorer_stops (combination : list CourseSection)
  (prefs : option SchedulePreferences) : bool :=
  (reads_all_credits prefs && negb (forallb carries_credits combination))
  || existsb balance_stops combination.

(** the minimum-quality threshold of a request, when one is set to a
    number *)
Definition min_quality (request : ScheduleRequest) : option Q :=
  match constraints request with
  | Some c =>
      match min_quality_score c with
      | Present (Some t) => Some t
      | _ => None
      end
  | None => None
  end.

(** an option whose score is at least the threshold, if there is one *)
Definition meets_threshold (request : ScheduleRequest) (o : ScheduleOption)
  : bool :=
  match min_quality request with
  | Some t => Qle_bool t (quality_score o)
  | None => true
  end.


Definition is_attribute_error (e : exn) : Prop :=
  match e with AttributeError _ => True | _ => False end.

Definition is_type_error (e : exn) : Prop :=
  match e with TypeError _ => True | _ => False end.

(** the microseconds since midnight of a time, and the ranges of the fields
    of a [datetime.time] below the hour *)
Definition micros (t : time) : N :=
  (((hour t * 60 + minute t) * 60 + second t) * 1000000 + microsecond t)%N.

Definition in_range (t : time) : Prop :=
  (minute t < 60 /\ second t < 60 /\ microsecond t < 1000000)%N.

(** [descending key a b]: [a] may stand before [b] in a list sorted by
    decreasing key *)
Definition descending {A : Type} (key : A -> Q) (a b : A) : Prop :=
  key b <= key a.

(** the elements of a list whose key equals [q], in the order of the list *)
Definition with_key {A : Type} (key : A -> Q) (q : Q) (l : list A) : list A :=
  filter (fun x => Qeq_bool (key x) q) l.

(** the sections the grouping loop files under the key [pid], in order: a
    section once for each of its professors whose id is [pid] *)
Definition filed_under (pid : option Z) (combination : list CourseSection)
  : list CourseSection :=
  flat_map
    (fun section =>
       match professors section with
       | Some ps =>
           map (fun _ => section)
               (filter (fun p => opt_eqb Z.eqb (professor_id p) pid) ps)
       | None => []
       end)
    combination.

(** a section that has professors, none of whom carries an id *)
Definition taught_without_id (section : CourseSection) : bool :=
  match professors section with
  | Some ((_ :: _) as ps) =>
      forallb (fun p => opt_eqb Z.eqb (professor_id p) None) ps
  | _ => false
  end.

(** the list stored under a key, empty when the key is absent *)
Definition group {K A : Type} (eqb : K -> K -> bool) (d : list (K * list A))
  (k : K) : list A :=
  match dict_get eqb d k with Some v => v | None => [] end.

(** what two runs are compared on: the sections, the credits, the score and
    the conflict details of an option (its metadata holds a reading of the
    clock) *)
Definition option_core (o : ScheduleOption)
  : list CourseSection * Q * Q * list string :=
  (sections o, total_credits o, quality_score o, conflicts o).

Definition core_score (c : list CourseSection * Q * Q * list string) : Q :=
  snd (fst c).

Definition same_outcome (r1 r2 : result GeneratedSchedule) : Prop :=
  match r1, r2 with
  | Return g1, Return g2 =>
      map option_core (options g1) = map option_core (options g2)
      /\ total_options_generated g1 = total_options_generated g2
  | Raise e1, Raise e2 => e1 = e2
  | _, _ => False
  end.

(** ** Sample data *)

(** an instance of [pow_half]: the square root rounded down to thousandths *)
Definition sqrt_thousandths (x : Q) : Q :=
  inject_Z (Z.sqrt (Qnum x * 1000000 / Z.pos (Qden x))) / 1000.

Definition clock_a : Env :=
  mk_Env (fun n => 1700000000000000 + 1500 * Z.of_nat n)%Z false (fun n => n).

Definition clock_b : Env :=
  mk_Env (fun n => 1800000000000000 + 7 * Z.of_nat n)%Z false (fun n => (3 * n)%nat).

Definition slot (h1 m1 h2 m2 : N) : Timeslot :=
  mk_Timeslot (hm h1 m1) (hm h2 m2).

Definition lovelace : Professor := mk_Professor None "Ada Lovelace" None.
Definition turing : Professor := mk_Professor None "Alan Turing" None.
Definition noether : Professor := mk_Professor None "Emmy Noether" None.

Definition cs101_01 : CourseSection :=
  mk_CourseSection "CS101-01" "CS101" (Some 30%Z) (Some 10%Z)
    (Some [mk_Meeting [slot 10 0 10 50] "MW"]) (Some [lovelace]) None
    (Present (Some 3)).

Definition cs101_02 : CourseSection :=
  mk_CourseSection "CS101-02" "CS101" (Some 30%Z) (Some 12%Z)
    (Some [mk_Meeting [slot 13 0 13 50] "MW"]) (Some [lovelace]) None
    (Present (Some 3)).

Definition math120_01 : CourseSection :=
  mk_CourseSection "MATH120-01" "MATH120" (Some 25%Z) (Some 25%Z)
    (Some [mk_Meeting [slot 10 30 11 20] "MW"]) (Some [noether]) None
    (Present (Some 4)).

Definition math120_02 : CourseSection :=
  mk_CourseSection "MATH120-02" "MATH120" (Some 25%Z) (Some 5%Z)
    (Some [mk_Meeting [slot 15 0 15 50] "TH"]) (Some [turing]) None
    (Present (Some 4)).

Definition phys150_01 : CourseSection :=
  mk_CourseSection "PHYS150-01" "PHYS150" (Some 40%Z) (Some 8%Z)
    (Some [mk_Meeting [slot 9 0 9 50] "F"]) (Some [noether]) None
    (Present (Some 4)).

(** a section whose capacity and enrolment are both present and zero *)
Definition sem200_01 : CourseSection :=
  mk_CourseSection "SEM200-01" "SEM200" (Some 0%Z) (Some 0%Z)
    (Some [mk_Meeting [slot 16 0 16 50] "F"]) None None (Present (Some 1)).


Definition no_constraints_request (ids : list string) (n : nat)
  : ScheduleRequest :=
  mk_ScheduleRequest ids "202401" None None n false.

Definition default_constraints : ScheduleConstraints :=
  mk_ScheduleConstraints None None false false None Absent.

Definition inverted_credits : ScheduleConstraints :=
  mk_ScheduleConstraints (Some 18) (Some 12) false false None Absent.

Definition inverted_credits_request : ScheduleRequest :=
  mk_ScheduleRequest ["CS101"%string] "202401" (Some inverted_credits) None 5 false.

Definition constrained_request (ids : list string) : ScheduleRequest :=
  mk_ScheduleRequest ids "202401" (Some default_constraints) None 5 false.

Definition two_courses : list string := ["CS101"%string; "MATH120"%string].

Definition two_course_sections : list (string * list CourseSection) :=
  [ ("CS101"%string, [cs101_01; cs101_02]);
    ("MATH120"%string, [math120_01; math120_02]) ].

(** the only section of MATH120 is full *)
Definition math_full_sections : list (string * list CourseSection) :=
  [ ("CS101"%string, [cs101_01]); ("MATH120"%string, [math120_01]) ].

Definition ranking_request : ScheduleRequest :=
  mk_ScheduleRequest two_courses "202401" None None 3 true.

Definition warning_only : list CourseSection := [cs101_01; phys150_01].

Definition warning_only_sections : list (string * list CourseSection) :=
  [ ("CS101"%string, [cs101_01]); ("PHYS150"%string, [phys150_01]) ].

(** weights that sum to 0.8 *)
Definition light_preferences : SchedulePreferences :=
  mk_SchedulePreferences (2 # 10) (2 # 10) (2 # 10) (2 # 10) None None.

Definition error_conflict : ScheduleConflict :=
  mk_ScheduleConflict "a" "b" "time" "Time conflict between A and B" "error".

(** ** Further predicates *)

(** [total_possible] of [_sample_combinations]: the product of the sizes of
    the section lists *)
Definition combination_count {A : Type} (ls : list (list A)) : nat :=
  fold_left (fun acc l => (acc * List.length l)%nat) ls 1%nat.

(** a combination that takes one element from each list, in the order of
    the lists *)
Definition one_per_course {A : Type} (c : list A) (ls : list (list A)) : Prop :=
  Forall2 (fun x l => In x l) c ls.

(** what one entry of the available mapping contributes to the filtered
    mapping: its surviving sections, if any *)
Definition surviving (cs : option ScheduleConstraints) (include_full : bool)
  (entry : string * list CourseSection) : list (string * list CourseSection) :=
  match filter (section_survives cs include_full) (snd entry) with
  | [] => []
  | fs => [(fst entry, fs)]
  end.


(** the sections of a combination filed under the exam date [date] *)
Definition examined_on (date : string) (combination : list CourseSection)
  : list CourseSection :=
  filter (fun s => opt_eqb String.eqb (exam_date_of s) (Some date)) combination.

(** the number of conflicts of a given severity *)
Definition count_severity (sev : string) (cfs : list ScheduleConflict) : nat :=
  List.length (filter (fun c => (severity c =? sev)%string) cfs).

Definition Qnat (n : nat) : Q := inject_Z (Z.of_nat n).

(** the range that the record types give to a rating ([Field(ge=0, le=5)])
    and to a weight ([Field(ge=0, le=1)]) *)
Definition rating_in_range (p : Professor) : Prop :=
  match rating p with Some r => 0 <= r /\ r <= 5 | None => True end.

Definition ratings_in_range (combination : list CourseSection) : Prop :=
  Forall rating_in_range (all_professors combination).

Definition weights_in_range (prefs : SchedulePreferences) : Prop :=
  0 <= workload_weight prefs /\ 0 <= rating_weight prefs
  /\ 0 <= time_preference_weight prefs /\ 0 <= professor_weight prefs.

Definition weight_total (prefs : SchedulePreferences) : Q :=
  workload_weight prefs + rating_weight prefs
  + time_preference_weight prefs + professor_weight prefs.

(** a time on a whole minute *)
Definition whole_minute (t : time) : Prop :=
  second t = 0%N /\ microsecond t = 0%N.

Definition has_timeslot (section : CourseSection) : Prop :=
  exists ms m t, meetings section = Some ms /\ In m ms /\ In t (timeslots m).

(** [GeneratedSchedule.has_conflicts]: some option has a non-empty conflict
    list *)
Definition gs_has_conflicts (g : GeneratedSchedule) : bool :=
  existsb (fun o => (0 <? List.length (conflicts o))%nat) (options g).

(** ** The caller (routes/schedules.py) and the availability helper
    (models/course.py) *)

(** [CourseWithSections.get_available_sections] *)
Definition get_available_sections (secs : list CourseSection)
  : list CourseSection :=
  filter
    (fun section =>
       truthy_int (capacity section) && truthy_int (enrolled section)
       && match capacity section, enrolled section with
          | Some c, Some e => (e <? c)%Z
          | _, _ => false
          end)
    secs.

(** what [_get_available_sections] hands to the route: the mapping, a
    [CourseTableError], or another exception *)
Inductive fetch_outcome : Type :=
| Fetched (available : list (string * list CourseSection))
| FetchCourseTableError (message : string)
| FetchOtherError.

Inductive http_result : Type :=
| Response (g : GeneratedSchedule)
| HTTPException (status_code : nat) (detail : string).

Definition internal_error : http_result :=
  HTTPException 500 "Internal server error during schedule generation".

(** the handler [generate_schedule]: the [try] block with its three
    [except] clauses.  An [HTTPException] raised inside the block is an
    [Exception] and reaches the last clause; one raised inside a clause
    leaves the handler. *)
Definition generate_schedule (pow_half : Q -> Q) (env : Env)
  (request : ScheduleRequest) (fetch : fetch_outcome) : http_result :=
  match course_ids request with
  | [] => internal_error
  | _ :: _ =>
      match fetch with
      | FetchCourseTableError m =>
          HTTPException 502 ("Course service error: " ++ m)%string
      | FetchOtherError => internal_error
      | Fetched available =>
          match generate_schedules pow_half env request available with
          | Return g => Response g
          | Raise (ScheduleGeneratorError m code) =>
              if opt_eqb String.eqb code (Some "NO_SECTIONS_AVAILABLE"%string)
              then HTTPException 404
                     ("No available sections found for requested courses: "
                      ++ m)%string
              else if opt_eqb String.eqb code
                        (Some "INVALID_CREDIT_CONSTRAINTS"%string)
              then HTTPException 400
                     ("Invalid credit constraints: " ++ m)%string
              else HTTPException 500
                     ("Schedule generation failed: " ++ m)%string
          | Raise _ => internal_error
          end
      end
  end.

(** credit bounds that the validation rejects: both present, both
    non-zero, and the minimum above the maximum *)
Definition credits_inverted (request : ScheduleRequest) : Prop :=
  exists c mn mx,
    constraints request = Some c
    /\ min_credits c = Some mn /\ max_credits c = Some mx
    /\ ~ mn == 0 /\ ~ mx == 0 /\ mx < mn.

(** what a section adds to the per-day totals: its credits once for each
    of its meetings, when its meetings and credits are truthy *)
Definition credited (section : CourseSection) : Q :=
  match meetings section, credits section with
  | Some ms, Present (Some cr) =>
      if truthy_num (Some cr) then cr * Qnat (List.length ms) else 0
  | _, _ => 0
  end.

(** ** Further sample data *)

Definition hopper : Professor := mk_Professor (Some 1%Z) "Grace Hopper" (Some (9 # 2)).
Definition knuth : Professor := mk_Professor (Some 2%Z) "Donald Knuth" (Some 4).

Definition cs201_01 : CourseSection :=
  mk_CourseSection "CS201-01" "CS201" (Some 30%Z) (Some 10%Z)
    (Some [mk_Meeting [slot 9 0 9 50] "MW"]) (Some [hopper]) None
    (Present (Some 3)).

Definition cs201_02 : CourseSection :=
  mk_CourseSection "CS201-02" "CS201" (Some 30%Z) (Some 11%Z)
    (Some [mk_Meeting [slot 14 0 14 50] "T"; mk_Meeting [slot 16 0 17 50] "F"])
    None None (Present (Some 3)).

Definition math220_01 : CourseSection :=
  mk_CourseSection "MATH220-01" "MATH220" (Some 20%Z) (Some 5%Z)
    (Some [mk_Meeting [slot 11 0 11 50] "F"]) (Some [knuth]) None
    (Present (Some 4)).

(** a section taught by two professors without id *)
Definition sem300_01 : CourseSection :=
  mk_CourseSection "SEM300-01" "SEM300" None None
    (Some [mk_Meeting [slot 13 0 14 50] "W"]) (Some [lovelace; turing]) None
    (Present (Some 2)).

Definition second_year_sections : list (string * list CourseSection) :=
  [ ("CS201"%string, [cs201_01; cs201_02]);
    ("MATH220"%string, [math220_01]) ].

Definition second_year_request : ScheduleRequest :=
  mk_ScheduleRequest ["CS201"%string; "MATH220"%string] "202401"
    (Some default_constraints) None 5 false.

Definition balanced_preferences : SchedulePreferences :=
  mk_SchedulePreferences (3 # 10) (3 # 10) (2 # 10) (2 # 10) None None.

Definition thursday_only : ScheduleConstraints :=
  mk_ScheduleConstraints None None false false (Some ["TH"%string]) Absent.

Definition only_math_request : ScheduleRequest :=
  mk_ScheduleRequest ["MATH120"%string] "202401" None None 5 false.

(** a section as [_parse_section_data] builds it: it does not carry
    [credits] *)
Definition hist110_01 : CourseSection :=
  mk_CourseSection "HIST110-01" "HIST110" (Some 30%Z) (Some 10%Z)
    (Some [mk_Meeting [slot 10 0 10 50] "MW"]) (Some []) None Absent.

Definition curie : Professor := mk_Professor (Some 3%Z) "Marie Curie" (Some 1).
Definition franklin : Professor :=
  mk_Professor (Some 4%Z) "Rosalind Franklin" (Some (5 # 2)).

Definition chem110 (number : string) (professor : Professor) : CourseSection :=
  mk_CourseSection ("CHEM110-" ++ number)%string "CHEM110" (Some 30%Z)
    (Some 10%Z) (Some [mk_Meeting [slot 10 0 10 50] "MW"]) (Some [professor])
    None (Present (Some 3)).

(** four sections of one course, which differ in their professor *)
Definition chemistry_sections : list (string * list CourseSection) :=
  [ ("CHEM110"%string,
     [chem110 "01" knuth; chem110 "02" curie; chem110 "03" hopper;
      chem110 "04" franklin]) ].

(** all the weight on the professor, one preferred and one avoided *)
Definition professor_only : SchedulePreferences :=
  mk_SchedulePreferences 0 0 0 1 (Some ["Grace Hopper"%string])
    (Some ["Donald Knuth"%string]).

Definition quality_floor (t : Q) : ScheduleConstraints :=
  mk_ScheduleConstraints None None false false None (Present (Some t)).

(** constraints that carry the threshold attribute set to [None] *)
Definition null_threshold : ScheduleConstraints :=
  mk_ScheduleConstraints None None false false None (Present None).

Definition null_threshold_request : ScheduleRequest :=
  mk_ScheduleRequest ["CS201"%string; "MATH220"%string] "202401"
    (Some null_threshold) None 5 false.

(** at most three options, none under 90 *)
Definition threshold_request : ScheduleRequest :=
  mk_ScheduleRequest ["CHEM110"%string] "202401" (Some (quality_floor 90))
    (Some professor_only) 3 false.

(** * Properties *)

(** ** Order on times and the clamp *)

Lemma lex_Eq c1 c2 : lex c1 c2 = Eq <-> c1 = Eq /\ c2 = Eq.
Proof. destruct c1, c2; simpl; intuition discriminate. Qed.

Lemma time_compare_refl a : time_compare a a = Eq.
Proof. unfold time_compare. now rewrite !N.compare_refl. Qed.

Lemma time_compare_eq a b : time_compare a b = Eq -> a = b.
Proof.
  unfold time_compare. rewrite !lex_Eq, !N.compare_eq_iff.
  destruct a, b; simpl. intros (-> & -> & -> & ->). reflexivity.
Qed.

Lemma time_lt_irrefl a : ~ time_lt a a.
Proof. unfold time_lt. now rewrite time_compare_refl. Qed.

Lemma time_ltb_lt a b : time_ltb a b = true <-> time_lt a b.
Proof.
  unfold time_ltb, time_lt.
  destruct (time_compare a b); intuition discriminate.
Qed.

(** on times with fields in range the tuple order is the order of the
    clock *)
Lemma time_lt_micros a b :
  in_range a -> in_range b -> (time_lt a b <-> (micros a < micros b)%N).
Proof.
  unfold in_range, time_lt, time_compare, micros, lex.
  destruct a as [h m s u], b as [h' m' s' u']; simpl.
  intros (Hm & Hs & Hu) (Hm' & Hs' & Hu').
  destruct (N.compare_spec h h'); destruct (N.compare_spec m m');
    destruct (N.compare_spec s s'); destruct (N.compare_spec u u');
    subst; split; intro HH; try reflexivity; try discriminate; try lia.
Qed.

Lemma Qltb_lt a b : Qltb a b = true <-> a < b.
Proof.
  unfold Qltb. rewrite negb_true_iff.
  destruct (Qle_bool b a) eqn:E.
  - apply Qle_bool_iff in E. split; [discriminate | intro; lra].
  - split; [intros _ | reflexivity].
    apply Qnot_le_lt. intro H. apply Qle_bool_iff in H. congruence.
Qed.

Lemma Qltb_ge a b : Qltb a b = false <-> b <= a.
Proof.
  unfold Qltb. rewrite negb_false_iff. apply Qle_bool_iff.
Qed.

Lemma py_max_lower a b : a <= py_max a b.
Proof.
  unfold py_max. destruct (Qltb a b) eqn:E.
  - apply Qltb_lt in E. lra.
  - lra.
Qed.

Lemma py_max_upper a b c : a <= c -> b <= c -> py_max a b <= c.
Proof. unfold py_max. now destruct (Qltb a b). Qed.

Lemma py_min_upper a b : py_min a b <= a.
Proof.
  unfold py_min. destruct (Qltb b a) eqn:E.
  - apply Qltb_lt in E. lra.
  - lra.
Qed.

Lemma clamp_bounds x : 0 <= py_max 0 (py_min 100 x) /\ py_max 0 (py_min 100 x) <= 100.
Proof.
  split.
  - apply py_max_lower.
  - apply py_max_upper; [lra | apply py_min_upper].
Qed.

(** C6. For all timeslots [a] and [b] the overlap test is symmetric; it
    holds exactly when [a.start < b.end] and [b.start < a.end]; and it is
    false when [a.end == b.start], so touching endpoints do not conflict. *)
Theorem timeslots_overlap_symmetric_half_open :
  (forall a b, _timeslots_overlap a b = _timeslots_overlap b a)
  /\ (forall a b,
        _timeslots_overlap a b = true
        <-> time_lt (start_time a) (end_time b)
            /\ time_lt (start_time b) (end_time a))
  /\ (forall a b, end_time a = start_time b -> _timeslots_overlap a b = false).
Proof.
  split; [| split].
  - intros a b. unfold _timeslots_overlap. apply andb_comm.
  - intros a b. unfold _timeslots_overlap.
    now rewrite andb_true_iff, !time_ltb_lt.
  - intros a b H. unfold _timeslots_overlap.
    apply andb_false_iff. right. rewrite <- H.
    destruct (time_ltb (end_time a) (end_time a)) eqn:E; [| reflexivity].
    apply time_ltb_lt in E. now apply time_lt_irrefl in E.
Qed.

(** ** The workload-balance bonus *)

Lemma chars_nil s : chars s = [] <-> s = ""%string.
Proof. destruct s; simpl; split; intro H; congruence. Qed.

Lemma add_meeting_credits_spec cr daily m :
  if (days m =? "")%string
  then add_meeting_credits cr daily m = Raise zero_division
  else exists daily', add_meeting_credits cr daily m = Return daily'.
Proof.
  unfold add_meeting_credits.
  destruct (days m) as [| c s] eqn:E; simpl; [reflexivity |].
  eexists. reflexivity.
Qed.

Lemma meetings_loop_spec cr ms : forall daily,
  if existsb (fun m => (days m =? "")%string) ms
  then for_each (add_meeting_credits cr) ms daily = Raise zero_division
  else exists daily', for_each (add_meeting_credits cr) ms daily = Return daily'.
Proof.
  induction ms as [| m ms IH]; intros daily; simpl.
  - eexists. reflexivity.
  - pose proof (add_meeting_credits_spec cr daily m) as Hm.
    destruct (days m =? "")%string; simpl.
    + now rewrite Hm.
    + destruct Hm as [d' ->]. simpl. apply IH.
Qed.

Lemma add_section_credits_spec daily section :
  match balance_exception section with
  | Some e => add_section_credits daily section = Raise e
  | None => exists daily', add_section_credits daily section = Return daily'
  end.
Proof.
  unfold balance_exception, has_meetings, carries_credits, divides_by_zero,
    add_section_credits, get_credits.
  destruct (meetings section) as [[| m ms] |];
    destruct (credits section) as [| cr];
    cbn [truthy_list andb negb bind existsb];
    try (eexists; reflexivity).
  - rewrite andb_false_r. eexists. reflexivity.
  - destruct (truthy_num cr).
    + rewrite andb_true_l.
      pose proof (meetings_loop_spec (or_zero cr) (m :: ms) daily) as H.
      cbn [existsb] in H.
      destruct ((days m =? "")%string
                || existsb (fun m0 => (days m0 =? "")%string) ms); exact H.
    + rewrite andb_false_l. eexists. reflexivity.
Qed.

Lemma sections_loop_spec combination : forall daily,
  match first_exception combination with
  | Some e => for_each add_section_credits combination daily = Raise e
  | None => exists daily',
      for_each add_section_credits combination daily = Return daily'
  end.
Proof.
  induction combination as [| s l IH]; intros daily.
  - simpl. eexists. reflexivity.
  - cbn [first_exception for_each].
    pose proof (add_section_credits_spec daily s) as Hs.
    destruct (balance_exception s) as [e |].
    + rewrite Hs. reflexivity.
    + destruct Hs as [d' ->]. cbn [bind]. apply IH.
Qed.

Lemma daily_credits_spec combination :
  match first_exception combination with
  | Some e => daily_credits combination = Raise e
  | None => exists daily, daily_credits combination = Return daily
  end.
Proof. apply sections_loop_spec. Qed.

Lemma balance_exception_stops section :
  balance_exception section = None <-> balance_stops section = false.
Proof.
  unfold balance_exception, balance_stops.
  destruct (has_meetings section && negb (carries_credits section));
    destruct (divides_by_zero section); simpl; split; congruence.
Qed.

Lemma first_exception_none combination :
  first_exception combination = None
  <-> existsb balance_stops combination = false.
Proof.
  induction combination as [| s l IH]; simpl; [tauto |].
  rewrite orb_false_iff, <- IH, <- balance_exception_stops.
  destruct (balance_exception s); split.
  - discriminate.
  - intros [H _]. discriminate.
  - auto.
  - tauto.
Qed.

(** the exception of the loop is the division error of a section that
    divides by zero or the attribute error of a section without credits *)
Lemma first_exception_kind combination e :
  first_exception combination = Some e ->
  (e = zero_division /\ existsb divides_by_zero combination = true)
  \/ (e = no_credits_attribute
      /\ forallb carries_credits combination = false).
Proof.
  induction combination as [| s l IH]; simpl; [discriminate |].
  unfold balance_exception.
  destruct (has_meetings s && negb (carries_credits s)) eqn:E1.
  - intros [= <-]. right. split; [reflexivity |].
    apply andb_true_iff in E1. destruct E1 as [_ E1].
    apply negb_true_iff in E1. now rewrite E1.
  - destruct (divides_by_zero s) eqn:E2.
    + intros [= <-]. now left.
    + intros H. destruct (IH H) as [[-> H'] | [-> H']].
      * left. split; [reflexivity | assumption].
      * right. split; [reflexivity |]. rewrite H'. apply andb_false_r.
Qed.






(** ** Reading the credits *)

Lemma get_credits_spec section :
  if carries_credits section
  then exists v, get_credits section = Return v
  else get_credits section = Raise no_credits_attribute.
Proof.
  unfold carries_credits, get_credits.
  destruct (credits section); [reflexivity | eexists; reflexivity].
Qed.

Lemma sum_credits_spec combination :
  if forallb carries_credits combination
  then exists total, sum_credits combination = Return total
  else sum_credits combination = Raise no_credits_attribute.
Proof.
  unfold sum_credits.
  assert (if forallb carries_credits combination
          then exists values,
              map_result get_credits combination = Return values
          else map_result get_credits combination
               = Raise no_credits_attribute) as H.
  { induction combination as [| s l IH]; cbn [forallb map_result].
    - eexists. reflexivity.
    - pose proof (get_credits_spec s) as Hs.
      destruct (carries_credits s); cbn [andb]; [| now rewrite Hs].
      destruct Hs as [v ->]. cbn [bind].
      destruct (forallb carries_credits l).
      + destruct IH as [vs ->]. cbn [bind]. eexists. reflexivity.
      + rewrite IH. reflexivity. }
  destruct (forallb carries_credits combination).
  - destruct H as [vs ->]. cbn [bind]. eexists. reflexivity.
  - now rewrite H.
Qed.

Lemma sum_credits_returns combination total :
  sum_credits combination = Return total ->
  forallb carries_credits combination = true.
Proof.
  intros H. pose proof (sum_credits_spec combination) as Hs.
  destruct (forallb carries_credits combination); [reflexivity |].
  congruence.
Qed.

Lemma workload_score_spec combination prefs :
  if forallb carries_credits combination
  then exists w, _calculate_workload_score combination prefs = Return w
  else _calculate_workload_score combination prefs
       = Raise no_credits_attribute.
Proof.
  unfold _calculate_workload_score.
  pose proof (sum_credits_spec combination) as H.
  destruct (forallb carries_credits combination).
  - destruct H as [t ->]. cbn [bind]. eexists. reflexivity.
  - now rewrite H.
Qed.

(** the preference score reads the credits of every section, unless the
    weights are rejected *)
Lemma preference_score_spec combination prefs :
  if validate_weights prefs && negb (forallb carries_credits combination)
  then _calculate_preference_score combination prefs
       = Raise no_credits_attribute
  else exists p, _calculate_preference_score combination prefs = Return p.
Proof.
  unfold _calculate_preference_score.
  destruct (validate_weights prefs); cbn [negb andb];
    [| eexists; reflexivity].
  cbv zeta.
  pose proof (workload_score_spec combination prefs) as H.
  destruct (forallb carries_credits combination); cbn [negb].
  - destruct H as [w ->]. cbn [bind]. eexists. reflexivity.
  - now rewrite H.
Qed.

Section Balance.
Variable pow_half : Q -> Q.

Lemma workload_balance_raises combination e :
  first_exception combination = Some e ->
  _calculate_workload_balance pow_half combination = Raise e.
Proof.
  intros H. unfold _calculate_workload_balance.
  destruct combination as [| s l]; [discriminate |].
  pose proof (daily_credits_spec (s :: l)) as Hd.
  rewrite H in Hd. now rewrite Hd.
Qed.

Lemma workload_balance_returns combination :
  first_exception combination = None ->
  exists b, _calculate_workload_balance pow_half combination = Return b
            /\ 0 <= b.
Proof.
  intros H. unfold _calculate_workload_balance.
  destruct combination as [| s l]; [exists 0; split; [reflexivity | lra] |].
  pose proof (daily_credits_spec (s :: l)) as Hd.
  rewrite H in Hd. destruct Hd as [daily ->]. cbn [bind].
  destruct (dict_values daily) as [| c cl].
  - exists 0. split; [reflexivity | lra].
  - eexists. split; [reflexivity | apply py_max_lower].
Qed.

Lemma workload_balance_nonneg combination b :
  _calculate_workload_balance pow_half combination = Return b -> 0 <= b.
Proof.
  intros H.
  destruct (first_exception combination) as [e |] eqn:E.
  - rewrite (workload_balance_raises _ _ E) in H. discriminate.
  - destruct (workload_balance_returns _ E) as (b' & Hb & H0).
    rewrite H in Hb. now injection Hb as <-.
Qed.


(** the outcome of the scorer: the preference score is computed first, then
    the balance bonus *)
Lemma quality_score_spec combination cfs prefs :
  match scorer_exception combination prefs with
  | Some e =>
      _calculate_quality_score pow_half combination cfs prefs = Raise e
  | None =>
      exists q,
        _calculate_quality_score pow_half combination cfs prefs = Return q
        /\ 0 <= q /\ q <= 100
  end.
Proof.
  unfold scorer_exception, reads_all_credits, _calculate_quality_score.
  destruct prefs as [p |].
  - pose proof (preference_score_spec combination p) as Hp.
    destruct (validate_weights p && negb (forallb carries_credits combination)).
    + rewrite Hp. reflexivity.
    + destruct Hp as [x ->]. cbn [bind].
      destruct (first_exception combination) as [e |] eqn:E.
      * now rewrite (workload_balance_raises _ _ E).
      * destruct (workload_balance_returns _ E) as (b & -> & _). cbn [bind].
        eexists. split; [reflexivity | apply clamp_bounds].
  - cbn [bind].
    destruct (first_exception combination) as [e |] eqn:E.
    + now rewrite (workload_balance_raises _ _ E).
    + destruct (workload_balance_returns _ E) as (b & -> & _). cbn [bind].
      eexists. split; [reflexivity | apply clamp_bounds].
Qed.

Lemma scorer_exception_kind combination prefs e :
  scorer_exception combination prefs = Some e ->
  (e = zero_division /\ existsb divides_by_zero combination = true)
  \/ (e = no_credits_attribute
      /\ forallb carries_credits combination = false).
Proof.
  unfold scorer_exception, reads_all_credits.
  destruct (match prefs with Some p => validate_weights p | None => false end
            && negb (forallb carries_credits combination)) eqn:E.
  - intros [= <-]. right. split; [reflexivity |].
    apply andb_true_iff in E. destruct E as [_ E].
    now apply negb_true_iff in E.
  - apply first_exception_kind.
Qed.

Lemma scorer_exception_stops combination prefs :
  scorer_exception combination prefs = None
  <-> scorer_stops combination prefs = false.
Proof.
  unfold scorer_exception, scorer_stops, reads_all_credits.
  destruct (match prefs with Some p => validate_weights p | None => false end
            && negb (forallb carries_credits combination)); cbn [orb].
  - split; discriminate.
  - apply first_exception_none.
Qed.

Lemma quality_score_returns combination cfs prefs :
  scorer_stops combination prefs = false ->
  exists q,
    _calculate_quality_score pow_half combination cfs prefs = Return q
    /\ 0 <= q /\ q <= 100.
Proof.
  intros E. apply scorer_exception_stops in E.
  pose proof (quality_score_spec combination cfs prefs) as H.
  now rewrite E in H.
Qed.

Lemma quality_score_raises combination cfs prefs :
  scorer_stops combination prefs = true ->
  exists e,
    _calculate_quality_score pow_half combination cfs prefs = Raise e
    /\ ((e = zero_division /\ existsb divides_by_zero combination = true)
        \/ (e = no_credits_attribute
            /\ forallb carries_credits combination = false)).
Proof.
  intros E.
  pose proof (quality_score_spec combination cfs prefs) as H.
  destruct (scorer_exception combination prefs) as [e |] eqn:Ee.
  - exists e. split; [exact H |]. now apply (scorer_exception_kind _ prefs).
  - apply scorer_exception_stops in Ee. congruence.
Qed.

(** a returned score is within bounds *)
Lemma quality_score_range combination cfs prefs q :
  _calculate_quality_score pow_half combination cfs prefs = Return q ->
  0 <= q /\ q <= 100.
Proof.
  intros H.
  pose proof (quality_score_spec combination cfs prefs) as Hs.
  destruct (scorer_exception combination prefs).
  - congruence.
  - destruct Hs as (q' & Hq & Hb). rewrite H in Hq. now injection Hq as <-.
Qed.


End Balance.

(** ** Validation and the error kind that reaches the caller *)

Lemma generate_schedules_raises pow_half env request available e :
  generation pow_half env request available = Raise e ->
  generate_schedules pow_half env request available
  = Raise (ScheduleGeneratorError
             ("Schedule generation failed: " ++ exn_str e)%string
             (Some "GENERATION_FAILED"%string)).
Proof. unfold generate_schedules. now intros ->. Qed.

Lemma generation_validation_raises pow_half env request available e :
  _validate_request request available = Raise e ->
  generation pow_half env request available = Raise e.
Proof. unfold generation. now intros ->. Qed.

(** every failure of [generate_schedules] carries the kind
    [GENERATION_FAILED] *)
Lemma generate_schedules_error_kind pow_half env request available e :
  generate_schedules pow_half env request available = Raise e ->
  exn_code e = Some "GENERATION_FAILED"%string.
Proof.
  unfold generate_schedules.
  destruct (generation pow_half env request available); [| discriminate].
  intros [= <-]. reflexivity.
Qed.

(** C1. On the request with [min_credits = 18] and [max_credits = 12] the
    validation raises [INVALID_CREDIT_CONSTRAINTS], and [generate_schedules]
    raises an error whose kind is [GENERATION_FAILED]: the handler around
    the body replaces the kind of the validation error. *)
Theorem inverted_credits_reported_as_generation_failed :
  forall pow_half env,
    _validate_request inverted_credits_request [("CS101"%string, [cs101_01])]
    = Raise (ScheduleGeneratorError
               "Minimum credits cannot be greater than maximum credits"
               (Some "INVALID_CREDIT_CONSTRAINTS"%string))
    /\ generate_schedules pow_half env inverted_credits_request
         [("CS101"%string, [cs101_01])]
       = Raise (ScheduleGeneratorError
                  "Schedule generation failed: Minimum credits cannot be greater than maximum credits"
                  (Some "GENERATION_FAILED"%string)).
Proof.
  intros pow_half env. split; [reflexivity |].
  apply (generate_schedules_raises pow_half env inverted_credits_request
           [("CS101"%string, [cs101_01])]
           (ScheduleGeneratorError
              "Minimum credits cannot be greater than maximum credits"
              (Some "INVALID_CREDIT_CONSTRAINTS"%string))).
  apply generation_validation_raises. reflexivity.
Qed.

(** ** The section filter *)

(** C7. With [include_full_sections] false, the section whose capacity and
    enrolment are both present and equal to zero has [enrolled >= capacity]
    and yet survives the filter: the availability test is guarded by the
    truthiness of both fields. *)
Theorem zero_capacity_section_survives_filter :
  capacity sem200_01 = Some 0%Z
  /\ enrolled sem200_01 = Some 0%Z
  /\ section_survives None false sem200_01 = true
  /\ _filter_sections [("SEM200"%string, [sem200_01])] None false
     = [("SEM200"%string, [sem200_01])].
Proof. repeat split. Qed.

(** the rule as the code applies it: a section is dropped for being full
    exactly when both fields are present and non-zero and
    [enrolled >= capacity] *)
Lemma is_full_iff section :
  is_full section = true
  <-> exists c e, capacity section = Some c /\ enrolled section = Some e
                  /\ c <> 0%Z /\ e <> 0%Z /\ (c <= e)%Z.
Proof.
  unfold is_full.
  destruct (capacity section) as [c |], (enrolled section) as [e |]; simpl.
  - rewrite !andb_true_iff, !negb_true_iff, !Z.eqb_neq, Z.leb_le.
    split.
    + intros [[Hc He] Hle]. exists c, e. auto.
    + intros (c' & e' & [= <-] & [= <-] & Hc & He & Hle). auto.
  - split; [discriminate | intros (? & ? & _ & [=] & _)].
  - split; [discriminate | intros (? & ? & [=] & _)].
  - split; [discriminate | intros (? & ? & [=] & _)].
Qed.

Lemma missing_field_never_full section :
  capacity section = None \/ enrolled section = None ->
  is_full section = false.
Proof.
  unfold is_full. intros [-> | ->]; [reflexivity |].
  now destruct (capacity section).
Qed.

Lemma dict_get_set_other (d : list (string * list CourseSection)) k v k0 :
  k <> k0 ->
  dict_get String.eqb (dict_set String.eqb d k v) k0
  = dict_get String.eqb d k0.
Proof.
  intros Hk. induction d as [| [k' v'] r IH]; simpl.
  - destruct (String.eqb_spec k k0); [contradiction | reflexivity].
  - destruct (String.eqb_spec k' k) as [-> | Hne]; simpl.
    + destruct (String.eqb_spec k k0); [contradiction | reflexivity].
    + now rewrite IH.
Qed.

Lemma filter_loop_keeps_absent cs include_full cid available : forall acc,
  (forall secs, In (cid, secs) available ->
                filter (section_survives cs include_full) secs = []) ->
  dict_get String.eqb acc cid = None ->
  dict_get String.eqb
    (fold_left
       (fun filtered '(c, secs) =>
          match filter (section_survives cs include_full) secs with
          | [] => filtered
          | fs => dict_set String.eqb filtered c fs
          end)
       available acc) cid = None.
Proof.
  induction available as [| [c secs] r IH]; intros acc Hall Hacc; simpl.
  - assumption.
  - apply IH.
    + intros secs' Hin. apply Hall. now right.
    + destruct (filter (section_survives cs include_full) secs) eqn:E.
      * assumption.
      * rewrite dict_get_set_other; [assumption |].
        intros ->. rewrite (Hall secs) in E; [discriminate | now left].
Qed.

(** C2 (amended). Generation fails when a requested course is absent from
    the available sections or has an empty list there, as they are before
    any filtering: the validation error has kind [NO_SECTIONS_AVAILABLE] and
    its message lists the missing course ids.  A course whose sections are
    all removed by the filter causes no failure: it is left out of the
    filtered mapping, and validation does not look at the filter. *)
Theorem missing_course_fails_filtered_course_dropped :
  forall pow_half env request available,
    (forall cid,
        In cid (course_ids request) -> is_missing available cid = true ->
        let missing := filter (is_missing available) (course_ids request) in
        In cid missing
        /\ _validate_request request available
           = Raise (ScheduleGeneratorError
                      ("No available sections for courses: "
                       ++ repr_list missing)%string
                      (Some "NO_SECTIONS_AVAILABLE"%string))
        /\ exists e,
            generate_schedules pow_half env request available = Raise e)
    /\ (forall cid,
           (forall secs, In (cid, secs) available ->
                         filter (section_survives (constraints request)
                                   (include_full_sections request)) secs = []) ->
           dict_get String.eqb
             (_filter_sections available (constraints request)
                (include_full_sections request)) cid = None)
    /\ ((forall cid, In cid (course_ids request) ->
                     is_missing available cid = false) ->
        constraints request = None ->
        _validate_request request available = Return tt).
Proof.
  intros pow_half env request available. split; [| split].
  - intros cid Hin Hmiss missing.
    assert (In cid missing) as Hm by (apply filter_In; auto).
    assert (_validate_request request available
            = Raise (ScheduleGeneratorError
                       ("No available sections for courses: "
                        ++ repr_list missing)%string
                       (Some "NO_SECTIONS_AVAILABLE"%string))) as Hv.
    { unfold _validate_request. fold missing.
      destruct missing; [contradiction | reflexivity]. }
    repeat split; [assumption | assumption |].
    eexists. apply generate_schedules_raises.
    apply generation_validation_raises. exact Hv.
  - intros cid Hall. unfold _filter_sections.
    apply filter_loop_keeps_absent; [assumption | reflexivity].
  - intros Hnone Hc. unfold _validate_request.
    destruct (filter (is_missing available) (course_ids request))
      as [| c l] eqn:E.
    + now rewrite Hc.
    + assert (In c (filter (is_missing available) (course_ids request)))
        as Hin by (rewrite E; now left).
      apply filter_In in Hin. destruct Hin as [Hin Hm].
      rewrite (Hnone c Hin) in Hm. discriminate.
Qed.

(** ** Which combinations are kept *)

Lemma keeps_iff request cfs :
  keeps request cfs = true <-> cfs = [] \/ constraints request = None.
Proof.
  unfold keeps. destruct cfs, (constraints request); split; auto;
    try discriminate; intros H; destruct H; discriminate.
Qed.

(** C3 (amended). A combination is kept in the candidate pool exactly when
    its conflict list is empty or no constraints object was supplied; so a
    combination with a non-empty conflict list, warnings included, is kept
    exactly when no constraints object was supplied. *)
Theorem combination_kept_iff_conflict_free_or_unconstrained :
  forall request all_combinations combination cfs,
    In (combination, cfs) (valid_schedules request all_combinations)
    <-> (In combination all_combinations
         /\ cfs = _detect_conflicts combination
         /\ (cfs = [] \/ constraints request = None)).
Proof.
  intros request all_combinations combination cfs.
  unfold valid_schedules. rewrite in_flat_map. split.
  - intros (c & Hin & H).
    destruct (keeps request (_detect_conflicts c)) eqn:K; [| contradiction].
    simpl in H. destruct H as [H | []]. injection H as <- <-.
    split; [assumption |]. split; [reflexivity |]. now apply keeps_iff.
  - intros (Hin & -> & K). exists combination. split; [assumption |].
    apply keeps_iff in K. rewrite K. now left.
Qed.

(** ** The stable descending sort *)

Section Sorting.
Context {A : Type} (key : A -> Q).

Lemma insert_desc_perm x l : Permutation (insert_desc key x l) (x :: l).
Proof.
  induction l as [| y r IH]; simpl; [reflexivity |].
  destruct (Qltb (key x) (key y)); [| reflexivity].
  rewrite IH. apply perm_swap.
Qed.

Lemma sort_desc_perm l : Permutation (sort_desc key l) l.
Proof.
  induction l as [| x l IH]; simpl; [reflexivity |].
  rewrite insert_desc_perm. now constructor.
Qed.

Lemma insert_desc_sorted x l :
  StronglySorted (descending key) l ->
  StronglySorted (descending key) (insert_desc key x l).
Proof.
  induction l as [| y r IH]; intros Hs; simpl.
  - repeat constructor.
  - inversion Hs as [| ? ? Hr Hy]; subst.
    destruct (Qltb (key x) (key y)) eqn:E.
    + apply Qltb_lt in E. constructor; [now apply IH |].
      rewrite insert_desc_perm.
      constructor; [unfold descending; lra | assumption].
    + apply Qltb_ge in E. constructor; [assumption |].
      constructor; [exact E |].
      eapply Forall_impl; [| exact Hy].
      unfold descending. intros z Hz. lra.
Qed.

Lemma sort_desc_sorted l : StronglySorted (descending key) (sort_desc key l).
Proof.
  induction l as [| x l IH]; simpl; [constructor |].
  now apply insert_desc_sorted.
Qed.

Lemma insert_desc_stable q x l :
  with_key key q (insert_desc key x l) = with_key key q (x :: l).
Proof.
  unfold with_key. induction l as [| y r IH]; [reflexivity |].
  cbn [insert_desc].
  destruct (Qltb (key x) (key y)) eqn:E; [| reflexivity].
  cbn [filter] in *. rewrite IH.
  destruct (Qeq_bool (key x) q) eqn:Ex, (Qeq_bool (key y) q) eqn:Ey;
    try reflexivity.
  apply Qltb_lt in E. apply Qeq_bool_iff in Ex, Ey. lra.
Qed.

Lemma sort_desc_stable q l :
  with_key key q (sort_desc key l) = with_key key q l.
Proof.
  induction l as [| x l IH]; [reflexivity |].
  cbn [sort_desc fold_right]. rewrite insert_desc_stable.
  unfold with_key in *. cbn [filter]. fold (sort_desc key l).
  now rewrite IH.
Qed.

Lemma firstn_sorted n l :
  StronglySorted (descending key) l ->
  StronglySorted (descending key) (firstn n l).
Proof.
  revert l. induction n as [| n IH]; intros l Hs; [constructor |].
  destruct l as [| x l]; [constructor |]. simpl.
  inversion Hs; subst. constructor; [now apply IH |].
  apply Forall_forall. intros y Hy.
  eapply Forall_forall; [eassumption |].
  rewrite <- (firstn_skipn n l). apply in_or_app. now left.
Qed.

Lemma filter_sorted f l :
  StronglySorted (descending key) l ->
  StronglySorted (descending key) (filter f l).
Proof.
  induction 1 as [| x l Hs IH Hx]; simpl; [constructor |].
  destruct (f x); [| assumption].
  constructor; [assumption |].
  apply Forall_forall. intros y Hy. apply filter_In in Hy.
  eapply Forall_forall; [eassumption | tauto].
Qed.

(** a prefix keeps, for every key, a prefix of the elements of that key *)
Lemma with_key_firstn q n l :
  exists rest, with_key key q l = with_key key q (firstn n l) ++ rest.
Proof.
  exists (with_key key q (skipn n l)). unfold with_key.
  rewrite <- filter_app. now rewrite firstn_skipn.
Qed.

(** a threshold on the key keeps all the elements of a given key or none *)
Lemma with_key_threshold q t l :
  with_key key q (filter (fun x => Qle_bool t (key x)) l)
  = if Qle_bool t q then with_key key q l else [].
Proof.
  unfold with_key. induction l as [| x l IH]; simpl.
  - now destruct (Qle_bool t q).
  - destruct (Qle_bool t (key x)) eqn:Et; simpl;
      destruct (Qeq_bool (key x) q) eqn:Eq; rewrite IH;
      destruct (Qle_bool t q) eqn:Eq'; try reflexivity.
    + apply Qeq_bool_iff in Eq. apply Qle_bool_iff in Et.
      assert (t <= q) as H by lra. apply Qle_bool_iff in H. congruence.
    + apply Qeq_bool_iff in Eq. apply Qle_bool_iff in Eq'.
      assert (t <= key x) as H by lra. apply Qle_bool_iff in H. congruence.
Qed.

End Sorting.

(** ** Ranking and selection *)

Lemma filter_all {A : Type} (f : A -> bool) (l : list A) :
  (forall x, In x l -> f x = true) -> filter f l = l.
Proof.
  induction l as [| x l IH]; intros H; simpl; [reflexivity |].
  rewrite (H x (or_introl eq_refl)). f_equal. apply IH.
  intros y Hy. apply H. now right.
Qed.

(** the threshold block returns the options that meet the threshold; it
    raises only when the attribute is set to [None] and there is an option
    to compare *)
Lemma apply_min_quality_returns request l l' :
  apply_min_quality request l = Return l' ->
  l' = filter (meets_threshold request) l.
Proof.
  unfold apply_min_quality, meets_threshold, min_quality.
  destruct (constraints request) as [c |].
  - destruct (min_quality_score c) as [| [t |]].
    + intros [= <-]. symmetry. now apply filter_all.
    + intros [= <-]. reflexivity.
    + destruct l; [| discriminate]. intros [= <-]. reflexivity.
  - intros [= <-]. symmetry. now apply filter_all.
Qed.


(** what a successful run went through *)
Lemma generation_returns pow_half env request available g :
  generate_schedules pow_half env request available = Return g ->
  exists all_combinations scored,
    _validate_request request available = Return tt
    /\ _generate_section_combinations env
         (_filter_sections available (constraints request)
            (include_full_sections request)) = Return all_combinations
    /\ map_result (score_schedule pow_half env request)
         (combine
            (seq 1 (List.length (valid_schedules request all_combinations)))
            (valid_schedules request all_combinations)) = Return scored
    /\ options g
       = filter (meets_threshold request)
           (firstn (max_options request) (sort_desc quality_score scored))
    /\ total_options_generated g = List.length all_combinations.
Proof.
  unfold generate_schedules.
  destruct (generation pow_half env request available) as [e | g'] eqn:G;
    [discriminate |].
  intros [= ->]. unfold generation in G. cbv zeta in G.
  destruct (_validate_request request available) as [e | []] eqn:Hv;
    [discriminate |].
  cbn [bind] in G.
  destruct (_generate_section_combinations env _) as [e | combos] eqn:Hc;
    [discriminate |].
  cbn [bind] in G.
  destruct (map_result _ _) as [e | scored] eqn:Hs; [discriminate |].
  cbn [bind] in G.
  destruct (apply_min_quality request _) as [e | selected] eqn:Ha;
    [discriminate |].
  cbn [bind] in G. injection G as <-.
  apply apply_min_quality_returns in Ha.
  exists combos, scored. repeat split; assumption.
Qed.

Lemma meets_threshold_sorted request l :
  StronglySorted (descending quality_score) l ->
  StronglySorted (descending quality_score)
    (filter (meets_threshold request) l).
Proof. apply filter_sorted. Qed.

Lemma meets_threshold_with_key request q l :
  exists rest,
    with_key quality_score q l
    = with_key quality_score q (filter (meets_threshold request) l) ++ rest.
Proof.
  unfold meets_threshold.
  destruct (min_quality request) as [t |].
  - rewrite with_key_threshold. destruct (Qle_bool t q).
    + exists []. now rewrite app_nil_r.
    + eexists. reflexivity.
  - exists []. rewrite filter_all by reflexivity. now rewrite app_nil_r.
Qed.

(** C5. For every successful generation the options are the scored
    candidates sorted by decreasing quality score, candidates of equal score
    keeping their generation order, cut to the first [max_options], less
    the options of that prefix whose score is under the minimum-quality
    threshold: an option is returned exactly when it stands among the first
    [max_options] of the sorted candidates and its score is at least the
    threshold.  The options are in descending order of score and number at
    most [max_options]. *)
Theorem options_sorted_truncated_then_thresholded :
  forall pow_half env request available g,
    generate_schedules pow_half env request available = Return g ->
    exists all_combinations scored,
      _generate_section_combinations env
        (_filter_sections available (constraints request)
           (include_full_sections request)) = Return all_combinations
      /\ map_result (score_schedule pow_half env request)
           (combine
              (seq 1 (List.length (valid_schedules request all_combinations)))
              (valid_schedules request all_combinations)) = Return scored
      /\ Permutation (sort_desc quality_score scored) scored
      /\ StronglySorted (descending quality_score)
           (sort_desc quality_score scored)
      /\ (forall q, with_key quality_score q (sort_desc quality_score scored)
                    = with_key quality_score q scored)
      /\ options g
         = filter (meets_threshold request)
             (firstn (max_options request) (sort_desc quality_score scored))
      /\ (forall o,
             In o (options g)
             <-> In o (firstn (max_options request)
                         (sort_desc quality_score scored))
                 /\ match min_quality request with
                    | Some t => t <= quality_score o
                    | None => True
                    end)
      /\ StronglySorted (descending quality_score) (options g)
      /\ (List.length (options g) <= max_options request)%nat
      /\ (forall q, exists rest,
             with_key quality_score q scored
             = with_key quality_score q (options g) ++ rest).
Proof.
  intros pow_half env request available g H.
  destruct (generation_returns _ _ _ _ _ H)
    as (combos & scored & _ & Hc & Hs & Ho & _).
  exists combos, scored.
  split; [exact Hc |]. split; [exact Hs |].
  split; [apply sort_desc_perm |].
  split; [apply sort_desc_sorted |].
  split; [intro q; apply sort_desc_stable |].
  split; [exact Ho |].
  rewrite Ho. split; [| split; [| split]].
  - intros o. rewrite filter_In. unfold meets_threshold.
    destruct (min_quality request) as [t |].
    + now rewrite Qle_bool_iff.
    + tauto.
  - apply meets_threshold_sorted, firstn_sorted, sort_desc_sorted.
  - etransitivity; [apply filter_length_le |].
    apply firstn_le_length.
  - intros q.
    destruct (meets_threshold_with_key request q
                (firstn (max_options request)
                   (sort_desc quality_score scored))) as [r1 H1].
    destruct (with_key_firstn quality_score q (max_options request)
                (sort_desc quality_score scored)) as [r2 H2].
    exists (r1 ++ r2).
    rewrite <- (sort_desc_stable quality_score q scored), H2, H1.
    now rewrite app_assoc.
Qed.

(** ** Exceptions in the scoring loop *)

Lemma map_result_raises {A B : Type} (f : A -> result B) (e : exn) (l : list A) :
  (forall y e', In y l -> f y = Raise e' -> e' = e) ->
  (exists x, In x l /\ f x = Raise e) ->
  map_result f l = Raise e.
Proof.
  induction l as [| y r IH]; intros Hall (x & Hin & Hx); [contradiction |].
  simpl. destruct (f y) as [e' | b] eqn:Ey.
  - simpl. f_equal. apply (Hall y); [now left | assumption].
  - simpl. rewrite IH; [reflexivity | |].
    + intros z e' Hz. apply Hall. now right.
    + destruct Hin as [-> | Hin]; [congruence |]. now exists x.
Qed.




Section Scoring.
Variable pow_half : Q -> Q.


(** the scoring loop raises nothing but the division error and the
    attribute error *)
Lemma score_schedule_raises_only env request entry e :
  score_schedule pow_half env request entry = Raise e ->
  e = zero_division \/ e = no_credits_attribute.
Proof.
  destruct entry as [k [combination cfs]]. unfold score_schedule.
  destruct (scorer_stops combination (preferences request)) eqn:E.
  - destruct (quality_score_raises pow_half combination cfs
                (preferences request) E) as (e' & -> & [[-> _] | [-> _]]);
      cbn [bind]; intros [= <-]; auto.
  - destruct (quality_score_returns pow_half combination cfs
                (preferences request) E) as (q & -> & _).
    cbn [bind].
    pose proof (sum_credits_spec combination) as Hs.
    destruct (forallb carries_credits combination).
    + destruct Hs as [t ->]. discriminate.
    + rewrite Hs. cbn [bind]. intros [= <-]. auto.
Qed.



End Scoring.

(** C9. On a section as [_parse_section_data] builds it, with a meeting on
    "MW" and no [credits] attribute, nothing is divided by zero, and yet
    the workload-balance bonus is not returned: reading [section.credits]
    raises the attribute error, and [generate_schedules] fails with
    [GENERATION_FAILED], whatever the square root and the environment. *)
Theorem section_without_credits_stops_the_bonus :
  forall pow_half env,
    existsb divides_by_zero [hist110_01] = false
    /\ exists m,
        _calculate_workload_balance pow_half [hist110_01]
        = Raise (AttributeError m)
        /\ generate_schedules pow_half env
             (no_constraints_request ["HIST110"%string] 5)
             [("HIST110"%string, [hist110_01])]
           = Raise (ScheduleGeneratorError
                      ("Schedule generation failed: " ++ m)%string
                      (Some "GENERATION_FAILED"%string)).
Proof.
  intros pow_half env. split; [reflexivity |].
  eexists. split; [reflexivity |].
  apply (generate_schedules_raises pow_half env
           (no_constraints_request ["HIST110"%string] 5)
           [("HIST110"%string, [hist110_01])] no_credits_attribute).
  unfold generation, _generate_section_combinations.
  destruct (memory_exhausted env); reflexivity.
Qed.

(** ** Grouping by professor id *)

Lemma opt_eqb_eq (a b : option Z) : opt_eqb Z.eqb a b = true <-> a = b.
Proof.
  destruct a as [x |], b as [y |]; simpl; try (split; congruence).
  rewrite Z.eqb_eq. split; congruence.
Qed.

Section Grouping.
Context {K A : Type} (eqb : K -> K -> bool).
Hypothesis eqb_eq : forall a b, eqb a b = true <-> a = b.

Lemma eqb_refl_true k : eqb k k = true.
Proof. now apply eqb_eq. Qed.

Lemma group_append (d : list (K * list A)) k x k' :
  group eqb (dict_append eqb d k x) k'
  = group eqb d k' ++ (if eqb k k' then [x] else []).
Proof.
  unfold group, dict_append. induction d as [| [k0 v0] r IH]; simpl.
  - now destruct (eqb k k').
  - destruct (eqb k0 k) eqn:E0; simpl.
    + apply eqb_eq in E0. subst k0.
      destruct (eqb k k'); [reflexivity | now rewrite app_nil_r].
    + destruct (eqb k0 k') eqn:E1; [| exact IH].
      apply eqb_eq in E1. subst k0.
      destruct (eqb k k') eqn:E2; [| now rewrite app_nil_r].
      apply eqb_eq in E2. subst k'. rewrite eqb_refl_true in E0.
      discriminate.
Qed.

Lemma dict_get_in (d : list (K * list A)) k v :
  dict_get eqb d k = Some v -> In (k, v) d.
Proof.
  induction d as [| [k0 v0] r IH]; simpl; [discriminate |].
  destruct (eqb k0 k) eqn:E0.
  - apply eqb_eq in E0. subst k0. intros [= ->]. now left.
  - intros H. right. now apply IH.
Qed.

(** an absent key has an empty group *)
Lemma group_nonempty_get (d : list (K * list A)) k :
  group eqb d k <> [] -> dict_get eqb d k = Some (group eqb d k).
Proof.
  unfold group. destruct (dict_get eqb d k); [reflexivity | congruence].
Qed.

End Grouping.

Lemma professors_loop_group (section : CourseSection) (ps : list Professor)
  (pid : option Z) : forall d : list (option Z * list CourseSection),
  group (opt_eqb Z.eqb)
    (fold_left
       (fun d' professor =>
          dict_append (opt_eqb Z.eqb) d' (professor_id professor) section)
       ps d) pid
  = group (opt_eqb Z.eqb) d pid
    ++ map (fun _ => section)
         (filter (fun p => opt_eqb Z.eqb (professor_id p) pid) ps).
Proof.
  induction ps as [| p ps IH]; intros d; simpl.
  - now rewrite app_nil_r.
  - rewrite IH, (group_append _ opt_eqb_eq).
    destruct (opt_eqb Z.eqb (professor_id p) pid); simpl.
    + now rewrite <- app_assoc.
    + now rewrite app_nil_r.
Qed.

Lemma sections_loop_group (combination : list CourseSection)
  (pid : option Z) : forall d : list (option Z * list CourseSection),
  group (opt_eqb Z.eqb)
    (fold_left
       (fun d section =>
          match professors section with
          | Some ps =>
              fold_left
                (fun d' professor =>
                   dict_append (opt_eqb Z.eqb) d' (professor_id professor)
                     section)
                ps d
          | None => d
          end)
       combination d) pid
  = group (opt_eqb Z.eqb) d pid ++ filed_under pid combination.
Proof.
  induction combination as [| s l IH]; intros d; simpl.
  - now rewrite app_nil_r.
  - rewrite IH. destruct (professors s) as [ps |].
    + now rewrite professors_loop_group, <- app_assoc.
    + reflexivity.
Qed.

Lemma professor_sections_group combination pid :
  group (opt_eqb Z.eqb) (professor_sections combination) pid
  = filed_under pid combination.
Proof. unfold professor_sections. now rewrite sections_loop_group. Qed.

Lemma taught_without_id_filed section combination :
  In section combination -> taught_without_id section = true ->
  In section (filed_under None combination).
Proof.
  intros Hin Ht. unfold filed_under. apply in_flat_map.
  exists section. split; [assumption |].
  unfold taught_without_id in Ht.
  destruct (professors section) as [[| p ps] |]; try discriminate.
  cbn [forallb] in Ht. apply andb_true_iff in Ht. destruct Ht as [Hp _].
  cbn [filter]. rewrite Hp. now left.
Qed.

Lemma taught_without_id_count combination :
  (List.length (filter taught_without_id combination)
   <= List.length (filed_under None combination))%nat.
Proof.
  induction combination as [| s l IH]; simpl; [lia |].
  rewrite length_app.
  destruct (taught_without_id s) eqn:Ht; [| lia].
  unfold taught_without_id in Ht.
  destruct (professors s) as [[| p ps] |]; try discriminate.
  cbn [forallb] in Ht. apply andb_true_iff in Ht. destruct Ht as [Hp _].
  cbn [filter]. rewrite Hp. simpl. lia.
Qed.

Lemma professor_conflicts_count combination :
  List.length (_detect_professor_conflicts combination)
  = List.length
      (filter (fun g => (1 <? List.length (snd g))%nat)
              (professor_sections combination)).
Proof.
  unfold _detect_professor_conflicts.
  induction (professor_sections combination) as [| [pid grp] r IH];
    [reflexivity |].
  cbn [flat_map filter snd]. rewrite length_app, IH.
  destruct grp as [| s0 [| s1 rest]]; reflexivity.
Qed.

(** C10. Sections are grouped under the optional id of their professors, so
    in every combination with two or more sections taught only by
    professors without an id those sections share the group of the key
    [None]; one [same_professor] warning is emitted for that group, as for
    every group of two or more entries, and it names the first two entries
    of the group whatever the size of the group. *)
Theorem sections_without_professor_id_share_a_group :
  forall combination,
    (2 <= List.length (filter taught_without_id combination))%nat ->
    exists s0 s1 rest,
      filed_under None combination = s0 :: s1 :: rest
      /\ dict_get (opt_eqb Z.eqb) (professor_sections combination) None
         = Some (s0 :: s1 :: rest)
      /\ (forall s, In s combination -> taught_without_id s = true ->
                    In s (s0 :: s1 :: rest))
      /\ In (mk_ScheduleConflict (section_id s0) (section_id s1)
               "same_professor"
               "Multiple sections with same professor (ID: None)"
               "warning")
            (_detect_professor_conflicts combination)
      /\ List.length (_detect_professor_conflicts combination)
         = List.length
             (filter (fun g => (1 <? List.length (snd g))%nat)
                     (professor_sections combination)).
Proof.
  intros combination H.
  pose proof (taught_without_id_count combination) as Hc.
  destruct (filed_under None combination) as [| s0 [| s1 rest]] eqn:E;
    simpl in Hc; try lia.
  exists s0, s1, rest.
  assert (dict_get (opt_eqb Z.eqb) (professor_sections combination) None
          = Some (s0 :: s1 :: rest)) as Hg.
  { rewrite <- E, <- professor_sections_group.
    apply group_nonempty_get.
    rewrite professor_sections_group, E. discriminate. }
  split; [reflexivity |]. split; [exact Hg |]. split; [| split].
  - intros s Hin Ht. rewrite <- E. now apply taught_without_id_filed.
  - unfold _detect_professor_conflicts. apply in_flat_map.
    exists (None, s0 :: s1 :: rest). split.
    + apply (dict_get_in _ opt_eqb_eq). exact Hg.
    + now left.
  - apply professor_conflicts_count.
Qed.

(** ** Determinism of the exact enumeration *)

Lemma product_nth_error {A : Type} (xs : list A) (rest : list (list A)) :
  forall a b x c,
    nth_error xs a = Some x ->
    nth_error (product rest) b = Some c ->
    nth_error (product (xs :: rest)) (a * List.length (product rest) + b)
    = Some (x :: c).
Proof.
  induction xs as [| y ys IH]; intros a b x c Hx Hc.
  - destruct a; discriminate.
  - change (product ((y :: ys) :: rest))
      with (map (cons y) (product rest) ++ product (ys :: rest)).
    destruct a as [| a]; simpl in Hx.
    + injection Hx as ->. simpl.
      rewrite nth_error_app1.
      * now apply map_nth_error.
      * rewrite length_map. apply nth_error_Some. congruence.
    + rewrite nth_error_app2; rewrite length_map; [| simpl; lia].
      replace (S a * List.length (product rest) + b
               - List.length (product rest))%nat
        with (a * List.length (product rest) + b)%nat by (simpl; lia).
      now apply IH.
Qed.

Lemma map_insert_desc {A B : Type} (f : A -> B) (key : B -> Q) (key' : A -> Q) :
  (forall x, key' x = key (f x)) ->
  forall x l,
    map f (insert_desc key' x l) = insert_desc key (f x) (map f l).
Proof.
  intros Hk x l. induction l as [| y r IH]; simpl; [reflexivity |].
  rewrite !Hk. destruct (Qltb (key (f x)) (key (f y))); simpl;
    [now rewrite IH | reflexivity].
Qed.

Lemma map_sort_desc {A B : Type} (f : A -> B) (key : B -> Q) (key' : A -> Q) :
  (forall x, key' x = key (f x)) ->
  forall l, map f (sort_desc key' l) = sort_desc key (map f l).
Proof.
  intros Hk l. induction l as [| x l IH]; simpl; [reflexivity |].
  rewrite (map_insert_desc f key key' Hk). now rewrite IH.
Qed.

Lemma map_filter_through {A B : Type} (f : A -> B) (p : B -> bool) (l : list A) :
  map f (filter (fun x => p (f x)) l) = filter p (map f l).
Proof.
  induction l as [| x l IH]; simpl; [reflexivity |].
  destruct (p (f x)); simpl; now rewrite IH.
Qed.

Lemma meets_threshold_core request o :
  meets_threshold request o
  = match min_quality request with
    | Some t => Qle_bool t (core_score (option_core o))
    | None => true
    end.
Proof. reflexivity. Qed.

Lemma selection_core request l1 l2 :
  map option_core l1 = map option_core l2 ->
  match apply_min_quality request
          (firstn (max_options request) (sort_desc quality_score l1)),
        apply_min_quality request
          (firstn (max_options request) (sort_desc quality_score l2)) with
  | Return a, Return b => map option_core a = map option_core b
  | Raise e1, Raise e2 => e1 = e2
  | _, _ => False
  end.
Proof.
  intros H.
  assert (forall l,
             map option_core
               (firstn (max_options request) (sort_desc quality_score l))
             = firstn (max_options request)
                 (sort_desc core_score (map option_core l))) as Hsel.
  { intros l. rewrite <- firstn_map. f_equal.
    now apply map_sort_desc. }
  assert (map option_core
            (firstn (max_options request) (sort_desc quality_score l1))
          = map option_core
              (firstn (max_options request) (sort_desc quality_score l2)))
    as Hs by now rewrite !Hsel, H.
  set (s1 := firstn (max_options request) (sort_desc quality_score l1)) in *.
  set (s2 := firstn (max_options request) (sort_desc quality_score l2)) in *.
  unfold apply_min_quality.
  destruct (constraints request) as [c |]; [| exact Hs].
  destruct (min_quality_score c) as [| [t |]]; [exact Hs | |].
  - change (fun s => Qle_bool t (quality_score s))
      with (fun s => (fun c => Qle_bool t (core_score c)) (option_core s)).
    rewrite !(map_filter_through option_core
                (fun c0 => Qle_bool t (core_score c0))).
    now rewrite Hs.
  - destruct s1, s2; try discriminate; reflexivity.
Qed.

Section Determinism.
Variable pow_half : Q -> Q.

Lemma score_schedule_eq env request k combination cfs :
  score_schedule pow_half env request (k, (combination, cfs))
  = match _calculate_quality_score pow_half combination cfs
            (preferences request) with
    | Raise e => Raise e
    | Return q =>
        match sum_credits combination with
        | Raise e => Raise e
        | Return total =>
            Return (mk_ScheduleOption combination total q
                      (map details cfs)
                      (mk_OptionMetadata (now env k)
                         (List.length combination)
                         (0 <? List.length cfs)%nat))
        end
    end.
Proof. reflexivity. Qed.

Lemma scoring_ignores_environment env1 env2 request l : forall s1 s2,
  match map_result (score_schedule pow_half env1 request)
          (combine (seq s1 (List.length l)) l),
        map_result (score_schedule pow_half env2 request)
          (combine (seq s2 (List.length l)) l) with
  | Return a, Return b => map option_core a = map option_core b
  | Raise e1, Raise e2 => e1 = e2
  | _, _ => False
  end.
Proof.
  induction l as [| [combination cfs] l IH]; intros s1 s2; [reflexivity |].
  cbn [List.length seq combine map_result]. rewrite !score_schedule_eq.
  destruct (_calculate_quality_score pow_half combination cfs
              (preferences request)) as [e | q]; cbn [bind]; [reflexivity |].
  destruct (sum_credits combination) as [e | total]; cbn [bind];
    [reflexivity |].
  specialize (IH (S s1) (S s2)).
  destruct (map_result (score_schedule pow_half env1 request) _) as [e1 | a],
           (map_result (score_schedule pow_half env2 request) _) as [e2 | b];
    cbn [bind]; try assumption.
  cbn [map]. now rewrite IH.
Qed.

Lemma exact_enumeration env filtered :
  memory_exhausted env = false ->
  _generate_section_combinations env filtered
  = Return (match dict_values filtered with
            | [] => []
            | ls => product ls
            end).
Proof.
  intros H. unfold _generate_section_combinations. rewrite H.
  now destruct (dict_values filtered).
Qed.

(** C8. Two runs on the same request and available sections, neither of
    which falls back to sampling, agree: both raise the same error, or both
    return options with the same sections, credits, scores and conflict
    details in the same order.  The enumeration is the cartesian product in
    nested order: the combination at position [a * P + b] is section [a] of
    the first course followed by combination [b] of the remaining courses,
    [P] being the number of combinations of the remaining courses. *)
Theorem exact_enumeration_is_deterministic :
  forall env1 env2 request available,
    memory_exhausted env1 = false ->
    memory_exhausted env2 = false ->
    same_outcome (generate_schedules pow_half env1 request available)
                 (generate_schedules pow_half env2 request available)
    /\ (forall filtered,
           _generate_section_combinations env1 filtered
           = Return (match dict_values filtered with
                     | [] => []
                     | ls => product ls
                     end))
    /\ (forall (xs : list CourseSection) rest a b x c,
           nth_error xs a = Some x ->
           nth_error (product rest) b = Some c ->
           nth_error (product (xs :: rest))
             (a * List.length (product rest) + b) = Some (x :: c)).
Proof.
  intros env1 env2 request available H1 H2.
  split; [| split].
  - unfold same_outcome, generate_schedules, generation. cbv zeta.
    destruct (_validate_request request available) as [e | []];
      cbn [bind]; [reflexivity |].
    rewrite !exact_enumeration by assumption. cbn [bind].
    set (combos := match dict_values _ with [] => [] | ls => product ls end).
    pose proof (scoring_ignores_environment env1 env2 request
                  (valid_schedules request combos) 1%nat 1%nat) as Hs.
    destruct (map_result (score_schedule pow_half env1 request) _)
      as [e1 | a],
             (map_result (score_schedule pow_half env2 request) _)
      as [e2 | b];
      cbn [bind]; try contradiction.
    + now subst.
    + pose proof (selection_core request a b Hs) as Hsel.
      destruct (apply_min_quality request
                  (firstn (max_options request) (sort_desc quality_score a)))
        as [e1 | o1],
               (apply_min_quality request
                  (firstn (max_options request) (sort_desc quality_score b)))
        as [e2 | o2];
        cbn [bind]; try contradiction.
      * now subst.
      * cbn [options total_options_generated]. split; [| reflexivity].
        exact Hsel.
  - intros filtered. now apply exact_enumeration.
  - intros xs rest. apply product_nth_error.
Qed.

End Determinism.

(** * The statements at concrete inputs *)

(** C2, as stated, fails here: MATH120 is requested and its only section is
    removed by the filter, yet generation returns one option, made of the
    CS101 section alone. *)
Lemma filtered_out_course_silently_omitted :
  In "MATH120"%string (course_ids (no_constraints_request two_courses 5))
  /\ filter (section_survives None false) [math120_01] = []
  /\ exists g,
      generate_schedules sqrt_thousandths clock_a
        (no_constraints_request two_courses 5) math_full_sections = Return g
      /\ map sections (options g) = [[cs101_01]].
Proof.
  split; [simpl; auto |]. split; [reflexivity |].
  destruct (generate_schedules sqrt_thousandths clock_a
              (no_constraints_request two_courses 5) math_full_sections)
    as [e | g] eqn:E; vm_compute in E; [discriminate |].
  exists g. split; [reflexivity |].
  injection E as <-. reflexivity.
Qed.

Lemma missing_course_fails_filtered_course_dropped_witness :
  (In "BIO300"%string
      (filter (is_missing math_full_sections)
              ["CS101"%string; "BIO300"%string])
   /\ exists e,
       generate_schedules sqrt_thousandths clock_a
         (no_constraints_request ["CS101"%string; "BIO300"%string] 5)
         math_full_sections = Raise e)
  /\ dict_get String.eqb (_filter_sections math_full_sections None false)
       "MATH120" = None
  /\ _validate_request (no_constraints_request two_courses 5)
       math_full_sections = Return tt.
Proof.
  destruct (missing_course_fails_filtered_course_dropped sqrt_thousandths
              clock_a
              (no_constraints_request ["CS101"%string; "BIO300"%string] 5)
              math_full_sections) as (H1 & _ & _).
  destruct (missing_course_fails_filtered_course_dropped sqrt_thousandths
              clock_a (no_constraints_request two_courses 5)
              math_full_sections) as (_ & H2 & H3).
  split; [| split].
  - destruct (H1 "BIO300"%string) as (Hin & _ & He);
      [simpl; auto | reflexivity |].
    split; assumption.
  - apply H2. intros secs [H | [H | []]].
    + discriminate.
    + injection H as <-. reflexivity.
  - apply H3; [| reflexivity].
    intros cid [<- | [<- | []]]; reflexivity.
Defined.

(** C3, as stated, fails here: the only conflict of the combination is a
    [same_professor] warning, a constraints object is supplied, and the
    combination is not kept; generation returns no option. *)
Lemma warning_only_combination_dropped_under_constraints :
  _detect_conflicts warning_only
  = [mk_ScheduleConflict "CS101-01" "PHYS150-01" "same_professor"
       "Multiple sections with same professor (ID: None)" "warning"]
  /\ valid_schedules (constrained_request ["CS101"%string; "PHYS150"%string])
       [warning_only] = []
  /\ exists g,
      generate_schedules sqrt_thousandths clock_a
        (constrained_request ["CS101"%string; "PHYS150"%string])
        warning_only_sections = Return g
      /\ options g = []
      /\ total_options_generated g = 1%nat.
Proof.
  split; [reflexivity |]. split; [reflexivity |].
  destruct (generate_schedules sqrt_thousandths clock_a
              (constrained_request ["CS101"%string; "PHYS150"%string])
              warning_only_sections) as [e | g] eqn:E;
    vm_compute in E; [discriminate |].
  exists g. split; [reflexivity |].
  injection E as <-. split; reflexivity.
Qed.

(** the four candidates score 82, 88, 100 and 97 in generation order; the
    first three of the ranking are 100, 97 and 88, and the threshold of 90
    leaves the first two *)
Lemma options_sorted_truncated_then_thresholded_witness :
  exists g,
    generate_schedules sqrt_thousandths clock_a threshold_request
      chemistry_sections = Return g
    /\ map (fun o => (map section_id (sections o), Qred (quality_score o)))
           (options g)
       = [ (["CHEM110-03"%string], 100); (["CHEM110-04"%string], 97) ]
    /\ StronglySorted (descending quality_score) (options g)
    /\ (List.length (options g) <= 3)%nat
    /\ (forall o, In o (options g) -> 90 <= quality_score o).
Proof.
  destruct (generate_schedules sqrt_thousandths clock_a threshold_request
              chemistry_sections) as [e | g] eqn:E.
  - vm_compute in E. discriminate.
  - exists g. split; [reflexivity |].
    destruct (options_sorted_truncated_then_thresholded sqrt_thousandths
                clock_a threshold_request chemistry_sections g E)
      as (combos & scored & _ & _ & _ & _ & _ & _ & Hin & Hs & Hl & _).
    split; [| split; [| split]].
    + vm_compute in E. injection E as <-. vm_compute. reflexivity.
    + exact Hs.
    + exact Hl.
    + intros o Ho. apply Hin in Ho. destruct Ho as [_ Ho]. exact Ho.
Defined.

Lemma exact_enumeration_is_deterministic_witness :
  same_outcome
    (generate_schedules sqrt_thousandths clock_a ranking_request
       two_course_sections)
    (generate_schedules sqrt_thousandths clock_b ranking_request
       two_course_sections).
Proof.
  exact (proj1 (exact_enumeration_is_deterministic sqrt_thousandths
                  clock_a clock_b ranking_request two_course_sections
                  eq_refl eq_refl)).
Defined.


Lemma sections_without_professor_id_share_a_group_witness :
  exists s0 s1 rest,
    filed_under None [cs101_01; phys150_01; math120_02] = s0 :: s1 :: rest
    /\ dict_get (opt_eqb Z.eqb)
         (professor_sections [cs101_01; phys150_01; math120_02]) None
       = Some (s0 :: s1 :: rest)
    /\ (forall s, In s [cs101_01; phys150_01; math120_02] ->
                  taught_without_id s = true -> In s (s0 :: s1 :: rest))
    /\ In (mk_ScheduleConflict (section_id s0) (section_id s1)
             "same_professor"
             "Multiple sections with same professor (ID: None)"
             "warning")
          (_detect_professor_conflicts [cs101_01; phys150_01; math120_02])
    /\ List.length
         (_detect_professor_conflicts [cs101_01; phys150_01; math120_02])
       = List.length
           (filter (fun g => (1 <? List.length (snd g))%nat)
                   (professor_sections [cs101_01; phys150_01; math120_02])).
Proof.
  apply (sections_without_professor_id_share_a_group
           [cs101_01; phys150_01; math120_02]).
  simpl. lia.
Defined.

(** * Scenarios of the specification *)

(** two sections meeting on "MW" at 10:00-10:50 and 10:30-11:20: exactly one
    [time] conflict, of severity [error] *)
Example overlapping_sections_one_time_conflict :
  _detect_time_conflicts [cs101_01; math120_01]
  = [mk_ScheduleConflict "CS101-01" "MATH120-01" "time"
       "Time conflict between CS101 and MATH120" "error"].
Proof. reflexivity. Qed.

(** sections with no common day have no time conflict, whatever their
    timeslots *)
Lemma disjoint_days_no_time_conflict section1 section2 :
  (forall ms1 ms2 m1 m2,
      meetings section1 = Some ms1 -> meetings section2 = Some ms2 ->
      In m1 ms1 -> In m2 ms2 -> common_days (days m1) (days m2) = false) ->
  _sections_have_time_conflict section1 section2 = false.
Proof.
  intros H. unfold _sections_have_time_conflict.
  destruct (meetings section1) as [ms1 |]; [| reflexivity].
  destruct (meetings section2) as [ms2 |]; [| reflexivity].
  destruct (existsb _ ms1) eqn:E; [| reflexivity].
  apply existsb_exists in E. destruct E as (m1 & H1 & E).
  apply existsb_exists in E. destruct E as (m2 & H2 & E).
  unfold meetings_conflict in E.
  rewrite (H ms1 ms2 m1 m2 eq_refl eq_refl H1 H2) in E. discriminate.
Qed.

Example disjoint_days_sample :
  _detect_time_conflicts [cs101_01; phys150_01] = [].
Proof. reflexivity. Qed.

(** touching timeslots do not overlap *)
Example touching_timeslots_do_not_overlap :
  _timeslots_overlap (slot 10 0 10 50) (slot 10 50 11 40) = false.
Proof. reflexivity. Qed.

(** weights that sum to 0.8 give the neutral preference score *)
Example invalid_weights_neutral_score :
  validate_weights light_preferences = false
  /\ _calculate_preference_score [cs101_01; math120_02] light_preferences
     = Return 50.
Proof. split; reflexivity. Qed.

(** five [error] conflicts bring the base score to -25; the score returned
    is 0 *)
Example penalties_clamped_at_zero :
  _calculate_quality_score sqrt_thousandths []
    [error_conflict; error_conflict; error_conflict; error_conflict;
     error_conflict] None
  = Return 0.
Proof. reflexivity. Qed.

(** without conflicts the bonuses bring the sum above 100; the score
    returned is 100 *)
Example bonuses_clamped_at_hundred :
  _calculate_quality_score sqrt_thousandths [cs101_01; math120_02] [] None
  = Return 100.
Proof. reflexivity. Qed.

(** the full enumeration keeps the order of the sections of each course *)
Example enumeration_order :
  map (map section_id) (product (dict_values two_course_sections))
  = [ ["CS101-01"; "MATH120-01"]; ["CS101-01"; "MATH120-02"];
      ["CS101-02"; "MATH120-01"]; ["CS101-02"; "MATH120-02"] ]%string.
Proof. reflexivity. Qed.

(** the ranking of the four combinations above when full sections are
    included: the first combination has a time conflict and scores 77, the
    other three score 100 and keep their generation order; the first three
    are returned *)
Example ranking_sample :
  match generate_schedules sqrt_thousandths clock_a ranking_request
          two_course_sections with
  | Return g =>
      map (fun o => (map section_id (sections o), quality_score o))
          (options g)
      = [ (["CS101-01"; "MATH120-02"]%string, 100);
          (["CS101-02"; "MATH120-01"]%string, 100);
          (["CS101-02"; "MATH120-02"]%string, 100) ]
      /\ total_options_generated g = 4%nat
  | Raise _ => False
  end.
Proof. vm_compute. split; reflexivity. Qed.

(** * Further properties of the generator *)

(** ** The enumeration and the sampling fallback *)

Lemma count_from {A : Type} (ls : list (list A)) : forall a,
  fold_left (fun acc l => (acc * List.length l)%nat) ls a
  = (a * combination_count ls)%nat.
Proof.
  unfold combination_count.
  induction ls as [| l ls IH]; intros a; cbn [fold_left]; [lia |].
  rewrite IH, (IH (1 * List.length l)%nat). ring.
Qed.

Lemma combination_count_cons {A : Type} (l : list A) ls :
  combination_count (l :: ls) = (List.length l * combination_count ls)%nat.
Proof.
  unfold combination_count at 1. cbn [fold_left]. rewrite count_from. ring.
Qed.

Lemma product_length {A : Type} (ls : list (list A)) :
  List.length (product ls) = combination_count ls.
Proof.
  induction ls as [| l ls IH]; [reflexivity |].
  rewrite combination_count_cons. simpl.
  induction l as [| x l IHl]; [reflexivity |].
  simpl. rewrite length_app, length_map, IHl, IH. reflexivity.
Qed.

Lemma product_in {A : Type} (ls : list (list A)) : forall c,
  In c (product ls) <-> one_per_course c ls.
Proof.
  unfold one_per_course.
  induction ls as [| l ls IH]; intros c; simpl.
  - split.
    + intros [<- | []]. constructor.
    + intros H. inversion H. now left.
  - rewrite in_flat_map. split.
    + intros (x & Hx & Hc). apply in_map_iff in Hc.
      destruct Hc as (c' & <- & Hc'). constructor; [assumption |].
      now apply IH.
    + intros H. inversion H as [| x l' c' ls' Hx Hc']; subst.
      exists x. split; [assumption |]. apply in_map. now apply IH.
Qed.

Lemma combination_count_positive {A : Type} (ls : list (list A)) :
  (0 < combination_count ls)%nat -> Forall (fun l => l <> []) ls.
Proof.
  induction ls as [| l ls IH]; intros H; [constructor |].
  rewrite combination_count_cons in H. constructor.
  - intros ->. simpl in H. lia.
  - apply IH. nia.
Qed.

Lemma random_choice_returns {A : Type} env n (l : list A) :
  l <> [] -> exists x, random_choice env n l = Return x /\ In x l.
Proof.
  intros Hl. unfold random_choice.
  destruct (nth_error l (random_draw env n mod List.length l)) as [x |] eqn:E.
  - exists x. split; [reflexivity |]. eapply nth_error_In; eassumption.
  - apply nth_error_None in E.
    assert (List.length l <> 0)%nat as Hn by (destruct l; simpl; congruence).
    pose proof (Nat.mod_upper_bound (random_draw env n) _ Hn). lia.
Qed.

Lemma map_result_returns {A B : Type} (f : A -> result B) (P : B -> Prop)
  (l : list A) :
  (forall x, In x l -> exists y, f x = Return y /\ P y) ->
  exists ys, map_result f l = Return ys
             /\ List.length ys = List.length l /\ Forall P ys.
Proof.
  induction l as [| x l IH]; intros H; simpl.
  - exists []. repeat split. constructor.
  - destruct (H x) as (y & -> & Hy); [now left |].
    destruct IH as (ys & -> & Hlen & Hall); [intros; apply H; now right |].
    exists (y :: ys). simpl. repeat split; [congruence | now constructor].
Qed.

Lemma one_sample_returns env (f : nat -> nat) (ls : list (list CourseSection)) :
  Forall (fun l => l <> []) ls ->
  forall s, exists c,
    map_result (fun '(j, secs) => random_choice env (f j) secs)
      (combine (seq s (List.length ls)) ls) = Return c
    /\ one_per_course c ls.
Proof.
  unfold one_per_course.
  induction 1 as [| l ls Hl _ IH]; intros s; simpl.
  - exists []. split; [reflexivity | constructor].
  - destruct (random_choice_returns env (f s) l Hl) as (x & -> & Hx).
    destruct (IH (S s)) as (c & -> & Hc).
    exists (x :: c). split; [reflexivity | now constructor].
Qed.

Lemma sample_combinations_returns env (ls : list (list CourseSection)) cap :
  exists combos,
    _sample_combinations env ls cap = Return combos
    /\ Forall (fun c => one_per_course c ls) combos
    /\ (List.length combos <= cap)%nat
    /\ (List.length combos <= combination_count ls)%nat
    /\ ((combination_count ls <= cap)%nat -> combos = product ls)
    /\ ((cap < combination_count ls)%nat ->
        List.length combos = Nat.min cap (combination_count ls / 10)).
Proof.
  unfold _sample_combinations. fold (combination_count ls).
  destruct (combination_count ls <=? cap)%nat eqn:E.
  - apply Nat.leb_le in E. exists (product ls).
    split; [reflexivity |]. split.
    { apply Forall_forall. intros c. apply product_in. }
    rewrite product_length. repeat split; try lia.
  - apply Nat.leb_gt in E.
    assert (Forall (fun l => l <> []) ls) as Hne
        by (apply combination_count_positive; lia).
    destruct (map_result_returns
                (fun i =>
                   map_result
                     (fun '(j, secs) =>
                        random_choice env (i * List.length ls + j) secs)
                     (combine (seq 0 (List.length ls)) ls))
                (fun c => one_per_course c ls)
                (seq 0 (Nat.min cap (combination_count ls / 10))))
      as (combos & Hc & Hlen & Hall).
    { intros i _.
      apply (one_sample_returns env (fun j => (i * List.length ls + j)%nat)
               ls Hne 0%nat). }
    exists combos. rewrite length_seq in Hlen.
    split; [exact Hc |]. split; [exact Hall |].
    pose proof (Nat.Div0.div_le_upper_bound (combination_count ls) 10
                  (combination_count ls)).
    assert (combination_count ls / 10 <= combination_count ls)%nat
      by (apply Nat.Div0.div_le_upper_bound; lia).
    repeat split; try lia.
Qed.

(** X1. Without memory exhaustion the generator returns the cartesian
    product of the filtered section lists: as many combinations as the
    product of the list sizes, and exactly the lists that take one section
    from each filtered course, in course order.  On an empty mapping it
    returns no combination at all. *)
Theorem exact_enumeration_one_section_per_course :
  forall env filtered,
    memory_exhausted env = false ->
    exists combos,
      _generate_section_combinations env filtered = Return combos
      /\ (filtered = [] -> combos = [])
      /\ (filtered <> [] ->
          List.length combos = combination_count (dict_values filtered)
          /\ forall c, In c combos
                       <-> one_per_course c (dict_values filtered)).
Proof.
  intros env filtered H. unfold _generate_section_combinations. rewrite H.
  destruct filtered as [| [k l] r]; simpl dict_values.
  - exists []. split; [reflexivity |]. split; [reflexivity |].
    intros Hf. congruence.
  - exists (product (l :: dict_values r)).
    split; [reflexivity |]. split; [discriminate |].
    intros _. split; [apply product_length | apply product_in].
Qed.

Lemma combinations_returned_spec :
  forall env filtered,
    exists combos,
      _generate_section_combinations env filtered = Return combos
      /\ Forall (fun c => one_per_course c (dict_values filtered)) combos
      /\ (List.length combos <= combination_count (dict_values filtered))%nat
      /\ (memory_exhausted env = true ->
          (List.length combos <= 1000)%nat
          /\ ((1000 < combination_count (dict_values filtered))%nat ->
              List.length combos
              = Nat.min 1000 (combination_count (dict_values filtered) / 10))
          /\ ((combination_count (dict_values filtered) <= 1000)%nat ->
              filtered <> [] -> combos = product (dict_values filtered))).
Proof.
  intros env filtered. unfold _generate_section_combinations.
  destruct (dict_values filtered) as [| l ls] eqn:E.
  - exists []. split; [reflexivity |]. split; [constructor |].
    split; [simpl; lia |]. intros _. split; [simpl; lia |].
    split; [unfold combination_count; simpl; lia |].
    intros _ Hf. destruct filtered; [congruence | discriminate].
  - destruct (memory_exhausted env).
    + destruct (sample_combinations_returns env (l :: ls) 1000)
        as (combos & Hc & Hall & Hcap & Hcount & Hsmall & Hbig).
      exists combos. split; [exact Hc |]. split; [exact Hall |].
      split; [exact Hcount |]. intros _. auto.
    + exists (product (l :: ls)). split; [reflexivity |]. split.
      * apply Forall_forall. intros c. apply product_in.
      * rewrite product_length. split; [lia | discriminate].
Qed.

(** X2. The generator always returns combinations, whether or not memory
    is exhausted: every combination takes one section from each filtered
    course, there are never more of them than the cartesian product has,
    and on the sampling fallback there are at most 1000, namely
    min(1000, total / 10) when the product has more than 1000 elements and
    the whole product otherwise.  [random.choice] is never called on an
    empty list. *)
Theorem combinations_always_returned :
  forall env filtered,
    exists combos,
      _generate_section_combinations env filtered = Return combos
      /\ Forall (fun c => one_per_course c (dict_values filtered)) combos
      /\ (List.length combos <= combination_count (dict_values filtered))%nat
      /\ (memory_exhausted env = true ->
          (List.length combos <= 1000)%nat
          /\ ((1000 < combination_count (dict_values filtered))%nat ->
              List.length combos
              = Nat.min 1000 (combination_count (dict_values filtered) / 10))
          /\ ((combination_count (dict_values filtered) <= 1000)%nat ->
              filtered <> [] -> combos = product (dict_values filtered))).
Proof. exact combinations_returned_spec. Qed.

(** ** The filter as a whole *)

Lemma dict_set_absent (d : list (string * list CourseSection)) k v :
  dict_get String.eqb d k = None -> dict_set String.eqb d k v = d ++ [(k, v)].
Proof.
  induction d as [| [k' v'] r IH]; simpl; [reflexivity |].
  destruct (String.eqb k' k); [discriminate |].
  intros H. now rewrite IH.
Qed.

Lemma dict_get_snoc_none (d : list (string * list CourseSection)) k v k' :
  dict_get String.eqb d k' = None -> k <> k' ->
  dict_get String.eqb (d ++ [(k, v)]) k' = None.
Proof.
  intros Hd Hk. induction d as [| [k0 v0] r IH]; simpl in *.
  - destruct (String.eqb_spec k k'); [contradiction | reflexivity].
  - destruct (String.eqb k0 k'); [discriminate | now apply IH].
Qed.

Lemma filter_loop_spec cs include_full rest : forall acc,
  NoDup (dict_keys rest) ->
  (forall k, In k (dict_keys rest) -> dict_get String.eqb acc k = None) ->
  fold_left
    (fun filtered '(cid, secs) =>
       match filter (section_survives cs include_full) secs with
       | [] => filtered
       | fs => dict_set String.eqb filtered cid fs
       end)
    rest acc
  = acc ++ flat_map (surviving cs include_full) rest.
Proof.
  induction rest as [| [k secs] r IH]; intros acc Hnd Habs.
  - simpl. now rewrite app_nil_r.
  - cbn [fold_left flat_map]. unfold dict_keys in Hnd. simpl in Hnd.
    inversion Hnd as [| ? ? Hk Hr]; subst.
    unfold surviving at 1. cbn [fst snd].
    destruct (filter (section_survives cs include_full) secs) as [| s fs] eqn:E.
    + apply IH; [exact Hr |]. intros k' Hk'. apply Habs. now right.
    + rewrite dict_set_absent by (apply Habs; now left).
      rewrite IH; [now rewrite <- app_assoc | exact Hr |].
      intros k' Hk'. apply dict_get_snoc_none.
      * apply Habs. now right.
      * intros ->. contradiction.
Qed.

(** X3. On a mapping with distinct course ids the filter keeps the courses
    in their order, each with its surviving sections in their order, and
    leaves out the courses with no surviving section; so no list of the
    filtered mapping is empty and every section in it passes the filter
    test. *)
Theorem filter_sections_keeps_order_drops_empty :
  forall available cs include_full,
    NoDup (dict_keys available) ->
    _filter_sections available cs include_full
    = flat_map (surviving cs include_full) available
    /\ (forall cid secs,
           In (cid, secs) (_filter_sections available cs include_full) ->
           secs <> []
           /\ exists all_secs,
               In (cid, all_secs) available
               /\ secs = filter (section_survives cs include_full) all_secs).
Proof.
  intros available cs include_full Hnd.
  assert (_filter_sections available cs include_full
          = flat_map (surviving cs include_full) available) as Heq.
  { unfold _filter_sections. rewrite filter_loop_spec; auto. }
  split; [exact Heq |].
  intros cid secs Hin. rewrite Heq in Hin. apply in_flat_map in Hin.
  destruct Hin as ([k all_secs] & Hk & Hs). unfold surviving in Hs.
  cbn [fst snd] in Hs.
  destruct (filter (section_survives cs include_full) all_secs)
    as [| s fs] eqn:E; [contradiction |].
  destruct Hs as [[= <- <-] | []].
  split; [discriminate |]. exists all_secs. now rewrite E.
Qed.

(** ** Conflict detection *)

Lemma existsb_swap {A B : Type} (f : A -> B -> bool) (l1 : list A) (l2 : list B) :
  existsb (fun a => existsb (f a) l2) l1
  = existsb (fun b => existsb (fun a => f a b) l1) l2.
Proof.
  apply eq_true_iff_eq. rewrite !existsb_exists. split.
  - intros (a & Ha & H). apply existsb_exists in H. destruct H as (b & Hb & H).
    exists b. split; [assumption |]. apply existsb_exists. eauto.
  - intros (b & Hb & H). apply existsb_exists in H. destruct H as (a & Ha & H).
    exists a. split; [assumption |]. apply existsb_exists. eauto.
Qed.

Lemma existsb_pointwise {A : Type} (f g : A -> bool) (l : list A) :
  (forall x, f x = g x) -> existsb f l = existsb g l.
Proof.
  intros H. induction l as [| x l IH]; simpl; [reflexivity |].
  now rewrite H, IH.
Qed.

Lemma common_days_comm d1 d2 : common_days d1 d2 = common_days d2 d1.
Proof.
  unfold common_days, char_in. rewrite existsb_swap.
  apply existsb_pointwise. intros c. apply existsb_pointwise. intros c'.
  apply Ascii.eqb_sym.
Qed.

Lemma meetings_conflict_comm m1 m2 :
  meetings_conflict m1 m2 = meetings_conflict m2 m1.
Proof.
  unfold meetings_conflict. rewrite common_days_comm. f_equal.
  rewrite existsb_swap. apply existsb_pointwise. intros t2.
  apply existsb_pointwise. intros t1. unfold _timeslots_overlap. apply andb_comm.
Qed.

(** X4. The time-conflict test between two sections is symmetric. *)
Theorem time_conflict_test_symmetric :
  forall section1 section2,
    _sections_have_time_conflict section1 section2
    = _sections_have_time_conflict section2 section1.
Proof.
  intros s1 s2. unfold _sections_have_time_conflict.
  destruct (meetings s1) as [ms1 |], (meetings s2) as [ms2 |];
    try reflexivity.
  rewrite existsb_swap. apply existsb_pointwise. intros m2.
  apply existsb_pointwise. intros m1. apply meetings_conflict_comm.
Qed.

Section DictKeys.
Context {K A : Type} (eqb : K -> K -> bool).
Hypothesis eqb_eq : forall a b, eqb a b = true <-> a = b.

Lemma dict_append_keys (d : list (K * list A)) k x :
  dict_keys (dict_append eqb d k x) = dict_keys d
  \/ (~ In k (dict_keys d)
      /\ dict_keys (dict_append eqb d k x) = dict_keys d ++ [k]).
Proof.
  unfold dict_append, dict_keys. induction d as [| [k0 v0] r IH]; simpl.
  - right. split; [tauto | reflexivity].
  - destruct (eqb k0 k) eqn:E; simpl; [now left |].
    destruct IH as [IH | [Hn IH]].
    + left. now rewrite IH.
    + right. split; [| now rewrite IH].
      intros [-> | H]; [| contradiction].
      assert (eqb k k = true) as Hr by now apply eqb_eq. congruence.
Qed.

Lemma dict_append_nodup (d : list (K * list A)) k x :
  NoDup (dict_keys d) -> NoDup (dict_keys (dict_append eqb d k x)).
Proof.
  intros H. destruct (dict_append_keys d k x) as [-> | [Hn ->]];
    [assumption |].
  apply NoDup_app; [assumption | repeat constructor; tauto |].
  intros a Ha [<- | []]. contradiction.
Qed.

Lemma dict_in_get (d : list (K * list A)) k v :
  NoDup (dict_keys d) -> In (k, v) d -> dict_get eqb d k = Some v.
Proof.
  unfold dict_keys. induction d as [| [k0 v0] r IH]; simpl; [tauto |].
  intros Hnd [[= -> ->] | Hin].
  - assert (eqb k k = true) as -> by now apply eqb_eq. reflexivity.
  - inversion Hnd as [| ? ? Hk Hr]; subst.
    destruct (eqb k0 k) eqn:E.
    + apply eqb_eq in E. subst k0. exfalso. apply Hk.
      apply in_map_iff. exists (k, v). auto.
    + now apply IH.
Qed.

End DictKeys.

Lemma string_eqb_eq (a b : string) : String.eqb a b = true <-> a = b.
Proof. apply String.eqb_eq. Qed.

Lemma pairs_short {A : Type} (l : list A) :
  (List.length l <= 1)%nat -> pairs l = [].
Proof. destruct l as [| x [| y r]]; simpl; [reflexivity | reflexivity | lia]. Qed.

Lemma exam_loop_group combination date :
  forall d : list (string * list CourseSection),
  group String.eqb
    (fold_left
       (fun d section =>
          match exam_date_of section with
          | Some date => dict_append String.eqb d date section
          | None => d
          end)
       combination d) date
  = group String.eqb d date ++ examined_on date combination.
Proof.
  unfold examined_on.
  induction combination as [| s l IH]; intros d; simpl.
  - now rewrite app_nil_r.
  - rewrite IH. destruct (exam_date_of s) as [ds |]; simpl.
    + rewrite (group_append _ string_eqb_eq).
      destruct (String.eqb ds date); simpl.
      * now rewrite <- app_assoc.
      * now rewrite app_nil_r.
    + reflexivity.
Qed.

Lemma exam_loop_nodup combination :
  forall d : list (string * list CourseSection),
  NoDup (dict_keys d) ->
  NoDup (dict_keys
    (fold_left
       (fun d section =>
          match exam_date_of section with
          | Some date => dict_append String.eqb d date section
          | None => d
          end)
       combination d)).
Proof.
  induction combination as [| s l IH]; intros d Hd; simpl; [assumption |].
  apply IH. destruct (exam_date_of s); [| assumption].
  now apply (dict_append_nodup _ string_eqb_eq).
Qed.

(** X5. The final-exam conflicts of a combination are exactly the pairs, in
    combination order, of sections filed under the same exam date, one
    record per pair; a section without a usable exam date takes part in
    none. *)
Theorem exam_conflicts_are_pairs_sharing_a_date :
  forall combination cf,
    In cf (_detect_exam_conflicts combination)
    <-> exists date s1 s2,
        In (s1, s2) (pairs (examined_on date combination))
        /\ cf = exam_conflict date s1 s2.
Proof.
  intros combination cf.
  assert (forall date,
             group String.eqb (exam_schedules combination) date
             = examined_on date combination) as Hg.
  { intros date. unfold exam_schedules. now rewrite exam_loop_group. }
  assert (NoDup (dict_keys (exam_schedules combination))) as Hnd.
  { unfold exam_schedules. apply exam_loop_nodup. constructor. }
  unfold _detect_exam_conflicts. rewrite in_flat_map. split.
  - intros ([date grp] & Hin & Hcf).
    destruct (1 <? List.length grp)%nat; [| contradiction].
    apply in_map_iff in Hcf. destruct Hcf as ([s1 s2] & <- & Hp).
    exists date, s1, s2. split; [| reflexivity].
    rewrite <- Hg. unfold group.
    now rewrite (dict_in_get _ string_eqb_eq _ _ _ Hnd Hin).
  - intros (date & s1 & s2 & Hp & ->).
    exists (date, examined_on date combination). split.
    + apply (dict_get_in _ string_eqb_eq). rewrite <- Hg.
      apply group_nonempty_get. rewrite Hg. intros E. rewrite E in Hp.
      contradiction.
    + destruct (1 <? List.length (examined_on date combination))%nat eqn:E.
      * apply in_map_iff. exists (s1, s2). auto.
      * apply Nat.ltb_ge in E. rewrite (pairs_short _ E) in Hp. contradiction.
Qed.

Lemma professors_loop_nodup (section : CourseSection) (ps : list Professor) :
  forall d : list (option Z * list CourseSection),
  NoDup (dict_keys d) ->
  NoDup (dict_keys
    (fold_left
       (fun d' professor =>
          dict_append (opt_eqb Z.eqb) d' (professor_id professor) section)
       ps d)).
Proof.
  induction ps as [| p ps IH]; intros d Hd; simpl; [assumption |].
  apply IH. now apply (dict_append_nodup _ opt_eqb_eq).
Qed.

Lemma professor_sections_nodup combination :
  NoDup (dict_keys (professor_sections combination)).
Proof.
  unfold professor_sections.
  assert (forall d : list (option Z * list CourseSection),
             NoDup (dict_keys d) ->
             NoDup (dict_keys
               (fold_left
                  (fun d section =>
                     match professors section with
                     | Some ps =>
                         fold_left
                           (fun d' professor =>
                              dict_append (opt_eqb Z.eqb) d'
                                (professor_id professor) section)
                           ps d
                     | None => d
                     end)
                  combination d))) as H.
  { induction combination as [| s l IH]; intros d Hd; simpl; [assumption |].
    apply IH. destruct (professors s); [| assumption].
    now apply professors_loop_nodup. }
  apply H. constructor.
Qed.

Lemma shared_id_conflict_emitted combination pid s0 s1 rest :
  filed_under pid combination = s0 :: s1 :: rest ->
  In (professor_conflict pid s0 s1) (_detect_professor_conflicts combination).
Proof.
  intros Hf. unfold _detect_professor_conflicts. apply in_flat_map.
  exists (pid, s0 :: s1 :: rest). split; [| now left].
  apply (dict_get_in _ opt_eqb_eq). rewrite <- Hf.
  rewrite <- professor_sections_group. apply group_nonempty_get.
  rewrite professor_sections_group, Hf. discriminate.
Qed.

(** X6. A [same_professor] warning is emitted exactly for the professor ids
    under which two or more entries are filed, one warning per id, naming
    the first two entries filed under it. *)
Theorem professor_conflicts_one_per_shared_id :
  forall combination cf,
    In cf (_detect_professor_conflicts combination)
    <-> exists pid s0 s1 rest,
        filed_under pid combination = s0 :: s1 :: rest
        /\ cf = professor_conflict pid s0 s1.
Proof.
  intros combination cf. split.
  - unfold _detect_professor_conflicts. rewrite in_flat_map.
    intros ([pid grp] & Hin & Hcf).
    destruct grp as [| s0 [| s1 rest]]; try contradiction.
    destruct Hcf as [<- | []].
    exists pid, s0, s1, rest. split; [| reflexivity].
    rewrite <- professor_sections_group. unfold group.
    now rewrite (dict_in_get _ opt_eqb_eq _ _ _
                   (professor_sections_nodup combination) Hin).
  - intros (pid & s0 & s1 & rest & Hf & ->).
    now apply (shared_id_conflict_emitted combination pid s0 s1 rest).
Qed.

(** X7. A section that lists two or more professors with the same id (two
    professors without id, for instance) is reported in a [same_professor]
    warning against itself whenever no section before it in the
    combination has a professor with that id: so when it is the first
    section, or the only one. *)
Theorem section_conflicts_with_itself :
  forall before section after ps pid,
    professors section = Some ps ->
    (2 <= List.length
            (filter (fun p => opt_eqb Z.eqb (professor_id p) pid) ps))%nat ->
    filed_under pid before = [] ->
    In (professor_conflict pid section section)
       (_detect_professor_conflicts (before ++ section :: after)).
Proof.
  intros before section after ps pid Hps Hlen Hbefore.
  destruct (filter (fun p => opt_eqb Z.eqb (professor_id p) pid) ps)
    as [| p0 [| p1 rest]] eqn:E; simpl in Hlen; try lia.
  apply (shared_id_conflict_emitted (before ++ section :: after) pid
           section section
           (map (fun _ => section) rest ++ filed_under pid after)).
  unfold filed_under in *. rewrite flat_map_app, Hbefore.
  cbn [flat_map app]. rewrite Hps, E. reflexivity.
Qed.

(** ** The conflict penalty *)

Lemma Qnat_succ n : Qnat (S n) == Qnat n + 1.
Proof.
  unfold Qnat. rewrite Nat2Z.inj_succ. unfold Z.succ.
  rewrite inject_Z_plus. reflexivity.
Qed.

Lemma Qnat_add n m : Qnat (n + m) == Qnat n + Qnat m.
Proof. unfold Qnat. rewrite Nat2Z.inj_add, inject_Z_plus. reflexivity. Qed.

Lemma penalty_loop_closed_form cfs : forall acc,
  fold_left
    (fun acc c =>
       if (severity c =? "error")%string then acc + 25
       else if (severity c =? "warning")%string then acc + 10
       else acc)
    cfs acc
  == acc + 25 * Qnat (count_severity "error" cfs)
     + 10 * Qnat (count_severity "warning" cfs).
Proof.
  unfold count_severity.
  induction cfs as [| c l IH]; intros acc.
  - simpl. unfold Qnat. simpl. ring.
  - cbn [fold_left filter].
    destruct (String.eqb_spec (severity c) "error") as [He | He].
    + rewrite IH. rewrite He. cbn [String.eqb Ascii.eqb Bool.eqb andb].
      cbn [List.length]. rewrite Qnat_succ. ring.
    + destruct (String.eqb_spec (severity c) "warning") as [Hw | Hw].
      * rewrite IH. cbn [List.length]. rewrite Qnat_succ. ring.
      * apply IH.
Qed.

Lemma severity_count_map {A : Type} (mk : A -> ScheduleConflict) sev s (l : list A) :
  (forall x, severity (mk x) = s) ->
  count_severity sev (map mk l)
  = if (s =? sev)%string then List.length l else 0%nat.
Proof.
  intros H. unfold count_severity.
  induction l as [| x l IH]; cbn [map filter].
  - now destruct (s =? sev)%string.
  - rewrite H. destruct (s =? sev)%string; cbn [List.length]; now rewrite IH.
Qed.

Lemma count_severity_app sev l1 l2 :
  count_severity sev (l1 ++ l2)
  = (count_severity sev l1 + count_severity sev l2)%nat.
Proof. unfold count_severity. now rewrite filter_app, length_app. Qed.

Lemma exam_conflicts_severity combination sev :
  count_severity sev (_detect_exam_conflicts combination)
  = if ("error" =? sev)%string
    then List.length (_detect_exam_conflicts combination) else 0%nat.
Proof.
  unfold _detect_exam_conflicts.
  induction (exam_schedules combination) as [| [date grp] r IH];
    cbn [flat_map].
  - now destruct ("error" =? sev)%string.
  - rewrite count_severity_app, length_app, IH.
    destruct (1 <? List.length grp)%nat.
    + rewrite (severity_count_map _ sev "error"); [| reflexivity].
      rewrite length_map. now destruct ("error" =? sev)%string.
    + now destruct ("error" =? sev)%string.
Qed.

Lemma professor_conflicts_severity combination sev :
  count_severity sev (_detect_professor_conflicts combination)
  = if ("warning" =? sev)%string
    then List.length (_detect_professor_conflicts combination) else 0%nat.
Proof.
  unfold _detect_professor_conflicts.
  induction (professor_sections combination) as [| [pid grp] r IH];
    cbn [flat_map].
  - now destruct ("warning" =? sev)%string.
  - rewrite count_severity_app, length_app, IH.
    destruct grp as [| s0 [| s1 rest]];
      unfold count_severity; cbn [filter severity professor_conflict];
      destruct ("warning" =? sev)%string; reflexivity.
Qed.

(** X8. The penalty of a conflict list is 25 for each conflict of severity
    [error] plus 10 for each of severity [warning]; conflicts of any other
    severity cost nothing.  On the conflicts detected for a combination this
    is 25 for each time and final-exam conflict plus 10 for each
    same-professor warning. *)
Theorem conflict_penalty_counts :
  forall cfs combination,
    conflict_penalty cfs
    == 25 * Qnat (count_severity "error" cfs)
       + 10 * Qnat (count_severity "warning" cfs)
    /\ conflict_penalty (_detect_conflicts combination)
       == 25 * Qnat (List.length (_detect_time_conflicts combination)
                     + List.length (_detect_exam_conflicts combination))
          + 10 * Qnat (List.length (_detect_professor_conflicts combination)).
Proof.
  intros cfs combination.
  assert (forall l, conflict_penalty l
                    == 25 * Qnat (count_severity "error" l)
                       + 10 * Qnat (count_severity "warning" l)) as H.
  { intros l. unfold conflict_penalty. rewrite penalty_loop_closed_form. ring. }
  split; [apply H |]. rewrite H. unfold _detect_conflicts.
  rewrite !count_severity_app, !exam_conflicts_severity,
    !professor_conflicts_severity.
  unfold _detect_time_conflicts.
  rewrite !(severity_count_map _ _ "error") by reflexivity.
  cbn [String.eqb Ascii.eqb Bool.eqb andb].
  rewrite ?length_map, ?Nat.add_0_r. cbn [Nat.add]. reflexivity.
Qed.

(** ** The preference score *)

Lemma rating_percent_range r :
  0 <= r -> r <= 5 -> 0 <= rating_percent r /\ rating_percent r <= 100.
Proof.
  intros H0 H5. unfold rating_percent, Qdiv.
  change (/ 5) with (1 # 5). split; lra.
Qed.

Lemma Qnat_pos n : (0 < n)%nat -> 0 < Qnat n.
Proof.
  intros H. unfold Qnat. replace 0 with (inject_Z 0) by reflexivity.
  rewrite <- Zlt_Qlt. lia.
Qed.

Lemma average_range total n :
  (0 < n)%nat -> 0 <= total -> total <= 100 * Qnat n ->
  0 <= total / Qnat n /\ total / Qnat n <= 100.
Proof.
  intros Hn H0 H1. pose proof (Qnat_pos n Hn) as Hp. split.
  - apply Qle_shift_div_l; [assumption | lra].
  - apply Qle_shift_div_r; assumption.
Qed.

Lemma professor_loop_range prefs ps : forall score,
  Forall rating_in_range ps ->
  0 <= score -> score <= 100 ->
  0 <= professor_loop prefs ps score /\ professor_loop prefs ps score <= 100.
Proof.
  induction ps as [| p ps IH]; intros score Hr H0 H1; simpl.
  - split; assumption.
  - inversion Hr as [| ? ? Hp Hps]; subst.
    destruct (listed (preferred_professors prefs) (name p)); [split; lra |].
    destruct (listed (avoided_professors prefs) (name p)); [split; lra |].
    unfold rating_in_range in Hp.
    destruct (rating p) as [r |]; simpl.
    + destruct (negb (Qeq_bool r 0)).
      * destruct Hp as [Hp0 Hp5].
        destruct (rating_percent_range r Hp0 Hp5). now apply IH.
      * now apply IH.
    + now apply IH.
Qed.

Lemma all_professors_cons s l :
  all_professors (s :: l)
  = match professors s with Some ps => ps | None => [] end
    ++ all_professors l.
Proof. reflexivity. Qed.

Lemma professor_fold_range prefs combination : forall total n,
  ratings_in_range combination ->
  0 <= total -> total <= 100 * Qnat n ->
  let r :=
    fold_left
      (fun '(total, count) section =>
         match professors section with
         | Some ((_ :: _) as ps) =>
             (total + professor_loop prefs ps 50, S count)
         | _ => (total, count)
         end)
      combination (total, n) in
  0 <= fst r /\ fst r <= 100 * Qnat (snd r).
Proof.
  unfold ratings_in_range.
  induction combination as [| s l IH]; intros total n Hr H0 H1.
  - simpl. split; assumption.
  - rewrite all_professors_cons in Hr. apply Forall_app in Hr.
    destruct Hr as [Hs Hl]. cbn [fold_left].
    destruct (professors s) as [[| p ps] |]; try (now apply IH).
    destruct (professor_loop_range prefs (p :: ps) 50 Hs) as [L0 L1];
      [lra | lra |].
    apply IH; [assumption | lra |]. rewrite Qnat_succ. lra.
Qed.

Lemma professor_score_range prefs combination :
  ratings_in_range combination ->
  0 <= _calculate_professor_preference_score combination prefs
  /\ _calculate_professor_preference_score combination prefs <= 100.
Proof.
  intros Hr. unfold _calculate_professor_preference_score.
  destruct combination as [| s l]; [split; lra |].
  pose proof (professor_fold_range prefs (s :: l) 0 0%nat Hr) as H.
  cbv zeta in H.
  destruct (fold_left _ (s :: l) (0, 0%nat)) as [total count].
  cbn [fst snd] in H.
  destruct H as [H0 H1]; [lra | change (Qnat 0) with 0; lra |].
  destruct (0 <? count)%nat eqn:E; [| split; lra].
  apply Nat.ltb_lt in E. now apply average_range.
Qed.

Lemma rating_fold_range ps : forall total n,
  Forall rating_in_range ps ->
  0 <= total -> total <= 100 * Qnat n ->
  let r :=
    fold_left
      (fun '(total, count) p =>
         if truthy_num (rating p)
         then (total + rating_percent (or_zero (rating p)), S count)
         else (total, count))
      ps (total, n) in
  0 <= fst r /\ fst r <= 100 * Qnat (snd r).
Proof.
  induction ps as [| p ps IH]; intros total n Hr H0 H1.
  - simpl. split; assumption.
  - inversion Hr as [| ? ? Hp Hps]; subst. cbn [fold_left].
    unfold rating_in_range in Hp.
    destruct (rating p) as [r |]; cbn [truthy_num or_zero];
      [| now apply IH].
    destruct (negb (Qeq_bool r 0)); [| now apply IH].
    destruct Hp as [Hp0 Hp5].
    destruct (rating_percent_range r Hp0 Hp5).
    apply IH; [assumption | lra |]. rewrite Qnat_succ. lra.
Qed.

Lemma rating_score_range prefs combination :
  ratings_in_range combination ->
  0 <= _calculate_rating_score combination prefs
  /\ _calculate_rating_score combination prefs <= 100.
Proof.
  intros Hr. unfold _calculate_rating_score.
  pose proof (rating_fold_range (all_professors combination) 0 0%nat Hr)
    as H.
  cbv zeta in H.
  destruct (fold_left _ (all_professors combination) (0, 0%nat))
    as [total count].
  cbn [fst snd] in H.
  destruct H as [H0 H1]; [lra | change (Qnat 0) with 0; lra |].
  destruct (0 <? count)%nat eqn:E; [| split; lra].
  apply Nat.ltb_lt in E. now apply average_range.
Qed.

Lemma time_fold_upper ts : forall score,
  fold_left
    (fun score t =>
       if time_ltb (start_time t) (hm 8 0) then score - 10
       else if time_ltb (hm 21 0) (end_time t) then score - 10
       else score)
    ts score <= score.
Proof.
  induction ts as [| t ts IH]; intros score; simpl; [lra |].
  destruct (time_ltb (start_time t) (hm 8 0)).
  - specialize (IH (score - 10)). lra.
  - destruct (time_ltb (hm 21 0) (end_time t)).
    + specialize (IH (score - 10)). lra.
    + apply IH.
Qed.

Lemma time_score_range prefs combination :
  0 <= _calculate_time_preference_score combination prefs
  /\ _calculate_time_preference_score combination prefs <= 75.
Proof.
  unfold _calculate_time_preference_score.
  destruct combination as [| s l]; [split; lra |].
  split; [apply py_max_lower |].
  apply py_max_upper; [lra | apply time_fold_upper].
Qed.

Lemma workload_score_range prefs combination w :
  _calculate_workload_score combination prefs = Return w ->
  0 <= w /\ w <= 100.
Proof.
  unfold _calculate_workload_score.
  destruct (sum_credits combination) as [e | total]; [discriminate |].
  cbn [bind]. intros [= <-].
  destruct (Qle_bool 12 total && Qle_bool total 18) eqn:E;
    [split; lra |].
  destruct (Qltb total 12) eqn:E2; [split; lra |].
  split; [apply py_max_lower |].
  apply py_max_upper; [lra |].
  apply Qltb_ge in E2. apply andb_false_iff in E.
  destruct E as [E | E].
  - apply Qle_bool_iff in E2. congruence.
  - assert (18 < total) as H.
    { apply Qnot_le_lt. intro H. apply Qle_bool_iff in H. congruence. }
    lra.
Qed.

(** X9. With ratings between 0 and 5 and non-negative weights, the
    professor and rating sub-scores lie between 0 and 100 and the time
    sub-score between 0 and 75.  The workload sub-score reads the credits
    of every section: it lies between 0 and 100 when all of them carry
    [credits] and raises the attribute error otherwise.  With invalid
    weights the preference score is exactly 50, whatever the sections.
    With valid weights it raises the attribute error when a section does
    not carry [credits]; otherwise it lies between 0 and 100 times the sum
    of the weights, and since valid weights may sum to anything below 1.01,
    it is below 101, not necessarily at most 100. *)
Theorem preference_score_range :
  forall combination prefs,
    ratings_in_range combination ->
    weights_in_range prefs ->
    (0 <= _calculate_professor_preference_score combination prefs <= 100)
    /\ (0 <= _calculate_time_preference_score combination prefs <= 75)
    /\ (if forallb carries_credits combination
        then exists w,
            _calculate_workload_score combination prefs = Return w
            /\ 0 <= w <= 100
        else _calculate_workload_score combination prefs
             = Raise no_credits_attribute)
    /\ (0 <= _calculate_rating_score combination prefs <= 100)
    /\ (validate_weights prefs = false ->
        _calculate_preference_score combination prefs = Return 50)
    /\ (validate_weights prefs = true ->
        if forallb carries_credits combination
        then exists p,
            _calculate_preference_score combination prefs = Return p
            /\ 0 <= p
            /\ p <= 100 * weight_total prefs
            /\ p < 101
        else _calculate_preference_score combination prefs
             = Raise no_credits_attribute).
Proof.
  intros combination prefs Hr (Hw & Hrw & Htw & Hpw).
  pose proof (professor_score_range prefs combination Hr) as Hp.
  pose proof (time_score_range prefs combination) as Ht.
  pose proof (workload_score_spec combination prefs) as Hl.
  pose proof (rating_score_range prefs combination Hr) as Hg.
  split; [exact Hp |]. split; [exact Ht |]. split; [| split; [exact Hg |]].
  - destruct (forallb carries_credits combination); [| exact Hl].
    destruct Hl as [w Hl]. exists w. split; [exact Hl |].
    now apply (workload_score_range prefs combination).
  - split.
    + intros Hv. unfold _calculate_preference_score. now rewrite Hv.
    + intros Hv. unfold _calculate_preference_score. rewrite Hv.
      cbn [negb]. cbv zeta.
      destruct (forallb carries_credits combination); [| now rewrite Hl].
      destruct Hl as [w Hl]. rewrite Hl. cbn [bind].
      apply (workload_score_range prefs combination) in Hl.
      eexists. split; [reflexivity |].
      cbn [py_sum fold_left]. unfold weight_total.
      pose proof (Qmult_le_0_compat _ _ (proj1 Hp) Hpw).
      pose proof (Qmult_le_0_compat _ _ (proj1 Ht) Htw).
      pose proof (Qmult_le_0_compat _ _ (proj1 Hl) Hw).
      pose proof (Qmult_le_0_compat _ _ (proj1 Hg) Hrw).
      pose proof (Qmult_le_compat_r _ _ _ (proj2 Hp) Hpw).
      pose proof (Qmult_le_compat_r _ _ _ (proj2 Hl) Hw).
      pose proof (Qmult_le_compat_r _ _ _ (proj2 Hg) Hrw).
      assert (_calculate_time_preference_score combination prefs
              * time_preference_weight prefs
              <= 100 * time_preference_weight prefs).
      { apply Qmult_le_compat_r; [lra | assumption]. }
      unfold validate_weights in Hv. apply Qltb_lt in Hv.
      apply Qabs_Qlt_condition in Hv. destruct Hv as [_ Hv].
      split; [lra |]. split; lra.
Qed.

(** ** Time blocks *)

Lemma time_leb_micros a b :
  in_range a -> in_range b ->
  time_leb a b = (micros a <=? micros b)%N.
Proof.
  unfold in_range, time_leb, time_compare, micros, lex.
  destruct a as [h m s u], b as [h' m' s' u']; simpl.
  intros (Hm & Hs & Hu) (Hm' & Hs' & Hu').
  destruct (N.leb_spec
              (((h * 60 + m) * 60 + s) * 1000000 + u)
              (((h' * 60 + m') * 60 + s') * 1000000 + u'));
    destruct (N.compare_spec h h'); destruct (N.compare_spec m m');
    destruct (N.compare_spec s s'); destruct (N.compare_spec u u');
    subst; try reflexivity; lia.
Qed.

Lemma hm_in_range h m : (m < 60)%N -> in_range (hm h m).
Proof. unfold in_range, hm. simpl. lia. Qed.

Ltac block_tests :=
  repeat match goal with
         | |- context [time_leb (hm ?h ?m) ?t] =>
             rewrite (time_leb_micros (hm h m) t)
               by (assumption || (apply hm_in_range; lia))
         | |- context [time_leb ?t (hm ?h ?m)] =>
             rewrite (time_leb_micros t (hm h m))
               by (assumption || (apply hm_in_range; lia))
         end.

Ltac decide_tests :=
  repeat match goal with
         | |- context [(?a <=? ?b)%N] =>
             destruct (N.leb_spec a b); cbn [andb]
         end.

(** X10. The time blocks cover the whole minutes from 06:00 to 23:59 and
    nothing else: a time before 06:00 is in no block, a whole-minute time
    from 06:00 on is in the block of its hour, and a time strictly inside
    the last minute of a block (08:59:30, say) is in no block. *)
Theorem time_blocks_cover_whole_minutes :
  forall t,
    in_range t ->
    ((hour t < 6)%N -> _get_time_block t = "other")
    /\ (whole_minute t ->
        ((6 <= hour t < 9)%N -> _get_time_block t = "early_morning")
        /\ ((9 <= hour t < 12)%N -> _get_time_block t = "morning")
        /\ ((12 <= hour t < 15)%N -> _get_time_block t = "midday")
        /\ ((15 <= hour t < 18)%N -> _get_time_block t = "afternoon")
        /\ ((18 <= hour t < 22)%N -> _get_time_block t = "evening")
        /\ ((22 <= hour t < 24)%N -> _get_time_block t = "late_night"))
    /\ (minute t = 59%N ->
        (0 < second t \/ 0 < microsecond t)%N ->
        In (hour t) [8; 11; 14; 17; 21; 23]%N ->
        _get_time_block t = "other").
Proof.
  intros t Hr. unfold _get_time_block, time_preferences.
  cbn [find fst snd]. block_tests.
  destruct Hr as (Hm & Hs & Hu). unfold micros, hm, whole_minute.
  cbn [hour minute second microsecond].
  split; [| split].
  - intros Hh. decide_tests; try reflexivity; lia.
  - intros [H0 H1]. rewrite H0, H1.
    repeat split; intros Hh; decide_tests; try reflexivity; lia.
  - intros H59 Hpos Hin. rewrite H59.
    cbn [In] in Hin.
    destruct Hin as [<- | [<- | [<- | [<- | [<- | [<- | []]]]]]];
      decide_tests; try reflexivity; lia.
Qed.

(** ** Constraints *)

Lemma existsb_false_forall {A : Type} (f : A -> bool) (l : list A) :
  (forall x, In x l -> f x = false) -> existsb f l = false.
Proof.
  intros H. induction l as [| x l IH]; simpl; [reflexivity |].
  rewrite H by now left. apply IH. intros y Hy. apply H. now right.
Qed.

(** X11. A section none of whose meetings has a timeslot (or that has no
    meeting at all) violates no constraints, whatever they are; and
    constraints with both time flags off and no preferred days are violated
    by no section. *)
Theorem constraints_need_a_timeslot :
  forall section c,
    (~ has_timeslot section -> _violates_constraints section c = false)
    /\ (no_early_morning c = false -> no_late_evening c = false ->
        truthy_list (preferred_days c) = false ->
        _violates_constraints section c = false).
Proof.
  intros section c. unfold _violates_constraints, has_timeslot. split.
  - intros Hno. destruct (meetings section) as [ms |]; [| reflexivity].
    apply existsb_false_forall. intros m Hm.
    apply existsb_false_forall. intros t Ht.
    exfalso. apply Hno. exists ms, m, t. auto.
  - intros He Hl Hp. destruct (meetings section) as [ms |]; [| reflexivity].
    apply existsb_false_forall. intros m Hm.
    apply existsb_false_forall. intros t Ht.
    unfold timeslot_violates. rewrite He, Hl.
    destruct (preferred_days c) as [[| d ds] |]; try reflexivity.
    discriminate.
Qed.

Lemma str_in_false_length ch (l : list string) :
  Forall (fun d => String.length d <> 1%nat) l ->
  str_in (String ch EmptyString) l = false.
Proof.
  intros H. unfold str_in. apply existsb_false_forall. intros d Hd.
  rewrite Forall_forall in H. specialize (H d Hd).
  destruct (String.eqb_spec (String ch EmptyString) d) as [<- | Hne];
    [| reflexivity].
  simpl in H. congruence.
Qed.

(** X12. Preferred days are compared with the single characters of a
    meeting's day string.  A non-empty preference list none of whose
    entries is a single character (["TH"], ["SAT"; "SUN"]) is therefore
    violated by every section that has a timeslot, whatever its days. *)
Theorem multi_character_day_preferences_reject_all :
  forall section c d ds,
    preferred_days c = Some (d :: ds) ->
    Forall (fun x => String.length x <> 1%nat) (d :: ds) ->
    has_timeslot section ->
    _violates_constraints section c = true.
Proof.
  intros section c d ds Hp Hlen (ms & m & t & Hms & Hm & Ht).
  unfold _violates_constraints. rewrite Hms.
  apply existsb_exists. exists m. split; [assumption |].
  apply existsb_exists. exists t. split; [assumption |].
  unfold timeslot_violates. rewrite Hp.
  rewrite (existsb_false_forall _ (chars (days m))).
  - simpl. now rewrite !orb_true_r.
  - intros ch _. now apply str_in_false_length.
Qed.

(** ** The time-distribution bonus *)

Lemma block_counts_length ts : forall d : list (string * nat),
  (List.length d
   <= List.length
        (fold_left
           (fun d t =>
              dict_update String.eqb 0%nat S d (_get_time_block (start_time t)))
           ts d))%nat
  /\ (ts <> [] ->
      (1 <= List.length
              (fold_left
                 (fun d t =>
                    dict_update String.eqb 0%nat S d
                      (_get_time_block (start_time t)))
                 ts d))%nat).
Proof.
  assert (forall (d : list (string * nat)) k,
             (List.length d
              <= List.length (dict_update String.eqb 0%nat S d k))%nat
             /\ (1 <= List.length (dict_update String.eqb 0%nat S d k))%nat)
    as Hstep.
  { induction d as [| [k0 v0] r IH]; intros k; simpl; [lia |].
    destruct (String.eqb k0 k); simpl; [lia |].
    specialize (IH k). lia. }
  induction ts as [| t ts IH]; intros d.
  - simpl. split; [lia | congruence].
  - cbn [fold_left].
    destruct (Hstep d (_get_time_block (start_time t))) as [H1 H2].
    destruct (IH (dict_update String.eqb 0%nat S d
                    (_get_time_block (start_time t)))) as [H3 _].
    split; [lia |]. intros _. lia.
Qed.

(** X13. The time-distribution bonus lies between 0 and 10; it is 0 on a
    combination without timeslots and at least 2 on a combination with
    one. *)
Theorem time_distribution_bonus_range :
  forall combination,
    0 <= _calculate_time_distribution_score combination
    /\ _calculate_time_distribution_score combination <= 10
    /\ (all_timeslots combination = [] ->
        _calculate_time_distribution_score combination == 0)
    /\ (all_timeslots combination <> [] ->
        2 <= _calculate_time_distribution_score combination).
Proof.
  intros combination. unfold _calculate_time_distribution_score.
  destruct combination as [| s l].
  - repeat split; try lra. intros H. now elim H.
  - set (n := List.length (time_block_counts (s :: l))).
    assert (0 <= Qnat n) as Hn.
    { unfold Qnat. replace 0 with (inject_Z 0) by reflexivity.
      rewrite <- Zle_Qle. lia. }
    fold (Qnat n).
    assert (forall x, 0 <= x -> 0 <= py_min x 10 /\ py_min x 10 <= 10) as Hmin.
    { intros x Hx. unfold py_min. destruct (Qltb 10 x) eqn:E.
      - split; lra.
      - apply Qltb_ge in E. split; lra. }
    destruct (Hmin (Qnat n * 2)) as [H0 H10]; [lra |].
    split; [exact H0 |]. split; [exact H10 |]. split.
    + intros He. unfold n, time_block_counts. rewrite He. reflexivity.
    + intros Hne. unfold py_min. destruct (Qltb 10 (Qnat n * 2)); [lra |].
      assert (1 <= n)%nat as H1.
      { unfold n, time_block_counts.
        now apply (block_counts_length (all_timeslots (s :: l)) []). }
      assert (1 <= Qnat n).
      { unfold Qnat. replace 1 with (inject_Z 1) by reflexivity.
        rewrite <- Zle_Qle. lia. }
      lra.
Qed.

(** ** What a successful generation returns *)

Lemma generation_record pow_half env request available g :
  generate_schedules pow_half env request available = Return g ->
  exists all_combinations scored,
    _validate_request request available = Return tt
    /\ _generate_section_combinations env
         (_filter_sections available (constraints request)
            (include_full_sections request)) = Return all_combinations
    /\ map_result (score_schedule pow_half env request)
         (combine
            (seq 1 (List.length (valid_schedules request all_combinations)))
            (valid_schedules request all_combinations)) = Return scored
    /\ options g
       = filter (meets_threshold request)
           (firstn (max_options request) (sort_desc quality_score scored))
    /\ total_options_generated g = List.length all_combinations
    /\ valid_schedules_found (gs_metadata g)
       = List.length (valid_schedules request all_combinations)
    /\ schedules_with_conflicts (gs_metadata g)
       = List.length
           (filter (fun s => (0 <? List.length (conflicts s))%nat) (options g))
    /\ average_quality (gs_metadata g)
       = match options g with
         | [] => 0
         | _ => py_sum (map quality_score (options g))
                / inject_Z (Z.of_nat (List.length (options g)))
         end
    /\ constraints_applied (gs_metadata g) = is_some (constraints request)
    /\ preferences_applied (gs_metadata g) = is_some (preferences request)
    /\ courses_requested (gs_metadata g) = course_ids request
    /\ gs_season_code g = season_code request.
Proof.
  unfold generate_schedules.
  destruct (generation pow_half env request available) as [e | g'] eqn:G;
    [discriminate |].
  intros [= ->]. unfold generation in G. cbv zeta in G.
  destruct (_validate_request request available) as [e | []] eqn:Hv;
    [discriminate |].
  cbn [bind] in G.
  destruct (_generate_section_combinations env _) as [e | combos] eqn:Hc;
    [discriminate |].
  cbn [bind] in G.
  destruct (map_result _ _) as [e | scored] eqn:Hs; [discriminate |].
  cbn [bind] in G.
  destruct (apply_min_quality request _) as [e | selected] eqn:Ha;
    [discriminate |].
  cbn [bind] in G. injection G as <-.
  apply apply_min_quality_returns in Ha.
  exists combos, scored. repeat split; assumption.
Qed.

Lemma map_result_Forall2 {A B : Type} (f : A -> result B) (l : list A) :
  forall ys, map_result f l = Return ys ->
             Forall2 (fun x y => f x = Return y) l ys.
Proof.
  induction l as [| x l IH]; intros ys H; simpl in H.
  - injection H as <-. constructor.
  - destruct (f x) as [e | y] eqn:Ex; [discriminate |]. cbn [bind] in H.
    destruct (map_result f l) as [e | ys'] eqn:El; [discriminate |].
    cbn [bind] in H. injection H as <-. constructor; [assumption |].
    now apply IH.
Qed.

Lemma Forall2_in_right {A B : Type} (R : A -> B -> Prop) l1 l2 y :
  Forall2 R l1 l2 -> In y l2 -> exists x, In x l1 /\ R x y.
Proof.
  induction 1 as [| a b l1 l2 Hab _ IH]; intros Hin; [contradiction |].
  destruct Hin as [<- | Hin].
  - exists a. split; [now left | assumption].
  - destruct (IH Hin) as (x & Hx & Hr). exists x. split; [now right | assumption].
Qed.

Lemma selected_in_scored request (scored : list ScheduleOption) o :
  In o (filter (meets_threshold request)
          (firstn (max_options request) (sort_desc quality_score scored))) ->
  In o scored.
Proof.
  intros H. apply filter_In in H. destruct H as [H _].
  apply (Permutation_in o (sort_desc_perm quality_score scored)).
  rewrite <- (firstn_skipn (max_options request)). apply in_or_app. now left.
Qed.

Lemma valid_entry request combos combination cfs :
  In (combination, cfs) (valid_schedules request combos) ->
  In combination combos /\ cfs = _detect_conflicts combination
  /\ keeps request cfs = true.
Proof.
  unfold valid_schedules. rewrite in_flat_map.
  intros (c & Hin & H).
  destruct (keeps request (_detect_conflicts c)) eqn:K; [| contradiction].
  simpl in H. destruct H as [H | []]. injection H as <- <-. auto.
Qed.

Lemma scored_option_origin pow_half env request combos scored o :
  map_result (score_schedule pow_half env request)
    (combine (seq 1 (List.length (valid_schedules request combos)))
       (valid_schedules request combos)) = Return scored ->
  In o scored ->
  exists k,
    In (sections o) combos
    /\ keeps request (_detect_conflicts (sections o)) = true
    /\ score_schedule pow_half env request
         (k, (sections o, _detect_conflicts (sections o))) = Return o.
Proof.
  intros Hs Hin. apply map_result_Forall2 in Hs.
  destruct (Forall2_in_right _ _ _ _ Hs Hin) as ([k [c cfs]] & Hk & Hsc).
  apply in_combine_r in Hk. apply valid_entry in Hk.
  destruct Hk as (Hc & -> & Hkeep).
  assert (sections o = c) as Heq.
  { unfold score_schedule in Hsc.
    destruct (_calculate_quality_score pow_half c (_detect_conflicts c)
                (preferences request)); [discriminate |].
    cbn [bind] in Hsc.
    destruct (sum_credits c); [discriminate |].
    cbn [bind] in Hsc. injection Hsc as <-. reflexivity. }
  exists k. rewrite Heq. auto.
Qed.

Lemma score_schedule_fields pow_half env request k combination cfs o :
  score_schedule pow_half env request (k, (combination, cfs)) = Return o ->
  sections o = combination
  /\ sum_credits combination = Return (total_credits o)
  /\ conflicts o = map details cfs
  /\ _calculate_quality_score pow_half combination cfs (preferences request)
     = Return (quality_score o)
  /\ 0 <= quality_score o /\ quality_score o <= 100
  /\ generation_time (metadata o) = now env k
  /\ course_count (metadata o) = List.length combination
  /\ has_conflicts (metadata o) = (0 <? List.length cfs)%nat.
Proof.
  unfold score_schedule. intros H.
  destruct (_calculate_quality_score pow_half combination cfs
              (preferences request)) as [e | q] eqn:Hq; [discriminate |].
  cbn [bind] in H.
  destruct (sum_credits combination) as [e | total]; [discriminate |].
  cbn [bind] in H. injection H as <-.
  cbn [sections total_credits conflicts quality_score metadata
       generation_time course_count has_conflicts].
  destruct (quality_score_range pow_half combination cfs
              (preferences request) q Hq) as [H0 H1].
  repeat split; assumption.
Qed.

Lemma generated_combinations_one_per_course env filtered combos :
  _generate_section_combinations env filtered = Return combos ->
  Forall (fun c => one_per_course c (dict_values filtered)) combos.
Proof.
  unfold _generate_section_combinations.
  destruct (dict_values filtered) as [| l ls] eqn:E.
  - intros [= <-]. constructor.
  - destruct (memory_exhausted env).
    + destruct (sample_combinations_returns env (l :: ls) 1000)
        as (combos' & Hc & Hall & _).
      rewrite Hc. now intros [= <-].
    + intros [= <-]. apply Forall_forall. intros c Hc.
      now apply product_in.
Qed.

(** X14. Every option of a successful generation is one scored
    combination: its sections take one section from each course of the
    filtered mapping, its conflicts are the details of the conflicts
    detected for those sections, its credits are their sum, its score is the
    scorer's value for them and lies between 0 and 100, and its metadata
    count the sections and flag the conflicts.  This holds on the sampling
    fallback as well.  Every section of an option carries [credits], the
    sum having been computed. *)
Theorem option_is_a_scored_combination :
  forall pow_half env request available g o,
    generate_schedules pow_half env request available = Return g ->
    In o (options g) ->
    one_per_course (sections o)
      (dict_values
         (_filter_sections available (constraints request)
            (include_full_sections request)))
    /\ conflicts o = map details (_detect_conflicts (sections o))
    /\ sum_credits (sections o) = Return (total_credits o)
    /\ _calculate_quality_score pow_half (sections o)
         (_detect_conflicts (sections o)) (preferences request)
       = Return (quality_score o)
    /\ 0 <= quality_score o /\ quality_score o <= 100
    /\ course_count (metadata o) = List.length (sections o)
    /\ has_conflicts (metadata o)
       = (0 <? List.length (conflicts o))%nat
    /\ forallb carries_credits (sections o) = true.
Proof.
  intros pow_half env request available g o Hg Hin.
  destruct (generation_record _ _ _ _ _ Hg)
    as (combos & scored & _ & Hc & Hs & Ho & _).
  rewrite Ho in Hin. apply selected_in_scored in Hin.
  destruct (scored_option_origin _ _ _ _ _ _ Hs Hin) as (k & Hcomb & _ & Hsc).
  destruct (score_schedule_fields _ _ _ _ _ _ _ Hsc)
    as (_ & Ht & Hcf & Hq & H0 & H1 & _ & Hn & Hh).
  pose proof (generated_combinations_one_per_course _ _ _ Hc) as Hall.
  rewrite Forall_forall in Hall.
  split; [now apply Hall |]. split; [exact Hcf |]. split; [exact Ht |].
  split; [exact Hq |]. split; [exact H0 |]. split; [exact H1 |].
  split; [exact Hn |]. split; [rewrite Hh, Hcf; now rewrite length_map |].
  now apply (sum_credits_returns (sections o) (total_credits o)).
Qed.

Lemma keeps_constrained request cfs c :
  constraints request = Some c -> keeps request cfs = true -> cfs = [].
Proof.
  unfold keeps. intros ->. destruct cfs; [reflexivity | discriminate].
Qed.

Lemma filter_none {A : Type} (f : A -> bool) (l : list A) :
  (forall x, In x l -> f x = false) -> filter f l = [].
Proof.
  intros H. induction l as [| x l IH]; simpl; [reflexivity |].
  rewrite H by now left. apply IH. intros y Hy. apply H. now right.
Qed.

(** X15. When a constraints object is supplied, every option of a
    successful generation is free of conflicts of any kind, warnings
    included: its conflict list is empty, no conflict is detected among its
    sections, the count of options with conflicts is 0 and
    [has_conflicts] is false. *)
Theorem constrained_generation_is_conflict_free :
  forall pow_half env request available g c,
    generate_schedules pow_half env request available = Return g ->
    constraints request = Some c ->
    Forall (fun o => conflicts o = []
                     /\ _detect_conflicts (sections o) = []
                     /\ has_conflicts (metadata o) = false) (options g)
    /\ schedules_with_conflicts (gs_metadata g) = 0%nat
    /\ gs_has_conflicts g = false.
Proof.
  intros pow_half env request available g c Hg Hc.
  destruct (generation_record _ _ _ _ _ Hg)
    as (combos & scored & _ & _ & Hs & Ho & _ & _ & Hw & _).
  assert (forall o, In o (options g) ->
                    conflicts o = []
                    /\ _detect_conflicts (sections o) = []
                    /\ has_conflicts (metadata o) = false) as Hall.
  { intros o Hin. rewrite Ho in Hin. apply selected_in_scored in Hin.
    destruct (scored_option_origin _ _ _ _ _ _ Hs Hin)
      as (k & _ & Hkeep & Hsc).
    pose proof (keeps_constrained _ _ _ Hc Hkeep) as Hnil.
    destruct (score_schedule_fields _ _ _ _ _ _ _ Hsc)
      as (_ & _ & Hcf & _ & _ & _ & _ & _ & Hh).
    rewrite Hnil in Hcf, Hh. auto. }
  split; [now apply Forall_forall |].
  assert (forall o, In o (options g) ->
                    (0 <? List.length (conflicts o))%nat = false) as Hz.
  { intros o Hin. destruct (Hall o Hin) as (-> & _). reflexivity. }
  split.
  - rewrite Hw, filter_none; [reflexivity | exact Hz].
  - unfold gs_has_conflicts. now apply existsb_false_forall.
Qed.

Lemma py_sum_range (l : list Q) : forall acc,
  Forall (fun x => 0 <= x /\ x <= 100) l ->
  acc <= fold_left Qplus l acc
  /\ fold_left Qplus l acc <= acc + 100 * Qnat (List.length l).
Proof.
  induction l as [| x l IH]; intros acc H.
  - simpl. change (Qnat 0) with 0. split; lra.
  - inversion H as [| ? ? [H0 H1] Hl]; subst. cbn [fold_left List.length].
    destruct (IH (acc + x) Hl) as [L U]. rewrite Qnat_succ. split; lra.
Qed.

Lemma valid_schedules_length request combos :
  (List.length (valid_schedules request combos) <= List.length combos)%nat
  /\ (constraints request = None ->
      List.length (valid_schedules request combos) = List.length combos).
Proof.
  unfold valid_schedules. induction combos as [| c l [IH1 IH2]]; simpl.
  - split; [lia | reflexivity].
  - rewrite length_app. split.
    + destruct (keeps request (_detect_conflicts c)); simpl; lia.
    + intros Hn. rewrite (IH2 Hn). unfold keeps. rewrite Hn.
      now destruct (_detect_conflicts c).
Qed.

Lemma map_result_length {A B : Type} (f : A -> result B) (l : list A) ys :
  map_result f l = Return ys -> List.length ys = List.length l.
Proof.
  intros H. apply map_result_Forall2 in H. symmetry.
  eapply Forall2_length. eassumption.
Qed.

(** X16. The figures reported with a successful generation are consistent:
    the options are no more than the valid schedules found, which are no
    more than the combinations generated and are all of them when no
    constraints object is supplied; the options with conflicts are no more
    than the options; and the average quality lies between 0 and 100, being
    0 when no option is returned. *)
Theorem generation_metadata_consistent :
  forall pow_half env request available g,
    generate_schedules pow_half env request available = Return g ->
    (List.length (options g) <= valid_schedules_found (gs_metadata g))%nat
    /\ (valid_schedules_found (gs_metadata g)
        <= total_options_generated g)%nat
    /\ (constraints request = None ->
        valid_schedules_found (gs_metadata g) = total_options_generated g)
    /\ (schedules_with_conflicts (gs_metadata g)
        <= List.length (options g))%nat
    /\ 0 <= average_quality (gs_metadata g)
    /\ average_quality (gs_metadata g) <= 100
    /\ (options g = [] -> average_quality (gs_metadata g) = 0)
    /\ constraints_applied (gs_metadata g) = is_some (constraints request)
    /\ preferences_applied (gs_metadata g) = is_some (preferences request).
Proof.
  intros pow_half env request available g Hg.
  destruct (generation_record _ _ _ _ _ Hg)
    as (combos & scored & _ & _ & Hs & Ho & Ht & Hv & Hw & Ha & Hca & Hpa & _).
  pose proof (map_result_length _ _ _ Hs) as Hlen.
  rewrite length_combine, length_seq, Nat.min_id in Hlen.
  destruct (valid_schedules_length request combos) as [Hle Heq].
  assert (List.length (options g) <= List.length scored)%nat as Hopt.
  { pose proof (Permutation_length (sort_desc_perm quality_score scored)).
    pose proof (length_firstn (max_options request)
                  (sort_desc quality_score scored)).
    pose proof (filter_length_le (meets_threshold request)
                  (firstn (max_options request)
                     (sort_desc quality_score scored))).
    rewrite Ho. lia. }
  assert (Forall (fun x => 0 <= x /\ x <= 100)
            (map quality_score (options g))) as Hrange.
  { apply Forall_forall. intros q Hq. apply in_map_iff in Hq.
    destruct Hq as (o & <- & Hin). rewrite Ho in Hin.
    apply selected_in_scored in Hin.
    destruct (scored_option_origin _ _ _ _ _ _ Hs Hin) as (k & _ & _ & Hsc).
    destruct (score_schedule_fields _ _ _ _ _ _ _ Hsc)
      as (_ & _ & _ & _ & H0 & H1 & _). auto. }
  split; [lia |]. split; [lia |]. split; [intros Hn; rewrite Hv, Ht; auto |].
  split; [rewrite Hw; apply filter_length_le |].
  assert (0 <= average_quality (gs_metadata g)
          /\ average_quality (gs_metadata g) <= 100) as [A0 A1].
  { rewrite Ha. destruct (options g) as [| o l] eqn:E; [split; lra |].
    rewrite <- E in *. fold (Qnat (List.length (options g))).
    destruct (py_sum_range _ 0 Hrange) as [L U].
    fold (py_sum (map quality_score (options g))) in L, U.
    rewrite length_map in U.
    apply average_range; [rewrite E; simpl; lia | lra | lra]. }
  split; [exact A0 |]. split; [exact A1 |].
  split; [intros E; rewrite Ha, E; reflexivity |].
  split; assumption.
Qed.

(** ** Scores without preferences *)

Lemma time_bonus_nonneg combination :
  0 <= _calculate_time_distribution_score combination.
Proof.
  unfold _calculate_time_distribution_score.
  destruct combination as [| s l]; [lra |].
  unfold py_min. destruct (Qltb 10 _) eqn:E; [lra |].
  fold (Qnat (List.length (time_block_counts (s :: l)))).
  assert (0 <= Qnat (List.length (time_block_counts (s :: l)))).
  { unfold Qnat. replace 0 with (inject_Z 0) by reflexivity.
    rewrite <- Zle_Qle. lia. }
  lra.
Qed.

Lemma conflict_free_unweighted_score pow_half combination q :
  _calculate_quality_score pow_half combination [] None = Return q ->
  q = 100.
Proof.
  unfold _calculate_quality_score. cbn [bind].
  destruct (_calculate_workload_balance pow_half combination)
    as [e | b] eqn:E; [discriminate |].
  cbn [bind]. intros [= <-].
  pose proof (workload_balance_nonneg pow_half combination b E) as Hb.
  pose proof (time_bonus_nonneg combination) as Ht.
  change (conflict_penalty []) with 0.
  unfold py_min.
  destruct (Qltb (100 - 0 + b
                  + _calculate_time_distribution_score combination) 100)
    eqn:E1.
  - apply Qltb_lt in E1. lra.
  - reflexivity.
Qed.

Lemma sort_desc_constant {A : Type} (key : A -> Q) (q : Q) (l : list A) :
  Forall (fun x => key x = q) l -> sort_desc key l = l.
Proof.
  induction 1 as [| x l Hx Hl IH]; [reflexivity |].
  cbn [sort_desc fold_right]. fold (sort_desc key l). rewrite IH.
  destruct l as [| y r]; [reflexivity |].
  cbn [insert_desc]. inversion Hl as [| ? ? Hy _].
  assert (Qltb (key x) (key y) = false) as ->; [| reflexivity].
  apply Qltb_ge. rewrite Hx, Hy. lra.
Qed.

Lemma combine_seq_snd {A : Type} (l : list A) : forall s,
  map snd (combine (seq s (List.length l)) l) = l.
Proof.
  induction l as [| x l IH]; intros s; simpl; [reflexivity |].
  now rewrite IH.
Qed.

Lemma scored_sections pow_half env request entries scored :
  Forall2 (fun x y => score_schedule pow_half env request x = Return y)
    entries scored ->
  map sections scored = map (fun e => fst (snd e)) entries.
Proof.
  induction 1 as [| [k [c cfs]] o l ys Hxy _ IH]; [reflexivity |].
  simpl. rewrite IH. f_equal.
  now destruct (score_schedule_fields _ _ _ _ _ _ _ Hxy) as (-> & _).
Qed.

(** on options that all have the score [q] the threshold keeps all or
    none *)
Lemma threshold_on_constant_score request q (l : list ScheduleOption) :
  Forall (fun o => quality_score o = q) l ->
  filter (meets_threshold request) l
  = match min_quality request with
    | Some t => if Qle_bool t q then l else []
    | None => l
    end.
Proof.
  intros H. unfold meets_threshold.
  destruct (min_quality request) as [t |]; [| now apply filter_all].
  rewrite Forall_forall in H.
  destruct (Qle_bool t q) eqn:E.
  - apply filter_all. intros o Ho. now rewrite (H o Ho).
  - apply filter_none. intros o Ho. now rewrite (H o Ho).
Qed.

(** X17. Without preferences, the score that the scorer returns for a
    combination with an empty conflict list is exactly 100, whatever its
    sections.  So when a constraints object is supplied (only conflict-free
    combinations are kept) and no preferences are, every returned option
    scores 100 and the ranking is the enumeration order: the options are
    the first [max_options] kept combinations, in that order; a threshold
    of at most 100 drops none of them and a threshold above 100 drops them
    all. *)
Theorem unweighted_constrained_ranking_is_enumeration_order :
  forall pow_half env request available g c,
    generate_schedules pow_half env request available = Return g ->
    constraints request = Some c ->
    preferences request = None ->
    (forall combination q,
        _calculate_quality_score pow_half combination [] None = Return q ->
        q = 100)
    /\ Forall (fun o => quality_score o = 100) (options g)
    /\ exists all_combinations,
        _generate_section_combinations env
          (_filter_sections available (constraints request)
             (include_full_sections request)) = Return all_combinations
        /\ map sections (options g)
           = match min_quality request with
             | Some t =>
                 if Qle_bool t 100
                 then firstn (max_options request)
                        (map fst (valid_schedules request all_combinations))
                 else []
             | None =>
                 firstn (max_options request)
                   (map fst (valid_schedules request all_combinations))
             end.
Proof.
  intros pow_half env request available g c Hg Hc Hp.
  split; [apply conflict_free_unweighted_score |].
  destruct (generation_record _ _ _ _ _ Hg)
    as (combos & scored & _ & Hcomb & Hs & Ho & _).
  assert (Forall (fun o => quality_score o = 100) scored) as Hall.
  { apply Forall_forall. intros o Hin.
    destruct (scored_option_origin _ _ _ _ _ _ Hs Hin)
      as (k & _ & Hkeep & Hsc).
    pose proof (keeps_constrained _ _ _ Hc Hkeep) as Hnil.
    destruct (score_schedule_fields _ _ _ _ _ _ _ Hsc)
      as (_ & _ & _ & Hq & _).
    rewrite Hnil, Hp in Hq.
    now apply (conflict_free_unweighted_score pow_half (sections o)). }
  rewrite (sort_desc_constant quality_score 100 scored Hall) in Ho.
  assert (Forall (fun o => quality_score o = 100)
            (firstn (max_options request) scored)) as Hfirst.
  { apply Forall_forall. intros o Hin.
    rewrite Forall_forall in Hall. apply Hall.
    rewrite <- (firstn_skipn (max_options request)). apply in_or_app.
    now left. }
  split.
  - apply Forall_forall. intros o Hin. rewrite Ho in Hin.
    apply filter_In in Hin. destruct Hin as [Hin _].
    rewrite Forall_forall in Hfirst. now apply Hfirst.
  - exists combos. split; [exact Hcomb |].
    assert (map sections (firstn (max_options request) scored)
            = firstn (max_options request)
                (map fst (valid_schedules request combos))) as Hsec.
    { rewrite <- firstn_map. f_equal.
      rewrite (scored_sections _ _ _ _ _ (map_result_Forall2 _ _ _ Hs)).
      rewrite <- (map_map snd fst). now rewrite combine_seq_snd. }
    rewrite Ho, (threshold_on_constant_score request 100 _ Hfirst).
    destruct (min_quality request) as [t |]; [| exact Hsec].
    destruct (Qle_bool t 100); [exact Hsec | reflexivity].
Qed.

(** X18. When validation passes and no section of any course survives the
    filter, generation does not fail: it returns no option, with zero
    combinations generated and an average quality of 0. *)
Theorem nothing_survives_gives_empty_result :
  forall pow_half env request available,
    _validate_request request available = Return tt ->
    _filter_sections available (constraints request)
      (include_full_sections request) = [] ->
    exists g,
      generate_schedules pow_half env request available = Return g
      /\ options g = []
      /\ total_options_generated g = 0%nat
      /\ valid_schedules_found (gs_metadata g) = 0%nat
      /\ average_quality (gs_metadata g) = 0.
Proof.
  intros pow_half env request available Hv Hf.
  unfold generate_schedules, generation. rewrite Hv. cbn [bind]. cbv zeta.
  rewrite Hf. cbn [_generate_section_combinations dict_values map bind
                   valid_schedules flat_map List.length seq combine map_result
                   sort_desc fold_right].
  rewrite firstn_nil.
  assert (apply_min_quality request [] = Return []) as ->.
  { unfold apply_min_quality. destruct (constraints request) as [c |];
      [destruct (min_quality_score c) as [| [t |]] |]; reflexivity. }
  cbn [bind].
  eexists. split; [reflexivity |]. repeat split.
Qed.

(** ** The caller and the availability helper *)

(** X19. The route never answers 404 or 400: a failure of the generator
    always carries the kind [GENERATION_FAILED] and is answered with status
    500 and the detail prefixed twice, and the only other statuses are 502
    for a catalog error and 500. *)
Theorem route_never_answers_client_error :
  forall pow_half env request fetch,
    match generate_schedule pow_half env request fetch with
    | Response g =>
        exists available,
          fetch = Fetched available
          /\ generate_schedules pow_half env request available = Return g
    | HTTPException status detail =>
        (status = 500%nat \/ status = 502%nat)
        /\ forall available e,
            fetch = Fetched available -> course_ids request <> [] ->
            generation pow_half env request available = Raise e ->
            status = 500%nat
            /\ detail
               = ("Schedule generation failed: Schedule generation failed: "
                  ++ exn_str e)%string
    end.
Proof.
  intros pow_half env request fetch. unfold generate_schedule.
  destruct (course_ids request) as [| cid ids] eqn:Ec.
  - split; [now left |]. intros available e _ H. congruence.
  - destruct fetch as [available | m |].
    + unfold generate_schedules.
      destruct (generation pow_half env request available) as [e | g] eqn:G.
      * cbn [opt_eqb String.eqb Ascii.eqb Bool.eqb andb].
        split; [now left |].
        intros available' e' [= <-] _ G'. rewrite G in G'.
        injection G' as <-. split; reflexivity.
      * exists available. split; [reflexivity | now rewrite G].
    + split; [now right |]. intros available e H. discriminate.
    + split; [now left |]. intros available e H. discriminate.
Qed.

Lemma available_not_full section :
  truthy_int (capacity section) && truthy_int (enrolled section)
  && match capacity section, enrolled section with
     | Some c, Some e => (e <? c)%Z
     | _, _ => false
     end = true ->
  is_full section = false.
Proof.
  unfold is_full.
  destruct (capacity section) as [c |], (enrolled section) as [e |];
    try reflexivity.
  rewrite !andb_true_iff. intros [_ Hlt]. apply Z.ltb_lt in Hlt.
  apply andb_false_iff. right. apply Z.leb_gt. exact Hlt.
Qed.

(** X20. Every section returned by [get_available_sections] has both
    fields present and non-zero with [enrolled < capacity], and passes the
    availability rule of the generator's filter, so filtering its result
    without constraints changes nothing.  The converse fails: a section
    whose capacity or enrolment is missing or zero is never returned by
    [get_available_sections], while the filter keeps it. *)
Theorem available_sections_pass_the_filter :
  forall secs include_full,
    (forall s, In s (get_available_sections secs) ->
               In s secs
               /\ (exists c e, capacity s = Some c /\ enrolled s = Some e
                               /\ c <> 0%Z /\ e <> 0%Z /\ (e < c)%Z)
               /\ section_survives None include_full s = true)
    /\ filter (section_survives None include_full)
         (get_available_sections secs) = get_available_sections secs
    /\ (forall s,
           truthy_int (capacity s) = false \/ truthy_int (enrolled s) = false ->
           ~ In s (get_available_sections secs)
           /\ section_survives None include_full s = true).
Proof.
  intros secs include_full.
  assert (forall s, In s (get_available_sections secs) ->
                    section_survives None include_full s = true) as Hsurv.
  { intros s Hin. unfold get_available_sections in Hin.
    apply filter_In in Hin. destruct Hin as [_ Ht].
    unfold section_survives. rewrite (available_not_full s Ht).
    now rewrite andb_false_r. }
  split; [| split].
  - intros s Hin. split; [| split; [| now apply Hsurv]].
    + unfold get_available_sections in Hin. apply filter_In in Hin. tauto.
    + unfold get_available_sections in Hin. apply filter_In in Hin.
      destruct Hin as [_ Ht].
      destruct (capacity s) as [c |], (enrolled s) as [e |];
        simpl in Ht; try (rewrite ?andb_false_r in Ht; discriminate).
      rewrite !andb_true_iff, !negb_true_iff, !Z.eqb_neq, Z.ltb_lt in Ht.
      exists c, e. intuition.
  - apply filter_all. exact Hsurv.
  - intros s Hz. split.
    + unfold get_available_sections. intros Hin. apply filter_In in Hin.
      destruct Hin as [_ Ht]. rewrite !andb_true_iff in Ht.
      destruct Hz as [Hz | Hz]; rewrite Hz in Ht; intuition discriminate.
    + unfold section_survives, is_full.
      destruct (capacity s) as [c |], (enrolled s) as [e |];
        rewrite ?andb_false_r; try reflexivity.
      destruct Hz as [-> | ->]; now rewrite ?andb_false_r, ?andb_false_l.
Qed.

(** ** Validation *)

Lemma inverted_test request c :
  constraints request = Some c ->
  (truthy_num (min_credits c) && truthy_num (max_credits c)
   && Qltb (or_zero (max_credits c)) (or_zero (min_credits c)) = true
   <-> credits_inverted request).
Proof.
  intros Hc. unfold credits_inverted. split.
  - rewrite !andb_true_iff. intros [[Hmn Hmx] Hlt].
    destruct (min_credits c) as [mn |] eqn:Emn; [| discriminate].
    destruct (max_credits c) as [mx |] eqn:Emx; [| discriminate].
    simpl in *. apply negb_true_iff in Hmn, Hmx.
    apply Qeq_bool_neq in Hmn, Hmx. apply Qltb_lt in Hlt.
    exists c, mn, mx. auto 10.
  - intros (c' & mn & mx & Hc' & Hmn & Hmx & Hn0 & Hx0 & Hlt).
    rewrite Hc in Hc'. injection Hc' as <-. rewrite Hmn, Hmx. simpl.
    rewrite !andb_true_iff, !negb_true_iff. repeat split.
    + destruct (Qeq_bool mn 0) eqn:E; [| reflexivity].
      apply Qeq_bool_iff in E. contradiction.
    + destruct (Qeq_bool mx 0) eqn:E; [| reflexivity].
      apply Qeq_bool_iff in E. contradiction.
    + now apply Qltb_lt.
Qed.

(** X21. The validation has three outcomes.  It raises
    [NO_SECTIONS_AVAILABLE], listing the missing ids, as soon as a requested
    course is missing or empty in the mapping, whatever the credit bounds;
    otherwise it raises [INVALID_CREDIT_CONSTRAINTS] exactly when both
    bounds are present and non-zero with the minimum above the maximum;
    otherwise it returns.  A bound equal to 0 therefore switches the credit
    check off. *)
Theorem validation_outcomes :
  forall request available,
    let missing := filter (is_missing available) (course_ids request) in
    match _validate_request request available with
    | Return _ => missing = [] /\ ~ credits_inverted request
    | Raise e =>
        (missing <> []
         /\ e = ScheduleGeneratorError
                  ("No available sections for courses: "
                   ++ repr_list missing)%string
                  (Some "NO_SECTIONS_AVAILABLE"%string))
        \/ (missing = [] /\ credits_inverted request
            /\ e = ScheduleGeneratorError
                     "Minimum credits cannot be greater than maximum credits"
                     (Some "INVALID_CREDIT_CONSTRAINTS"%string))
    end.
Proof.
  intros request available missing. unfold _validate_request. fold missing.
  destruct missing as [| cid l].
  - destruct (constraints request) as [c |] eqn:Hc.
    + pose proof (inverted_test request c Hc) as Hi.
      destruct (truthy_num (min_credits c) && truthy_num (max_credits c)
                && Qltb (or_zero (max_credits c)) (or_zero (min_credits c))).
      * right. split; [reflexivity |]. split; [now apply Hi | reflexivity].
      * split; [reflexivity |]. intros H. apply Hi in H. discriminate.
    + split; [reflexivity |].
      intros (c & mn & mx & H & _). rewrite Hc in H. discriminate.
  - left. split; [discriminate | reflexivity].
Qed.

(** ** The time-conflict test, read as a statement *)

(** X22. Two sections have a time conflict exactly when some meeting of
    the one and some meeting of the other have a character of their day
    strings in common and timeslots that overlap.  Days are compared
    character by character, so "T" and "TH" have a day in common. *)
Theorem time_conflict_iff_shared_character_and_overlap :
  forall section1 section2,
    _sections_have_time_conflict section1 section2 = true
    <-> exists ms1 ms2 m1 m2 ch t1 t2,
        meetings section1 = Some ms1 /\ meetings section2 = Some ms2
        /\ In m1 ms1 /\ In m2 ms2
        /\ In ch (chars (days m1)) /\ In ch (chars (days m2))
        /\ In t1 (timeslots m1) /\ In t2 (timeslots m2)
        /\ time_lt (start_time t1) (end_time t2)
        /\ time_lt (start_time t2) (end_time t1).
Proof.
  intros s1 s2. unfold _sections_have_time_conflict. split.
  - destruct (meetings s1) as [ms1 |]; [| discriminate].
    destruct (meetings s2) as [ms2 |]; [| discriminate].
    intros H. apply existsb_exists in H. destruct H as (m1 & Hm1 & H).
    apply existsb_exists in H. destruct H as (m2 & Hm2 & H).
    unfold meetings_conflict in H. apply andb_true_iff in H.
    destruct H as [Hd Ht]. unfold common_days in Hd.
    apply existsb_exists in Hd. destruct Hd as (ch & Hch1 & Hd).
    unfold char_in in Hd. apply existsb_exists in Hd.
    destruct Hd as (ch' & Hch2 & He). apply Ascii.eqb_eq in He. subst ch'.
    apply existsb_exists in Ht. destruct Ht as (t1 & Ht1 & Ht).
    apply existsb_exists in Ht. destruct Ht as (t2 & Ht2 & Ho).
    unfold _timeslots_overlap in Ho. apply andb_true_iff in Ho.
    rewrite !time_ltb_lt in Ho.
    exists ms1, ms2, m1, m2, ch, t1, t2. tauto.
  - intros (ms1 & ms2 & m1 & m2 & ch & t1 & t2 & -> & -> & Hm1 & Hm2
            & Hc1 & Hc2 & Ht1 & Ht2 & Ha & Hb).
    apply existsb_exists. exists m1. split; [assumption |].
    apply existsb_exists. exists m2. split; [assumption |].
    unfold meetings_conflict. apply andb_true_iff. split.
    + unfold common_days. apply existsb_exists. exists ch.
      split; [assumption |]. unfold char_in. apply existsb_exists.
      exists ch. split; [assumption | apply Ascii.eqb_refl].
    + apply existsb_exists. exists t1. split; [assumption |].
      apply existsb_exists. exists t2. split; [assumption |].
      unfold _timeslots_overlap. apply andb_true_iff.
      now rewrite !time_ltb_lt.
Qed.

(** ** Monotonicity of the score in the conflicts *)

Lemma Qnat_nonneg n : 0 <= Qnat n.
Proof.
  unfold Qnat. replace 0 with (inject_Z 0) by reflexivity.
  rewrite <- Zle_Qle. lia.
Qed.

Lemma conflict_penalty_app cfs extra :
  conflict_penalty cfs <= conflict_penalty (cfs ++ extra).
Proof.
  unfold conflict_penalty. rewrite !penalty_loop_closed_form.
  rewrite !count_severity_app, !Qnat_add.
  pose proof (Qnat_nonneg (count_severity "error" extra)).
  pose proof (Qnat_nonneg (count_severity "warning" extra)).
  lra.
Qed.

Lemma py_min_monotone a x y : x <= y -> py_min a x <= py_min a y.
Proof.
  intros H. unfold py_min.
  destruct (Qltb x a) eqn:Ex, (Qltb y a) eqn:Ey;
    rewrite ?Qltb_lt, ?Qltb_ge in *; lra.
Qed.

Lemma py_max_monotone a x y : x <= y -> py_max a x <= py_max a y.
Proof.
  intros H. unfold py_max.
  destruct (Qltb a x) eqn:Ex, (Qltb a y) eqn:Ey;
    rewrite ?Qltb_lt, ?Qltb_ge in *; lra.
Qed.

(** X23. Adding conflicts to the conflict list of a combination never
    raises its score, with or without preferences. *)
Theorem more_conflicts_never_raise_the_score :
  forall pow_half combination cfs extra prefs q1 q2,
    _calculate_quality_score pow_half combination cfs prefs = Return q1 ->
    _calculate_quality_score pow_half combination (cfs ++ extra) prefs
    = Return q2 ->
    q2 <= q1.
Proof.
  intros pow_half combination cfs extra prefs q1 q2.
  unfold _calculate_quality_score.
  pose proof (conflict_penalty_app cfs extra) as Hp.
  destruct prefs as [p |].
  - destruct (_calculate_preference_score combination p) as [e | x];
      [discriminate |].
    cbn [bind].
    destruct (_calculate_workload_balance pow_half combination) as [e | b];
      [discriminate |].
    cbn [bind]. intros [= <-] [= <-].
    apply py_max_monotone, py_min_monotone. lra.
  - cbn [bind].
    destruct (_calculate_workload_balance pow_half combination) as [e | b];
      [discriminate |].
    cbn [bind]. intros [= <-] [= <-].
    apply py_max_monotone, py_min_monotone. lra.
Qed.

(** ** What the per-day credit totals add up to *)

Lemma fold_plus_acc (l : list Q) : forall a,
  fold_left Qplus l a == a + py_sum l.
Proof.
  unfold py_sum. induction l as [| x l IH]; intros a; simpl; [ring |].
  rewrite (IH (a + x)), (IH (0 + x)). ring.
Qed.

Lemma py_sum_cons x l : py_sum (x :: l) == x + py_sum l.
Proof. unfold py_sum at 1. simpl. rewrite fold_plus_acc. ring. Qed.

Lemma sum_after_update (d : list (ascii * Q)) k x :
  py_sum (dict_values (dict_update Ascii.eqb 0 (fun v => v + x) d k))
  == py_sum (dict_values d) + x.
Proof.
  unfold dict_values. induction d as [| [k0 v0] r IH]; simpl.
  - rewrite py_sum_cons. unfold py_sum. simpl. ring.
  - destruct (Ascii.eqb k0 k); simpl.
    + rewrite !py_sum_cons. ring.
    + rewrite !py_sum_cons, IH. ring.
Qed.

Lemma sum_after_days x ds : forall d : list (ascii * Q),
  py_sum (dict_values
            (fold_left
               (fun d day => dict_update Ascii.eqb 0 (fun v => v + x) d day)
               ds d))
  == py_sum (dict_values d) + Qnat (List.length ds) * x.
Proof.
  induction ds as [| day ds IH]; intros d.
  - simpl. change (Qnat 0) with 0. ring.
  - cbn [fold_left List.length]. rewrite IH, sum_after_update, Qnat_succ.
    ring.
Qed.

Lemma sum_after_meeting cr daily m daily' :
  add_meeting_credits cr daily m = Return daily' ->
  py_sum (dict_values daily') == py_sum (dict_values daily) + cr.
Proof.
  unfold add_meeting_credits.
  destruct (chars (days m)) as [| ch ds] eqn:E; [discriminate |].
  assert (0 < Qnat (List.length (ch :: ds))) as Hp
      by (apply Qnat_pos; simpl; lia).
  remember (ch :: ds) as dl eqn:Edl. intros H. injection H as <-.
  rewrite sum_after_days. unfold Qnat in *.
  set (q := inject_Z (Z.of_nat (List.length dl))) in *.
  set (a := py_sum (dict_values daily)).
  field. intros H. rewrite H in Hp. now apply Qlt_irrefl in Hp.
Qed.

Lemma sum_after_meetings cr ms : forall daily daily',
  for_each (add_meeting_credits cr) ms daily = Return daily' ->
  py_sum (dict_values daily')
  == py_sum (dict_values daily) + cr * Qnat (List.length ms).
Proof.
  induction ms as [| m ms IH]; intros daily daily' H.
  - simpl in H. injection H as <-. cbn [List.length].
    change (Qnat 0) with 0. ring.
  - cbn [for_each] in H.
    destruct (add_meeting_credits cr daily m) as [e | d1] eqn:E1;
      [discriminate |].
    cbn [bind] in H. rewrite (IH _ _ H), (sum_after_meeting _ _ _ _ E1).
    cbn [List.length]. rewrite Qnat_succ. ring.
Qed.

Lemma sum_after_section daily section daily' :
  add_section_credits daily section = Return daily' ->
  py_sum (dict_values daily')
  == py_sum (dict_values daily) + credited section.
Proof.
  unfold add_section_credits, credited, get_credits.
  destruct (meetings section) as [[| m ms] |];
    destruct (credits section) as [| [cr |]];
    cbn [bind or_zero];
    try discriminate;
    try (intros [= <-]; ring).
  - intros [= <-]. destruct (truthy_num (Some cr)); [| ring].
    change (Qnat (List.length (@nil Meeting))) with 0. ring.
  - destruct (truthy_num (Some cr)).
    + apply sum_after_meetings.
    + intros [= <-]. ring.
Qed.

(** X24. When the per-day credit totals are computed (the loop raises
    nothing), they add up to the credits of every section with truthy
    meetings and credits, counted once for each of its meetings: a section
    with two meetings weighs twice its credits in the workload balance. *)
Theorem daily_credits_total :
  forall combination daily,
    daily_credits combination = Return daily ->
    py_sum (dict_values daily) == py_sum (map credited combination).
Proof.
  intros combination daily. unfold daily_credits.
  assert (forall d0 d,
             for_each add_section_credits combination d0 = Return d ->
             py_sum (dict_values d)
             == py_sum (dict_values d0) + py_sum (map credited combination))
    as H.
  { induction combination as [| s l IH]; intros d0 d Hd.
    - simpl in Hd. injection Hd as <-. cbn [map].
      change (py_sum []) with 0. ring.
    - cbn [for_each] in Hd.
      destruct (add_section_credits d0 s) as [e | d1] eqn:E1;
        [discriminate |].
      cbn [bind] in Hd. rewrite (IH _ _ Hd), (sum_after_section _ _ _ E1).
      cbn [map]. rewrite py_sum_cons. ring. }
  intros Hd. rewrite (H [] daily Hd).
  change (py_sum (dict_values [])) with 0. ring.
Qed.

(** ** When generation succeeds *)

Lemma dict_set_in (d : list (string * list CourseSection)) k v k' v' :
  In (k', v') (dict_set String.eqb d k v) ->
  (k', v') = (k, v) \/ In (k', v') d.
Proof.
  induction d as [| [k0 v0] r IH]; simpl.
  - intros [H | []]. left. now symmetry.
  - destruct (String.eqb_spec k0 k) as [-> | Hne]; simpl.
    + intros [H | H]; [left; now symmetry | right; now right].
    + intros [H | H]; [right; now left |].
      destruct (IH H) as [H' | H']; [now left | right; now right].
Qed.

Lemma filtered_sections_come_from_available available cs include_full :
  forall cid secs s,
    In (cid, secs) (_filter_sections available cs include_full) ->
    In s secs ->
    section_survives cs include_full s = true
    /\ exists all_secs, In (cid, all_secs) available /\ In s all_secs.
Proof.
  unfold _filter_sections.
  assert (forall rest acc cid secs s,
             (forall k v x, In (k, v) acc -> In x v ->
                            section_survives cs include_full x = true
                            /\ exists a, In (k, a) available /\ In x a) ->
             (forall k v, In (k, v) rest -> In (k, v) available) ->
             In (cid, secs)
                (fold_left
                   (fun filtered '(c, l) =>
                      match filter (section_survives cs include_full) l with
                      | [] => filtered
                      | fs => dict_set String.eqb filtered c fs
                      end)
                   rest acc) ->
             In s secs ->
             section_survives cs include_full s = true
             /\ exists a, In (cid, a) available /\ In s a) as H.
  { induction rest as [| [c l] r IH]; intros acc cid secs s Hacc Hrest Hin Hs.
    - simpl in Hin. eapply Hacc; eassumption.
    - cbn [fold_left] in Hin.
      apply (IH _ cid secs s) in Hin; try assumption.
      + intros k v x Hk Hx.
        destruct (filter (section_survives cs include_full) l) as [| y fs]
          eqn:E; [eapply Hacc; eassumption |].
        apply dict_set_in in Hk. destruct Hk as [[= -> ->] | Hk];
          [| eapply Hacc; eassumption].
        rewrite <- E in Hx. apply filter_In in Hx. destruct Hx as [Hx Hsv].
        split; [exact Hsv |]. exists l. split; [| exact Hx].
        apply Hrest. now left.
      + intros k v Hk. apply Hrest. now right. }
  intros cid secs s Hin Hs.
  apply (H available [] cid secs s); auto. intros k v x [].
Qed.

Lemma one_per_course_in {A : Type} (c : list A) (ls : list (list A)) x :
  one_per_course c ls -> In x c -> exists l, In l ls /\ In x l.
Proof.
  unfold one_per_course. induction 1 as [| y l c' ls' Hy _ IH];
    intros Hin; [contradiction |].
  destruct Hin as [<- | Hin].
  - exists l. split; [now left | assumption].
  - destruct (IH Hin) as (l' & Hl' & Hx). exists l'. split; [now right | assumption].
Qed.


(** ** Attributes that are not set *)

Lemma uncredited_never_divides section :
  carries_credits section = false -> divides_by_zero section = false.
Proof.
  unfold carries_credits, divides_by_zero.
  destruct (credits section); [| discriminate].
  intros _. now destruct (meetings section).
Qed.

(** scoring a combination none of whose sections carries [credits] raises
    the attribute error: in the preference score, in the balance bonus, or
    at the latest in the sum of the credits of the option *)
Lemma uncredited_score_raises pow_half env request k s l cfs :
  (forall x, In x (s :: l) -> carries_credits x = false) ->
  score_schedule pow_half env request (k, (s :: l, cfs))
  = Raise no_credits_attribute.
Proof.
  intros H. unfold score_schedule.
  assert (forallb carries_credits (s :: l) = false) as Hf.
  { cbn [forallb]. now rewrite (H s (or_introl eq_refl)). }
  assert (existsb divides_by_zero (s :: l) = false) as Hz.
  { apply existsb_false_forall. intros x Hx.
    apply uncredited_never_divides. now apply H. }
  pose proof (quality_score_spec pow_half (s :: l) cfs (preferences request))
    as Hq.
  destruct (scorer_exception (s :: l) (preferences request)) as [e |] eqn:E.
  - rewrite Hq. cbn [bind].
    destruct (scorer_exception_kind _ _ _ E) as [[-> Hd] | [-> _]];
      [congruence | reflexivity].
  - destruct Hq as (q & -> & _). cbn [bind].
    pose proof (sum_credits_spec (s :: l)) as Hs. rewrite Hf in Hs.
    now rewrite Hs.
Qed.

Lemma kept_combination_sections env request available combos c cfs :
  _generate_section_combinations env
    (_filter_sections available (constraints request)
       (include_full_sections request)) = Return combos ->
  In (c, cfs) (valid_schedules request combos) ->
  c <> []
  /\ forall x, In x c ->
               exists cid secs, In (cid, secs) available /\ In x secs.
Proof.
  intros Hc Hin. apply valid_entry in Hin. destruct Hin as (Hin & _ & _).
  pose proof (generated_combinations_one_per_course _ _ _ Hc) as Hall.
  rewrite Forall_forall in Hall. specialize (Hall c Hin). split.
  - intros ->. unfold one_per_course in Hall.
    unfold _generate_section_combinations in Hc.
    destruct (dict_values _) as [| l ls];
      [injection Hc as <-; contradiction | inversion Hall].
  - intros x Hx.
    destruct (one_per_course_in _ _ _ Hall Hx) as (l & Hl & Hxl).
    unfold dict_values in Hl. apply in_map_iff in Hl.
    destruct Hl as ([cid l'] & <- & Hl).
    destruct (filtered_sections_come_from_available _ _ _ _ _ _ Hl Hxl)
      as (_ & a & Ha & Hxa).
    now exists cid, a.
Qed.

(** X26. When no available section carries [credits], as is the case of
    the sections built by [_parse_section_data], the generator never
    returns an option: as soon as one combination is kept, scoring it
    raises the attribute error and generation fails with
    [GENERATION_FAILED], the message being the prefix of the handler
    followed by the text of that error; a generation that returns has kept
    no combination and has no option. *)
Theorem sections_without_credits_give_no_option :
  forall pow_half env request available,
    (forall cid secs s, In (cid, secs) available -> In s secs ->
                        carries_credits s = false) ->
    match generate_schedules pow_half env request available with
    | Return g =>
        options g = [] /\ valid_schedules_found (gs_metadata g) = 0%nat
    | Raise e => exn_code e = Some "GENERATION_FAILED"%string
    end
    /\ forall all_combinations,
        _validate_request request available = Return tt ->
        _generate_section_combinations env
          (_filter_sections available (constraints request)
             (include_full_sections request)) = Return all_combinations ->
        valid_schedules request all_combinations <> [] ->
        exists e,
          is_attribute_error e
          /\ generation pow_half env request available = Raise e
          /\ generate_schedules pow_half env request available
             = Raise (ScheduleGeneratorError
                        ("Schedule generation failed: " ++ exn_str e)%string
                        (Some "GENERATION_FAILED"%string)).
Proof.
  intros pow_half env request available Hno.
  assert (forall all_combinations,
             _validate_request request available = Return tt ->
             _generate_section_combinations env
               (_filter_sections available (constraints request)
                  (include_full_sections request))
             = Return all_combinations ->
             valid_schedules request all_combinations <> [] ->
             generation pow_half env request available
             = Raise no_credits_attribute) as Hfail.
  { intros combos Hv Hc Hne.
    unfold generation. rewrite Hv. cbn [bind]. cbv zeta.
    rewrite Hc. cbn [bind].
    destruct (valid_schedules request combos) as [| [c cfs] rest] eqn:E;
      [contradiction |].
    destruct (kept_combination_sections env request available combos c cfs Hc)
      as [Hnil Hsec]; [rewrite E; now left |].
    destruct c as [| s l]; [contradiction |].
    cbn [List.length seq combine map_result].
    rewrite uncredited_score_raises; [reflexivity |].
    intros x Hx. destruct (Hsec x Hx) as (cid & secs & Ha & Hxs).
    now apply (Hno cid secs). }
  split.
  - destruct (generate_schedules pow_half env request available)
      as [e | g] eqn:G.
    + now apply (generate_schedules_error_kind pow_half env request
                   available).
    + destruct (generation_record _ _ _ _ _ G)
        as (combos & scored & Hv & Hc & Hs & Ho & _ & Hf & _).
      destruct (valid_schedules request combos) as [| entry rest] eqn:E.
      * simpl in Hs. injection Hs as <-.
        split; [rewrite Ho; now rewrite firstn_nil | exact Hf].
      * assert (valid_schedules request combos <> []) as Hne
          by (rewrite E; discriminate).
        pose proof (generate_schedules_raises _ _ _ _ _
                      (Hfail combos Hv Hc Hne)) as Hr.
        congruence.
  - intros combos Hv Hc Hne. exists no_credits_attribute.
    split; [exact I |]. split; [now apply (Hfail combos) |].
    apply generate_schedules_raises. now apply (Hfail combos).
Qed.

(** X27. When the constraints carry [min_quality_score] set to [None], the
    threshold test cannot be evaluated: generation fails with
    [GENERATION_FAILED] on a type error as soon as one combination has been
    scored, and a generation that returns has kept no combination and has
    no option. *)
Theorem null_threshold_fails_generation :
  forall pow_half env request available c,
    constraints request = Some c ->
    min_quality_score c = Present None ->
    (1 <= max_options request)%nat ->
    match generate_schedules pow_half env request available with
    | Return g =>
        options g = [] /\ valid_schedules_found (gs_metadata g) = 0%nat
    | Raise e => exn_code e = Some "GENERATION_FAILED"%string
    end
    /\ forall all_combinations scored,
        _validate_request request available = Return tt ->
        _generate_section_combinations env
          (_filter_sections available (constraints request)
             (include_full_sections request)) = Return all_combinations ->
        map_result (score_schedule pow_half env request)
          (combine
             (seq 1 (List.length (valid_schedules request all_combinations)))
             (valid_schedules request all_combinations)) = Return scored ->
        scored <> [] ->
        exists e,
          is_type_error e
          /\ generation pow_half env request available = Raise e
          /\ generate_schedules pow_half env request available
             = Raise (ScheduleGeneratorError
                        ("Schedule generation failed: " ++ exn_str e)%string
                        (Some "GENERATION_FAILED"%string)).
Proof.
  intros pow_half env request available c Hcons Hmin Hmax.
  assert (forall all_combinations scored,
             _validate_request request available = Return tt ->
             _generate_section_combinations env
               (_filter_sections available (constraints request)
                  (include_full_sections request))
             = Return all_combinations ->
             map_result (score_schedule pow_half env request)
               (combine
                  (seq 1 (List.length
                            (valid_schedules request all_combinations)))
                  (valid_schedules request all_combinations))
             = Return scored ->
             scored <> [] ->
             generation pow_half env request available = Raise unorderable)
    as Hfail.
  { intros combos scored Hv Hc Hs Hne.
    unfold generation. rewrite Hv. cbn [bind]. cbv zeta.
    rewrite Hc. cbn [bind]. rewrite Hs. cbn [bind].
    unfold apply_min_quality. rewrite Hcons, Hmin.
    destruct (sort_desc quality_score scored) as [| o r] eqn:E.
    - pose proof (sort_desc_perm quality_score scored) as Hp.
      rewrite E in Hp. apply Permutation_nil in Hp. contradiction.
    - destruct (max_options request) as [| n]; [lia |]. reflexivity. }
  split.
  - destruct (generate_schedules pow_half env request available)
      as [e | g] eqn:G.
    + now apply (generate_schedules_error_kind pow_half env request
                   available).
    + destruct (generation_record _ _ _ _ _ G)
        as (combos & scored & Hv & Hc & Hs & Ho & _ & Hf & _).
      destruct scored as [| o r].
      * apply map_result_length in Hs.
        rewrite length_combine, length_seq, Nat.min_id in Hs.
        split; [rewrite Ho; now rewrite firstn_nil | now rewrite Hf].
      * assert (o :: r <> []) as Hne by discriminate.
        pose proof (generate_schedules_raises _ _ _ _ _
                      (Hfail combos (o :: r) Hv Hc Hs Hne)) as Hr.
        congruence.
  - intros combos scored Hv Hc Hs Hne. exists unorderable.
    split; [exact I |]. split; [now apply (Hfail combos scored) |].
    apply generate_schedules_raises. now apply (Hfail combos scored).
Qed.

(** * The further statements at concrete inputs *)

Lemma exact_enumeration_one_section_per_course_witness :
  exists combos,
    _generate_section_combinations clock_a two_course_sections = Return combos
    /\ List.length combos = 4%nat
    /\ forall c, In c combos
                 <-> one_per_course c (dict_values two_course_sections).
Proof.
  destruct (exact_enumeration_one_section_per_course clock_a
              two_course_sections eq_refl) as (combos & Hc & _ & H).
  exists combos. split; [exact Hc |].
  destruct H as [Hlen Hin]; [discriminate |].
  split; [rewrite Hlen; reflexivity | exact Hin].
Defined.

Lemma filter_sections_keeps_order_drops_empty_witness :
  _filter_sections math_full_sections None false
  = flat_map (surviving None false) math_full_sections.
Proof.
  apply (filter_sections_keeps_order_drops_empty math_full_sections None
           false).
  repeat constructor; simpl; intuition discriminate.
Defined.

Lemma section_conflicts_with_itself_witness :
  In (professor_conflict None sem300_01 sem300_01)
     (_detect_professor_conflicts [cs201_01; sem300_01; math220_01]).
Proof.
  apply (section_conflicts_with_itself [cs201_01] sem300_01 [math220_01]
           [lovelace; turing] None).
  - reflexivity.
  - simpl. lia.
  - reflexivity.
Defined.

Lemma preference_score_range_witness :
  exists p,
    _calculate_preference_score [cs201_01; math220_01] balanced_preferences
    = Return p
    /\ 0 <= p /\ p < 101.
Proof.
  destruct (preference_score_range [cs201_01; math220_01]
              balanced_preferences) as (_ & _ & _ & _ & _ & H).
  - repeat constructor; unfold Qle; simpl; lia.
  - repeat split; unfold Qle; simpl; lia.
  - specialize (H eq_refl).
    assert (forallb carries_credits [cs201_01; math220_01] = true) as E
      by reflexivity.
    rewrite E in H. destruct H as (p & Hp & H0 & _ & H1).
    exists p. split; [exact Hp |]. split; assumption.
Defined.

Lemma time_blocks_cover_whole_minutes_witness :
  _get_time_block (hm 10 30) = "morning"%string
  /\ _get_time_block (mk_time 8 59 30 0) = "other"%string.
Proof.
  split.
  - destruct (time_blocks_cover_whole_minutes (hm 10 30)) as (_ & H & _).
    + unfold in_range. simpl. lia.
    + destruct H as (_ & H & _); [split; reflexivity |].
      apply H. simpl. lia.
  - destruct (time_blocks_cover_whole_minutes (mk_time 8 59 30 0))
      as (_ & _ & H).
    + unfold in_range. simpl. lia.
    + apply H; [reflexivity | left; simpl; lia | simpl; auto].
Defined.

Lemma multi_character_day_preferences_reject_all_witness :
  _violates_constraints math120_02 thursday_only = true.
Proof.
  apply (multi_character_day_preferences_reject_all math120_02 thursday_only
           "TH"%string []).
  - reflexivity.
  - repeat constructor. simpl. lia.
  - exists [mk_Meeting [slot 15 0 15 50] "TH"],
      (mk_Meeting [slot 15 0 15 50] "TH"), (slot 15 0 15 50).
    simpl. auto.
Defined.

Lemma option_is_a_scored_combination_witness :
  exists g,
    generate_schedules sqrt_thousandths clock_a ranking_request
      two_course_sections = Return g
    /\ List.length (options g) = 3%nat
    /\ Forall (fun o => 0 <= quality_score o /\ quality_score o <= 100
                        /\ conflicts o
                           = map details (_detect_conflicts (sections o)))
         (options g).
Proof.
  destruct (generate_schedules sqrt_thousandths clock_a ranking_request
              two_course_sections) as [e | g] eqn:E.
  - vm_compute in E. discriminate.
  - exists g. split; [reflexivity |]. split.
    + pose proof E as E2.
      apply (f_equal (fun r => match r with
                               | Return g => List.length (options g)
                               | Raise _ => 0%nat
                               end)) in E2.
      vm_compute in E2. now symmetry.
    + apply Forall_forall. intros o Hin.
      destruct (option_is_a_scored_combination sqrt_thousandths clock_a
                  ranking_request two_course_sections g o E Hin)
        as (_ & Hc & _ & _ & H0 & H1 & _).
      auto.
Defined.

Lemma constrained_generation_is_conflict_free_witness :
  exists g,
    generate_schedules sqrt_thousandths clock_a second_year_request
      second_year_sections = Return g
    /\ List.length (options g) = 2%nat
    /\ Forall (fun o => conflicts o = []
                        /\ _detect_conflicts (sections o) = []
                        /\ has_conflicts (metadata o) = false) (options g)
    /\ gs_has_conflicts g = false.
Proof.
  destruct (generate_schedules sqrt_thousandths clock_a second_year_request
              second_year_sections) as [e | g] eqn:E.
  - vm_compute in E. discriminate.
  - exists g. split; [reflexivity |]. split.
    + pose proof E as E2.
      apply (f_equal (fun r => match r with
                               | Return g => List.length (options g)
                               | Raise _ => 0%nat
                               end)) in E2.
      vm_compute in E2. now symmetry.
    + destruct (constrained_generation_is_conflict_free sqrt_thousandths
                  clock_a second_year_request second_year_sections g
                  default_constraints E eq_refl) as (H1 & _ & H2).
      split; assumption.
Defined.

Lemma generation_metadata_consistent_witness :
  exists g,
    generate_schedules sqrt_thousandths clock_a ranking_request
      two_course_sections = Return g
    /\ (List.length (options g) <= valid_schedules_found (gs_metadata g))%nat
    /\ valid_schedules_found (gs_metadata g) = total_options_generated g
    /\ 0 <= average_quality (gs_metadata g)
    /\ average_quality (gs_metadata g) <= 100.
Proof.
  destruct (generate_schedules sqrt_thousandths clock_a ranking_request
              two_course_sections) as [e | g] eqn:E.
  - vm_compute in E. discriminate.
  - exists g. split; [reflexivity |].
    destruct (generation_metadata_consistent sqrt_thousandths clock_a
                ranking_request two_course_sections g E)
      as (H1 & _ & H2 & _ & H3 & H4 & _).
    split; [exact H1 |]. split; [now apply H2 |]. split; assumption.
Defined.

Lemma unweighted_constrained_ranking_is_enumeration_order_witness :
  exists g,
    generate_schedules sqrt_thousandths clock_a second_year_request
      second_year_sections = Return g
    /\ Forall (fun o => quality_score o = 100) (options g).
Proof.
  destruct (generate_schedules sqrt_thousandths clock_a second_year_request
              second_year_sections) as [e | g] eqn:E.
  - vm_compute in E. discriminate.
  - exists g. split; [reflexivity |].
    now destruct (unweighted_constrained_ranking_is_enumeration_order
                    sqrt_thousandths clock_a second_year_request
                    second_year_sections g default_constraints E eq_refl
                    eq_refl) as (_ & H & _).
Defined.

Lemma nothing_survives_gives_empty_result_witness :
  exists g,
    generate_schedules sqrt_thousandths clock_a only_math_request
      [("MATH120"%string, [math120_01])] = Return g
    /\ options g = []
    /\ total_options_generated g = 0%nat.
Proof.
  destruct (nothing_survives_gives_empty_result sqrt_thousandths clock_a
              only_math_request [("MATH120"%string, [math120_01])]
              eq_refl eq_refl) as (g & Hg & Ho & Ht & _).
  exists g. auto.
Defined.

Lemma more_conflicts_never_raise_the_score_witness :
  match _calculate_quality_score sqrt_thousandths [cs101_01; math120_01] []
          None,
        _calculate_quality_score sqrt_thousandths [cs101_01; math120_01]
          (_detect_conflicts [cs101_01; math120_01]) None with
  | Return q1, Return q2 => q2 <= q1
  | _, _ => False
  end.
Proof.
  destruct (_calculate_quality_score sqrt_thousandths [cs101_01; math120_01]
              [] None) as [e | q1] eqn:E1;
    [vm_compute in E1; discriminate |].
  destruct (_calculate_quality_score sqrt_thousandths [cs101_01; math120_01]
              (_detect_conflicts [cs101_01; math120_01]) None)
    as [e | q2] eqn:E2;
    [vm_compute in E2; discriminate |].
  exact (more_conflicts_never_raise_the_score sqrt_thousandths
           [cs101_01; math120_01] []
           (_detect_conflicts [cs101_01; math120_01]) None q1 q2 E1 E2).
Defined.

Lemma daily_credits_total_witness :
  exists daily,
    daily_credits [cs201_01; cs201_02] = Return daily
    /\ py_sum (dict_values daily) == 9.
Proof.
  destruct (daily_credits [cs201_01; cs201_02]) as [e | daily] eqn:E.
  - vm_compute in E. discriminate.
  - exists daily. split; [reflexivity |].
    rewrite (daily_credits_total [cs201_01; cs201_02] daily E).
    reflexivity.
Defined.


Lemma sections_without_credits_give_no_option_witness :
  exists e,
    generate_schedules sqrt_thousandths clock_a
      (no_constraints_request ["HIST110"%string] 5)
      [("HIST110"%string, [hist110_01])] = Raise e
    /\ exn_code e = Some "GENERATION_FAILED"%string.
Proof.
  destruct (sections_without_credits_give_no_option sqrt_thousandths clock_a
              (no_constraints_request ["HIST110"%string] 5)
              [("HIST110"%string, [hist110_01])]) as [H _].
  - intros cid secs s [H | []] Hs. injection H as <- <-.
    destruct Hs as [<- | []]. reflexivity.
  - destruct (generate_schedules sqrt_thousandths clock_a
                (no_constraints_request ["HIST110"%string] 5)
                [("HIST110"%string, [hist110_01])]) as [e | g] eqn:E.
    + exists e. split; [reflexivity | exact H].
    + vm_compute in E. discriminate.
Defined.

Lemma null_threshold_fails_generation_witness :
  exists e,
    generate_schedules sqrt_thousandths clock_a null_threshold_request
      second_year_sections = Raise e
    /\ exn_code e = Some "GENERATION_FAILED"%string.
Proof.
  destruct (null_threshold_fails_generation sqrt_thousandths clock_a
              null_threshold_request second_year_sections null_threshold
              eq_refl eq_refl) as [H _].
  - simpl. lia.
  - destruct (generate_schedules sqrt_thousandths clock_a
                null_threshold_request second_year_sections)
      as [e | g] eqn:E.
    + exists e. split; [reflexivity | exact H].
    + vm_compute in E. discriminate.
Defined.
